(** * FakeChatGPTAPI: a browser-session controller driven through Selenium

    Shallow embedding of [src/fake_chatgpt_api.py].  The controller is
    imperative Python that talks to a browser, to the file system and to the
    operator's terminal.  Every such interaction is an external call whose
    outcome the program does not control, so the embedding runs the methods in
    a state-and-exception monad over a [State] that carries

    - the attributes of the controller object ([Self]),
    - the log of the external calls issued so far, in order,
    - the text files written or found on disk,
    - an oracle giving the outcome of the n-th external call.

    An exception raised by an external call keeps the state reached so far, as
    in Python.  The oracle is arbitrary: a statement proved for every state
    holds however the page, the disk and the operator behave.

    Left out: the text of the diagnostic [print] statements, the passing of
    time (a wait either returns or raises), the parsing of the configuration
    file (the embedding starts from the options read), and interrupts that are
    not raised by the code or the calls it makes ([KeyboardInterrupt]). *)

From stdpp Require Import gmap strings list pretty.

Set Warnings "-register-all".
Set Default Proof Using "Type".

(** ** Strings *)

Module Str.

Definition nl : string := String (Ascii.ascii_of_nat 10) EmptyString.
Definition at_sign : Ascii.ascii := Ascii.ascii_of_nat 64.
Definition newline : Ascii.ascii := Ascii.ascii_of_nat 10.
Definition dq : string := String (Ascii.ascii_of_nat 34) EmptyString.

(** [q s] is [s] between double quotes. *)
Definition q (s : string) : string := dq +:+ s +:+ dq.

(** [str.split(sep)] for a separator of one character.  The separators
    used by the source are ASCII, so splitting the UTF-8 bytes splits the
    text at the same places. *)
Fixpoint split (sep : Ascii.ascii) (s : string) : list string :=
  match s with
  | EmptyString => [EmptyString]
  | String c rest =>
      if Ascii.eqb c sep then EmptyString :: split sep rest
      else match split sep rest with
           | [] => [String c EmptyString]
           | w :: ws => String c w :: ws
           end
  end.

(** [sep.join(parts)]. *)
Fixpoint join (sep : string) (parts : list string) : string :=
  match parts with
  | [] => EmptyString
  | [p] => p
  | p :: ps => p +:+ sep +:+ join sep ps
  end.

(** Every occurrence of the character [a] replaced by [b]. *)
Fixpoint replace_char (a b : Ascii.ascii) (s : string) : string :=
  match s with
  | EmptyString => EmptyString
  | String c rest =>
      String (if Ascii.eqb c a then b else c) (replace_char a b rest)
  end.

(** Truth value of a Python string. *)
Definition truthy (s : string) : bool :=
  match s with EmptyString => false | _ => true end.

End Str.

(** ** Exceptions and results *)

(** The exception classes that reach the code.  All of them derive from
    Python's [Exception]. *)
Inductive exn :=
| TimeoutException
| NoSuchElementException
| StaleElementReferenceException
| ElementClickInterceptedException
| ElementNotInteractableException
| InvalidCookieDomainException
| WebDriverException
| FileNotFoundError
| PermissionError
| JSONDecodeError
| EOFError
| UnboundLocalError
| AttributeError
| TypeError
| IndexError.

Inductive Res (A : Type) :=
| Ok (a : A)
| Raise (e : exn).
Arguments Ok {A} a.
Arguments Raise {A} e.

(** [except TimeoutException], [except NoSuchElementException],
    [except Exception] and the bare [except:] as predicates on the raised
    exception. *)
Definition is_TimeoutException (e : exn) : bool :=
  match e with TimeoutException => true | _ => false end.
Definition is_NoSuchElementException (e : exn) : bool :=
  match e with NoSuchElementException => true | _ => false end.
Definition is_Exception (e : exn) : bool := true.
Definition bare_except (e : exn) : bool := true.

(** ** JSON values, as [json.loads] builds them *)

Inductive json :=
| JNull
| JBool (b : bool)
| JInt (z : Z)
| JFloat (literal : string)
| JStr (s : string)
| JArr (l : list json)
| JObj (m : gmap string json).

(** A cookie is a Python [dict] with string keys. *)
Abbreviation cookie := (gmap string json).

(** ** External calls *)

Definition Element := nat.

Inductive Locator :=
| ById (id : string)
| ByCss (selector : string)
| ByXPath (xpath : string).

Inductive KeyArg :=
| Chars (text : string)
| Key_SHIFT
| Key_RETURN.

Inductive Call :=
| MakeDirs (path : string)
| OpenWrite (path : string)
| OpenRead (path : string)
| Input (prompt : string)
| Sleep (seconds : Z)
| LaunchChrome (options : list string)
| Get (url : string)
| Refresh
| AddCookie (c : cookie)
| GetCookies
| FindElement (loc : Locator)
| WaitPresence (loc : Locator) (timeout : Z)
| WaitAllPresence (loc : Locator) (timeout : Z)
| WaitClickable (loc : Locator) (timeout : Z)
| WaitInvisible (loc : Locator) (timeout : Z)
| ExecuteScript (script : string) (arg : Element)
| Click (e : Element)
| SendKeys (e : Element) (keys : list KeyArg)
| IsEnabled (e : Element)
| GetText (e : Element).

(** The outcome of the [n]-th external call, one table per result type. *)
Record Oracle := mkOracle {
  ans_unit : nat -> Call -> Res unit;
  ans_element : nat -> Call -> Res Element;
  ans_elements : nat -> Call -> Res (list Element);
  ans_bool : nat -> Call -> Res bool;
  ans_text : nat -> Call -> Res string;
  ans_cookies : nat -> Call -> Res (list cookie)
}.

(** ** The controller object and the state of a run *)

(** The attributes of a [FakeChatGPTAPI] object.  [send_button] is [None]
    after a [check_conditions] that ran out of retries (line 447);
    [prompt_text_area] is an element once [__init__] has located it. *)
Record Self := mkSelf {
  is_context_created : bool;
  driver_path : string;
  url : string;
  wait_time : Z;
  use_4o : bool;
  prompt_text_area : option Element;
  send_button : option Element
}.

Record State := mkState {
  self : Self;
  clock : nat;
  log : list Call;
  files : gmap string string;
  oracle : Oracle
}.

Definition with_self (f : Self -> Self) (s : State) : State :=
  mkState (f (self s)) (clock s) (log s) (files s) (oracle s).

Definition with_call (c : Call) (s : State) : State :=
  mkState (self s) (S (clock s)) (log s ++ [c]) (files s) (oracle s).

Definition with_file (path text : string) (s : State) : State :=
  mkState (self s) (clock s) (log s) (<[path := text]> (files s)) (oracle s).

Definition set_is_context_created (b : bool) (o : Self) : Self :=
  mkSelf b (driver_path o) (url o) (wait_time o) (use_4o o)
         (prompt_text_area o) (send_button o).
Definition set_driver_path (p : string) (o : Self) : Self :=
  mkSelf (is_context_created o) p (url o) (wait_time o) (use_4o o)
         (prompt_text_area o) (send_button o).
Definition set_url (u : string) (o : Self) : Self :=
  mkSelf (is_context_created o) (driver_path o) u (wait_time o) (use_4o o)
         (prompt_text_area o) (send_button o).
Definition set_wait_time (t : Z) (o : Self) : Self :=
  mkSelf (is_context_created o) (driver_path o) (url o) t (use_4o o)
         (prompt_text_area o) (send_button o).
Definition set_use_4o (b : bool) (o : Self) : Self :=
  mkSelf (is_context_created o) (driver_path o) (url o) (wait_time o) b
         (prompt_text_area o) (send_button o).
Definition set_prompt_text_area (e : option Element) (o : Self) : Self :=
  mkSelf (is_context_created o) (driver_path o) (url o) (wait_time o)
         (use_4o o) e (send_button o).
Definition set_send_button (e : option Element) (o : Self) : Self :=
  mkSelf (is_context_created o) (driver_path o) (url o) (wait_time o)
         (use_4o o) (prompt_text_area o) e.

(** ** The monad of methods *)

Definition M (A : Type) : Type := State -> Res A * State.

Definition ret {A} (a : A) : M A := fun s => (Ok a, s).
Definition raise {A} (e : exn) : M A := fun s => (Raise e, s).
Definition bind {A B} (m : M A) (k : A -> M B) : M B :=
  fun s => match m s with
           | (Ok a, s') => k a s'
           | (Raise e, s') => (Raise e, s')
           end.

Declare Scope py_scope.
Delimit Scope py_scope with py.
Notation "x <- m ;; k" := (bind m (fun x => k))
  (at level 100, m at next level, right associativity) : py_scope.
Notation "m ;; k" := (bind m (fun _ => k))
  (at level 100, right associativity) : py_scope.
Open Scope py_scope.

Definition gets {A} (f : Self -> A) : M A := fun s => (Ok (f (self s)), s).
Definition modify (f : Self -> Self) : M unit := fun s => (Ok tt, with_self f s).
Definition lift {A} (r : Res A) : M A := fun s => (r, s).

(** [try: body / except cls as e: handler e / else: orelse]. An exception
    outside [cls] propagates; so does one raised by [handler] or [orelse]. *)
Definition try_except_else {A B} (body : M A) (cls : exn -> bool)
    (handler : exn -> M B) (orelse : A -> M B) : M B :=
  fun s => match body s with
           | (Ok a, s') => orelse a s'
           | (Raise e, s') => if cls e then handler e s' else (Raise e, s')
           end.

Definition try_except {A} (body : M A) (cls : exn -> bool)
    (handler : exn -> M A) : M A :=
  try_except_else body cls handler ret.

(** The outcome of [m] as a value; the caller decides what to do with an
    exception. *)
Definition reify {A} (m : M A) : M (Res A) :=
  fun s => let (r, s') := m s in (Ok r, s').

(** An external call: logged, answered by the oracle at the current clock. *)
Definition invoke {A} (ans : Oracle -> nat -> Call -> Res A) (c : Call) : M A :=
  fun s => (ans (oracle s) (clock s) c, with_call c s).

(** ** Selenium, the operating system and the terminal *)

Definition wait_presence (loc : Locator) (timeout : Z) : M Element :=
  invoke ans_element (WaitPresence loc timeout).
Definition wait_all_presence (loc : Locator) (timeout : Z) : M (list Element) :=
  invoke ans_elements (WaitAllPresence loc timeout).
Definition wait_clickable (loc : Locator) (timeout : Z) : M Element :=
  invoke ans_element (WaitClickable loc timeout).
Definition wait_invisible (loc : Locator) (timeout : Z) : M unit :=
  invoke ans_unit (WaitInvisible loc timeout).
Definition find_element (loc : Locator) : M Element :=
  invoke ans_element (FindElement loc).
Definition click (e : Element) : M unit := invoke ans_unit (Click e).
Definition send_keys (e : Element) (keys : list KeyArg) : M unit :=
  invoke ans_unit (SendKeys e keys).
Definition is_enabled (e : Element) : M bool := invoke ans_bool (IsEnabled e).
Definition text (e : Element) : M string := invoke ans_text (GetText e).
Definition execute_script (script : string) (arg : Element) : M unit :=
  invoke ans_unit (ExecuteScript script arg).
Definition driver_refresh : M unit := invoke ans_unit Refresh.
Definition driver_get (u : string) : M unit := invoke ans_unit (Get u).
Definition add_cookie (c : cookie) : M unit := invoke ans_unit (AddCookie c).
Definition get_cookies : M (list cookie) := invoke ans_cookies GetCookies.
Definition launch_chrome (options : list string) : M unit :=
  invoke ans_unit (LaunchChrome options).
Definition input (prompt : string) : M string := invoke ans_text (Input prompt).
Definition makedirs (path : string) : M unit := invoke ans_unit (MakeDirs path).

(** [time.sleep] returns nothing and does not fail. *)
Definition sleep (seconds : Z) : M unit :=
  fun s => (Ok tt, with_call (Sleep seconds) s).

(** [os.path.exists].  No file has the empty name.  The state holds text
    files only: a path that names a directory counts as absent. *)
Definition path_exists (path : string) : M bool :=
  fun s => (Ok (match files s !! path with
                | Some _ => negb (String.eqb path "")
                | None => false
                end), s).

(** [open(path, 'w')]: the empty name is refused by every system; for any
    other name the system decides (the directory may be missing or
    protected).  A file opened for writing is created or emptied. *)
Definition open_write (path : string) : M unit :=
  fun s =>
    let s' := with_call (OpenWrite path) s in
    if String.eqb path "" then (Raise FileNotFoundError, s')
    else match ans_unit (oracle s) (clock s) (OpenWrite path) with
         | Ok _ => (Ok tt, with_file path "" s')
         | Raise e => (Raise e, s')
         end.

(** [file.write(text)] on a file just opened for writing. *)
Definition file_write (path text : string) : M unit :=
  fun s => (Ok tt, with_file path text s).

(** [open(path, 'r')] followed by [read()]. *)
Definition read_text (path : string) : M string :=
  fun s =>
    let s' := with_call (OpenRead path) s in
    match files s !! path with
    | Some t => if String.eqb path "" then (Raise FileNotFoundError, s')
                else (Ok t, s')
    | None => (Raise FileNotFoundError, s')
    end.

(** ** Locators and other constants of the source *)

Definition prompt_textarea : Locator := ById "prompt-textarea".
Definition send_button_css_init : string := "button[data-testid='send-button']".
Definition send_button_css : string :=
  "button[data-testid=" +:+ Str.q "send-button" +:+ "]".
Definition login_button_css : string :=
  "button[data-testid=" +:+ Str.q "login-button" +:+ "]".
Definition stop_button_css : string :=
  "button[data-testid=" +:+ Str.q "stop-button" +:+ "]".
Definition assistant_css : string :=
  "div[data-message-author-role=" +:+ Str.q "assistant" +:+ "]".
Definition continue_xpath : string :=
  "//button[contains(@class, " +:+ Str.q "btn relative btn-secondary"
  +:+ ") and contains(., " +:+ Str.q "Continue generating" +:+ ")]".
Definition regenerate_xpath : string :=
  "//button[contains(@class, " +:+ Str.q "btn relative btn-primary m-auto"
  +:+ ") and contains(., " +:+ Str.q "Regenerate" +:+ ")]".
Definition menu_button_xpath : string :=
  "//button[@id=" +:+ Str.q "radix-:r2i:" +:+ " and @aria-haspopup="
  +:+ Str.q "menu" +:+ " and @aria-expanded=" +:+ Str.q "false"
  +:+ " and @data-state=" +:+ Str.q "closed" +:+ "]".
Definition delete_item_xpath : string :=
  "//div[@role=" +:+ Str.q "menuitem" +:+ " and contains(@class, "
  +:+ Str.q "text-token-text-error" +:+ ") and contains(text(), "
  +:+ Str.q "Delete" +:+ ")]".
Definition delete_popup_xpath : string :=
  "//button[@class=" +:+ Str.q "btn relative btn-danger" +:+ " and @as="
  +:+ Str.q "button" +:+ "]//div[contains(text(), " +:+ Str.q "Delete" +:+ ")]".
Definition version_4o_xpath : string :=
  "//div[contains(text(), " +:+ Str.q "ChatGPT" +:+ ") and span[contains(text(), "
  +:+ Str.q "4o" +:+ ")]]".
Definition version_35_xpath : string :=
  "//div[contains(text(), " +:+ Str.q "ChatGPT" +:+ ") and span[contains(text(), "
  +:+ Str.q "3.5" +:+ ")]]".
Definition gpt_4o_xpath : string :=
  "//div[contains(text(), " +:+ Str.q "GPT-4o" +:+ ") and div[contains(text(), "
  +:+ Str.q "Newest and most advanced model" +:+ ")]]".
Definition file_input_xpath : string :=
  "//input[@type='file' and @multiple and @tabindex='-1' and @class='hidden' and @style='display: none;']".
Definition overlay_xpath : string :=
  "//div[contains(@class, 'absolute inset-0 flex items-center justify-center bg-black/5 text-white')]".
Definition focus_script : string := "arguments[0].focus();".
Definition login_prompt : string :=
  "Please log in manually and press Enter to continue...".
Definition manual_cookies_file : string := "cookies.pkl".

Definition headless_arguments : list string :=
  [ "--headless=new"; "--disable-gpu"; "--no-sandbox";
    "--disable-dev-shm-usage";
    "--disable-blink-features=AutomationControlled";
    "--disable-infobars"; "--window-size=1920x1080"; "--start-maximized";
    "--user-agent=Mozilla/5.0 (Windows NT 10.0; Win64; x64) AppleWebKit/537.36 (KHTML, like Gecko) Chrome/91.0.4472.124 Safari/537.36";
    "--disable-extensions"; "--proxy-server='direct://'";
    "--proxy-bypass-list=*"; "--disable-dev-shm-usage";
    "--disable-accelerated-2d-canvas";
    "--disable-accelerated-jpeg-decoding";
    "--disable-accelerated-mjpeg-decoding";
    "--disable-accelerated-video-decode";
    "--disable-accelerated-video-encode" ].

(** The options read from the configuration file (lines 75 to 94); an option
    read with a [fallback] is [None] when the file does not give it.  (A
    file that lacks one of the other options, or gives a value that does not
    parse, makes [__init__] raise before the browser is started.) *)
Record Config := mkConfig {
  cfg_user_data_dir : string;
  cfg_profile_directory : string;
  cfg_driver_path : string;
  cfg_url : string;
  cfg_wait_time : Z;
  cfg_use_chatgpt4o : bool;
  cfg_manual_login : bool;
  cfg_context_content : string;
  cfg_headless_mode : option bool;
  cfg_cookies_path : option string
}.

(** Argument of [upload_file]: one path or a list of paths. *)
Inductive FilePaths :=
| OnePath (p : string)
| ManyPaths (l : list string).

(** Exit of one pass of a [for] body: [continue], or [return v]. *)
Inductive Ctl (A : Type) :=
| Continue
| Returned (v : A).
Arguments Continue {A}.
Arguments Returned {A} v.

(** Binding of the local variable [last_answer] of [send_request]: not yet
    assigned, the list returned by the wait (line 442), or its last element
    (line 445). *)
Inductive Local :=
| Unbound
| BoundList (l : list Element)
| BoundElement (e : Element).

(** ** Python on JSON values *)

(** One-character strings of a string, as iterating a [str] yields them. *)
Fixpoint chars (s : string) : list string :=
  match s with
  | EmptyString => []
  | String c rest => String c EmptyString :: chars rest
  end.

(** [for cookie in cookies_list]: a list yields its elements, a dict its
    keys, a string its characters; nothing else can be iterated. *)
Definition py_iter (v : json) : Res (list json) :=
  match v with
  | JArr l => Ok l
  | JObj m => Ok (JStr <$> (map_to_list m).*1)
  | JStr s => Ok (JStr <$> chars s)
  | _ => Raise TypeError
  end.

(** [cookie.pop('domain', None)]: on a dict the key is removed if present;
    a list rejects the second argument; other values have no [pop]. *)
Definition pop_domain (v : json) : Res cookie :=
  match v with
  | JObj m => Ok (delete "domain" m)
  | JArr _ => Raise TypeError
  | _ => Raise AttributeError
  end.

(** ** The methods of [FakeChatGPTAPI] *)

(** Lines 181 to 198. *)
Definition is_login : M bool :=
  button <- try_except (e <- find_element (ByCss login_button_css);; ret (Some e))
              is_NoSuchElementException (fun _ => ret None);;
  ret (match button with None => true | Some _ => false end).

(** Lines 218 to 252. *)
Definition delete_context : M unit :=
  try_except
    (wt <- gets wait_time;;
     button <- wait_presence (ByXPath menu_button_xpath) wt;;
     click button;;
     wt <- gets wait_time;;
     delete_menu_item <- wait_presence (ByXPath delete_item_xpath) wt;;
     click delete_menu_item;;
     wt <- gets wait_time;;
     delete_button_popup <- wait_presence (ByXPath delete_popup_xpath) wt;;
     click delete_button_popup)
    is_Exception (fun _ => ret tt);;
  modify (set_is_context_created false).

(** Lines 167 to 179. *)
Definition __del__ : M unit :=
  created <- gets is_context_created;;
  if created then delete_context else ret tt.

(** Lines 254 to 300. *)
Definition check_chatgpt4o : M bool :=
  try_except_else (wait_presence (ByXPath version_4o_xpath) 5)
    is_Exception
    (fun _ =>
       chatgpt_version <-
         try_except (e <- wait_presence (ByXPath version_35_xpath) 1;; ret (Some e))
           is_Exception (fun _ => ret None);;
       match chatgpt_version with
       | Some v =>
           click v;;
           wt <- gets wait_time;;
           try_except_else (wait_presence (ByXPath gpt_4o_xpath) wt)
             is_Exception
             (fun _ => ret false)
             (fun gpt_4o => click gpt_4o;; ret true)
       | None => ret false
       end)
    (fun _ => ret true).

(** Lines 302 to 307. *)
Definition refresh : M unit :=
  driver_refresh;;
  wt <- gets wait_time;;
  e <- wait_presence prompt_textarea wt;;
  modify (set_prompt_text_area (Some e));;
  b <- find_element (ByCss send_button_css);;
  modify (set_send_button (Some b)).

(** Lines 309 to 332. *)
Definition upload_file (file_paths : FilePaths) : M bool :=
  u <- gets use_4o;;
  if negb u then ret false
  else
    refresh;;
    try_except_else
      (file_upload <- wait_presence (ByXPath file_input_xpath) 10;;
       match file_paths with
       | ManyPaths l => send_keys file_upload [Chars (Str.join Str.nl l)]
       | OnePath p => send_keys file_upload [Chars p]
       end;;
       wait_invisible (ByXPath overlay_xpath) 30)
      is_Exception
      (fun _ => ret false)
      (fun _ => ret true).

(** One pass of the [for] body of [check_conditions] (lines 345 to 370). *)
Definition check_conditions_pass (present_css absent_xpath : string)
    : M (Ctl (option Element)) :=
  try_except
    (wt <- gets wait_time;;
     send_button <- wait_presence (ByCss present_css) wt;;
     try_except
       (contgenerate_button <- wait_presence (ByXPath absent_xpath) 5;;
        click contgenerate_button;;
        sleep 1;;
        ret Continue)
       is_TimeoutException
       (fun _ => ret (Returned (Some send_button))))
    is_TimeoutException
    (fun _ => ret Continue).

(** Lines 334 to 374: [for attempt in range(retries)]. *)
Fixpoint check_conditions (present_css absent_xpath : string) (retries : nat)
    : M (option Element) :=
  match retries with
  | O => ret None
  | S n =>
      c <- check_conditions_pass present_css absent_xpath;;
      match c with
      | Continue => check_conditions present_css absent_xpath n
      | Returned v => ret v
      end
  end.

(** Lines 456 to 475. *)
Definition click_regen : M unit :=
  try_except
    (regenerate_button <- wait_presence (ByXPath regenerate_xpath) 5;;
     click regenerate_button)
    bare_except (fun _ => ret tt).

(** Lines 403 to 405: the [for line in lines] loop. *)
Fixpoint type_lines (area : Element) (lines : list string) : M unit :=
  match lines with
  | [] => ret tt
  | line :: rest =>
      send_keys area [Chars line];;
      send_keys area [Key_SHIFT; Key_RETURN];;
      type_lines area rest
  end.

(** [last_answer.text] (lines 453 and 454). *)
Definition text_of (last_answer : Local) : M string :=
  match last_answer with
  | Unbound => raise UnboundLocalError
  | BoundList _ => raise AttributeError
  | BoundElement e => text e
  end.

(** The [try] block of lines 420 to 447.  The block assigns [last_answer]
    twice, so the pass reports the binding it leaves behind together with
    the way it ended: normally, or with the exception handed to the
    [except Exception] clause of line 448. *)
Definition poll_pass (last_answer : Local) : M (Local * Res unit) :=
  try_except (wait_presence (ByCss stop_button_css) 3;; ret tt)
    bare_except (fun _ => ret tt);;
  r <- reify (check_conditions send_button_css continue_xpath 4);;
  match r with
  | Raise ex => ret (last_answer, Raise ex)
  | Ok send_button =>
      wt <- gets wait_time;;
      r <- reify (wait_all_presence (ByCss assistant_css) wt);;
      match r with
      | Raise ex => ret (last_answer, Raise ex)
      | Ok found =>
          match last found with
          | None => ret (BoundList found, Raise IndexError)
          | Some e =>
              modify (set_send_button send_button);;
              ret (BoundElement e, Ok tt)
          end
      end
  end.

(** Lines 417 to 454: [while max_try > 0], then the final [return]. *)
Fixpoint poll_loop (max_try : nat) (last_answer : Local) : M string :=
  match max_try with
  | O => text_of last_answer
  | S n =>
      p <- poll_pass last_answer;;
      match p with
      | (la, Raise _) => click_regen;; poll_loop n la
      | (la, Ok _) => text_of la
      end
  end.

(** Lines 396 to 405: focus the prompt area and type the request. *)
Definition type_request (area : Element) (request : string) : M unit :=
  execute_script focus_script area;;
  click area;;
  type_lines area (Str.split Str.newline request).

(** Lines 408 to 415: wait for the send button and click it. *)
Definition press_send : M unit :=
  wt <- gets wait_time;;
  b <- wait_clickable (ByCss send_button_css) wt;;
  modify (set_send_button (Some b));;
  enabled <- is_enabled b;;
  if enabled then click b else ret tt.

(** Lines 396 to 415. *)
Definition submit (area : Element) (request : string) : M unit :=
  type_request area request;;
  press_send.

(** Lines 376 to 454. *)
Definition send_request (request : string) : M string :=
  area <- gets prompt_text_area;;
  match area with
  | Some a => submit a request;; poll_loop 3 Unbound
  | None => text_of Unbound
  end.

(** ** Initialization

    The [json] module of Python's library is not part of the repository: its
    parser and its two printers are parameters of the methods that use
    them. *)

Section Initialization.

Variable json_loads : string -> Res json.
Variable json_dumps : json -> string.
(** [json.dump(cookies, file, indent=2, sort_keys=True)], as text. *)
Variable json_dump_pretty : list cookie -> string.

(** Lines 200 to 216. *)
Definition manual_login : M unit :=
  input login_prompt;;
  cookies_list <- get_cookies;;
  open_write manual_cookies_file;;
  file_write manual_cookies_file (json_dump_pretty cookies_list).

(** Lines 144 to 147: the [for cookie in cookies_list] loop. *)
Fixpoint inject_cookies (cookies_list : list json) : M unit :=
  match cookies_list with
  | [] => ret tt
  | c :: rest =>
      stripped <- lift (pop_domain c);;
      add_cookie stripped;;
      inject_cookies rest
  end.

(** Lines 126 to 147. *)
Definition load_cookies (cookies_path : string) : M unit :=
  found <- path_exists cookies_path;;
  (if negb found then
     open_write cookies_path;;
     file_write cookies_path (json_dumps (JArr []))
   else ret tt);;
  content <- read_text cookies_path;;
  cookies_list <- lift (json_loads content);;
  items <- lift (py_iter cookies_list);;
  inject_cookies items.

(** Lines 96 to 120: the arguments handed to Chrome. *)
Definition chrome_options (cfg : Config) : list string :=
  (if default false (cfg_headless_mode cfg) then headless_arguments else [])
  ++ [ "--user-data-dir=" +:+ cfg_user_data_dir cfg;
       "--profile-directory=" +:+ cfg_profile_directory cfg ].

(** Lines 153 to 156. *)
Definition select_model (use_chatgpt4o : bool) : M unit :=
  modify (set_use_4o false);;
  if use_chatgpt4o then
    ok <- check_chatgpt4o;;
    if ok then modify (set_use_4o true) else ret tt
  else ret tt.

(** Lines 158 to 161. *)
Definition locate_controls : M unit :=
  wt <- gets wait_time;;
  e <- wait_presence prompt_textarea wt;;
  modify (set_prompt_text_area (Some e));;
  b <- find_element (ByCss send_button_css_init);;
  modify (set_send_button (Some b)).

(** Lines 162 and 163. *)
Definition send_context (context_content : string) : M unit :=
  if Str.truthy context_content then
    send_request (Str.join Str.nl (Str.split Str.at_sign context_content));;
    ret tt
  else ret tt.

(** Lines 81 to 161, from the options already read: everything that
    precedes the opening message. *)
Definition prepare_session (cfg : Config) : M unit :=
  modify (set_is_context_created false);;
  makedirs (cfg_user_data_dir cfg);;
  modify (set_driver_path (cfg_driver_path cfg));;
  modify (set_url (cfg_url cfg));;
  modify (set_wait_time (cfg_wait_time cfg));;
  launch_chrome (chrome_options cfg);;
  u <- gets url;;
  driver_get u;;
  load_cookies (default "" (cfg_cookies_path cfg));;
  (if cfg_manual_login cfg then manual_login else ret tt);;
  select_model (cfg_use_chatgpt4o cfg);;
  locate_controls.

(** Lines 81 to 165. *)
Definition __init__ (cfg : Config) : M unit :=
  prepare_session cfg;;
  send_context (cfg_context_content cfg);;
  modify (set_is_context_created true).

(** The calls a client can make on a constructed controller. *)
Inductive Method :=
| Call_is_login
| Call_manual_login
| Call_delete_context
| Call_check_chatgpt4o
| Call_refresh
| Call_upload_file (file_paths : FilePaths)
| Call_check_conditions (present_css absent_xpath : string) (retries : nat)
| Call_send_request (request : string)
| Call_click_regen
| Call_del.

(** The state a method call leaves, whether it returns or raises. *)
Definition run_method (m : Method) (s : State) : State :=
  match m with
  | Call_is_login => snd (is_login s)
  | Call_manual_login => snd (manual_login s)
  | Call_delete_context => snd (delete_context s)
  | Call_check_chatgpt4o => snd (check_chatgpt4o s)
  | Call_refresh => snd (refresh s)
  | Call_upload_file p => snd (upload_file p s)
  | Call_check_conditions c x n => snd (check_conditions c x n s)
  | Call_send_request r => snd (send_request r s)
  | Call_click_regen => snd (click_regen s)
  | Call_del => snd (__del__ s)
  end.

Definition run_methods (ms : list Method) (s : State) : State :=
  foldl (fun st m => run_method m st) s ms.

End Initialization.

(** ** Observations on a run *)

(** The external calls [m] issues when started in [s], in order. *)
Definition issued {A} (m : M A) (s : State) : list Call :=
  drop (length (log s)) (log (snd (m s))).

(** How many calls of a list satisfy [f]. *)
Fixpoint count_calls (f : Call -> bool) (l : list Call) : nat :=
  match l with
  | [] => 0
  | c :: rest => (if f c then 1 else 0) + count_calls f rest
  end.

(** A call of [click_regen] starts with this wait, and nothing else in the
    source waits for the Regenerate control. *)
Definition is_regen_wait (c : Call) : bool :=
  match c with
  | WaitPresence (ByXPath x) t => String.eqb x regenerate_xpath && Z.eqb t 5
  | _ => false
  end.

Definition regen_attempts (l : list Call) : nat := count_calls is_regen_wait l.

Definition is_click (c : Call) : bool :=
  match c with Click _ => true | _ => false end.

Definition clicks (l : list Call) : nat := count_calls is_click l.

(** A pass of [check_conditions] starts with the wait for the element that
    must be present. *)
Definition is_css_wait (c : Call) : bool :=
  match c with WaitPresence (ByCss _) _ => true | _ => false end.

Definition passes (l : list Call) : nat := count_calls is_css_wait l.

(** The key sequences sent to the page, in order. *)
Fixpoint typed_keys (l : list Call) : list (list KeyArg) :=
  match l with
  | [] => []
  | SendKeys _ keys :: rest => keys :: typed_keys rest
  | _ :: rest => typed_keys rest
  end.

(** Each line, then SHIFT+RETURN. *)
Definition keys_of_lines (lines : list string) : list (list KeyArg) :=
  flat_map (fun line => [[Chars line]; [Key_SHIFT; Key_RETURN]]) lines.

(** The cookies handed to [add_cookie]. *)
Fixpoint added_cookies (l : list Call) : list cookie :=
  match l with
  | [] => []
  | AddCookie c :: rest => c :: added_cookies rest
  | _ :: rest => added_cookies rest
  end.

(** The files opened for writing. *)
Fixpoint opened_for_writing (l : list Call) : list string :=
  match l with
  | [] => []
  | OpenWrite p :: rest => p :: opened_for_writing rest
  | _ :: rest => opened_for_writing rest
  end.

(** Every one of the next [n] passes of the polling loop of [send_request]
    ends in the [except Exception] clause. *)
Fixpoint all_passes_raise (n : nat) (last_answer : Local) (s : State) : Prop :=
  match n with
  | O => True
  | S n' =>
      match poll_pass last_answer s with
      | (Ok (la, Raise _), s') => all_passes_raise n' la (snd (click_regen s'))
      | _ => False
      end
  end.


(** The wait for [loc] finds the element, whenever it is made. *)
Definition always_found (o : Oracle) (loc : Locator) (timeout : Z) : Prop :=
  forall n, exists e, ans_element o n (WaitPresence loc timeout) = Ok e.

(** Every click is carried out. *)
Definition clicks_succeed (o : Oracle) : Prop :=
  forall n e, ans_unit o n (Click e) = Ok tt.

(** The wait for [loc] finds the element or times out; it does not fail in
    another way. *)
Definition found_or_timeout (o : Oracle) (loc : Locator) : Prop :=
  forall n t, (exists e, ans_element o n (WaitPresence loc t) = Ok e) \/
              ans_element o n (WaitPresence loc t) = Raise TimeoutException.

(** The outcome of the probe of [is_login] in state [s]. *)
Definition login_probe (s : State) : Res Element :=
  ans_element (oracle s) (clock s) (FindElement (ByCss login_button_css)).

(** A state predicate that a method cannot break, whichever way it ends. *)
Definition preserves {A} (I : State -> Prop) (m : M A) : Prop :=
  forall s, I s -> I (snd (m s)).

(** The model flag has the value [b]. *)
Definition flag_is (b : bool) (s : State) : Prop := use_4o (self s) = b.

(** Since [s0] the oracle is the same and the calls issued all satisfy
    [okc]. *)
Definition emitted (okc : Call -> Prop) (s0 s : State) : Prop :=
  oracle s = oracle s0 /\ exists d, log s = log s0 ++ d /\ Forall okc d.

(** Footprints: the external calls a block of the source can issue. *)

(** The calls of one pass of the polling loop of [send_request]. *)
Definition fp_poll (c : Call) : Prop :=
  match c with
  | WaitPresence (ByCss _) _ => True
  | WaitPresence (ByXPath x) _ => x = continue_xpath
  | WaitAllPresence _ _ | Click _ | Sleep _ => True
  | _ => False
  end.

(** The calls of [click_regen]. *)
Definition fp_regen (c : Call) : Prop :=
  match c with
  | WaitPresence (ByXPath x) _ => x = regenerate_xpath
  | Click _ => True
  | _ => False
  end.

(** The calls of the polling loop and of the final read of the answer. *)
Definition fp_answer (c : Call) : Prop :=
  match c with
  | GetText _ => True
  | _ => fp_poll c \/ fp_regen c
  end.

(** The calls that type and submit a request. *)
Definition fp_submit (c : Call) : Prop :=
  match c with
  | ExecuteScript _ _ | Click _ | SendKeys _ _ | WaitClickable _ _
  | IsEnabled _ => True
  | _ => False
  end.

(** A call that injects no cookie with a [domain] key. *)
Definition stripped (c : Call) : Prop :=
  match c with
  | AddCookie ck => ck !! "domain" = None
  | _ => True
  end.

(** A call that sends no keys. *)
Definition keyless (c : Call) : Prop :=
  match c with SendKeys _ _ => False | _ => True end.

(** [last_answer] is not bound to an element. *)
Definition not_an_element (la : Local) : Prop :=
  match la with BoundElement _ => False | _ => True end.

(** Every call that adds a cookie is carried out. *)
Definition cookies_accepted (o : Oracle) : Prop :=
  forall n ck, ans_unit o n (AddCookie ck) = Ok tt.

(** When [m] starts in a state satisfying [P] and returns normally, the
    state it leaves satisfies [Q]. *)
Definition ensures {A} (P : State -> Prop) (m : M A) (Q : State -> Prop) : Prop :=
  forall s a s', P s -> m s = (Ok a, s') -> Q s'.

(** ** Sample worlds *)

(** The object before [__init__] has assigned its attributes. *)
Definition fresh_object : Self := mkSelf false "" "" 0 false None None.

(** A constructed controller whose advanced model was not selected. *)
Definition ready_object : Self :=
  mkSelf true "" "https://chatgpt.com" 10 false (Some 1) (Some 2).

Definition sample_cookie : cookie :=
  <["domain" := JStr ".chatgpt.com"]> (<["name" := JStr "session"]> ∅).

(** A page with a logged-in operator: what is located by id or by CSS
    selector is there; the controls located by XPath (menus, model switcher,
    Continue, Regenerate) and the login button are not. *)
Definition quiet_page : Oracle :=
  mkOracle
    (fun _ _ => Ok tt)
    (fun _ c => match c with
                | FindElement (ByCss x) =>
                    if String.eqb x login_button_css
                    then Raise NoSuchElementException else Ok 2
                | WaitPresence (ByXPath _) _ => Raise TimeoutException
                | _ => Ok 1
                end)
    (fun _ _ => Ok [3])
    (fun _ _ => Ok true)
    (fun _ c => match c with Input _ => Ok "" | _ => Ok "answer" end)
    (fun _ _ => Ok [sample_cookie]).

(** The same page when no assistant message ever shows up. *)
Definition silent_page : Oracle :=
  mkOracle (ans_unit quiet_page) (ans_element quiet_page)
    (fun _ _ => Raise TimeoutException)
    (ans_bool quiet_page) (ans_text quiet_page) (ans_cookies quiet_page).

(** A page that shows every control it is asked for, the Continue control
    included, on every pass. *)
Definition insistent_page : Oracle :=
  mkOracle (ans_unit quiet_page) (fun _ _ => Ok 1) (ans_elements quiet_page)
    (ans_bool quiet_page) (ans_text quiet_page) (ans_cookies quiet_page).

(** The insistent page with an overlay on top: the controls are found, a
    click on them is intercepted. *)
Definition covered_page : Oracle :=
  mkOracle
    (fun _ c => match c with
                | Click _ => Raise ElementClickInterceptedException
                | _ => Ok tt
                end)
    (fun _ _ => Ok 1) (ans_elements quiet_page)
    (ans_bool quiet_page) (ans_text quiet_page) (ans_cookies quiet_page).

(** The quiet page on a system where no file can be created. *)
Definition locked_disk : Oracle :=
  mkOracle
    (fun _ c => match c with
                | OpenWrite _ => Raise FileNotFoundError
                | _ => Ok tt
                end)
    (ans_element quiet_page) (ans_elements quiet_page)
    (ans_bool quiet_page) (ans_text quiet_page) (ans_cookies quiet_page).

Definition boot (o : Oracle) (disk : gmap string string) : State :=
  mkState fresh_object 0 [] disk o.

Definition ready (o : Oracle) : State := mkState ready_object 0 [] ∅ o.

(** The text of a cookies file holding [sample_cookie]. *)
Definition sample_cookies_text : string :=
  "[{" +:+ Str.q "domain" +:+ ": " +:+ Str.q ".chatgpt.com" +:+ ", "
  +:+ Str.q "name" +:+ ": " +:+ Str.q "session" +:+ "}]".

(** An instance of the [json] parameters that is right on the empty array
    and on the sample cookies and rejects or blanks everything else; it
    instantiates the parameters in the examples below. *)
Definition loads_sample (s : string) : Res json :=
  if String.eqb s "[]" then Ok (JArr [])
  else if String.eqb s sample_cookies_text then Ok (JArr [JObj sample_cookie])
  else Raise JSONDecodeError.
Definition dumps_sample (v : json) : string :=
  match v with JArr [] => "[]" | _ => "" end.
Definition dump_pretty_sample (cs : list cookie) : string :=
  match cs with [] => "[]" | _ => "" end.

Definition sample_config : Config :=
  mkConfig "profile" "Default" "chromedriver" "https://chatgpt.com" 10
    true false "Hello@How are you?" None (Some "cookies.json").

(** The sample configuration without the [cookies_path] option. *)
Definition default_config : Config :=
  mkConfig "profile" "Default" "chromedriver" "https://chatgpt.com" 10
    true false "Hello@How are you?" None None.

(** ** Further observations *)

(** Since [s0] the oracle is the same and the clock has advanced by one for
    each call logged. *)
Definition in_step (s0 s : State) : Prop :=
  oracle s = oracle s0 /\
  exists d, log s = log s0 ++ d /\ clock s = clock s0 + length d.

(** [P] holds of the attributes of the object. *)
Definition attr (P : Self -> Prop) (s : State) : Prop := P (self s).

(** The attributes [__init__] reads from the configuration and no method
    assigns afterwards. *)
Definition configured (cfg : Config) (o : Self) : Prop :=
  driver_path o = cfg_driver_path cfg /\ url o = cfg_url cfg /\
  wait_time o = cfg_wait_time cfg.


(** [is_context_created] is false. *)
Definition not_created (o : Self) : Prop := is_context_created o = false.

(** The attributes of a controller configured by [cfg] that is ready for
    requests. *)
Definition operational (cfg : Config) (o : Self) : Prop :=
  configured cfg o /\ is_Some (prompt_text_area o).


(** The text [upload_file] sends to the file input: the path itself, or the
    paths of a list joined by newlines. *)
Definition paths_text (file_paths : FilePaths) : string :=
  match file_paths with
  | OnePath p => p
  | ManyPaths l => Str.join Str.nl l
  end.

(** The calls of [check_chatgpt4o] when it goes all the way through the
    model switcher. *)
Definition switch_steps (wt : Z) (v g : Element) : list Call :=
  [ WaitPresence (ByXPath version_4o_xpath) 5;
    WaitPresence (ByXPath version_35_xpath) 1; Click v;
    WaitPresence (ByXPath gpt_4o_xpath) wt; Click g ].


(** A constructed controller on which the advanced model was selected. *)
Definition upgraded_object : Self :=
  mkSelf true "" "https://chatgpt.com" 10 true (Some 1) (Some 2).

Definition upgraded (o : Oracle) : State := mkState upgraded_object 0 [] ∅ o.


(** A pass of the polling loop of [send_request] starts with this wait. *)
Definition is_stop_wait (c : Call) : bool :=
  match c with
  | WaitPresence (ByCss x) t => String.eqb x stop_button_css && Z.eqb t 3
  | _ => false
  end.

Definition poll_passes (l : list Call) : nat := count_calls is_stop_wait l.

(** A call that starts neither a pass of the polling loop nor a
    regeneration. *)
Definition inside_pass (c : Call) : Prop :=
  is_regen_wait c = false /\ is_stop_wait c = false.

(** What a key stands for in the prompt area; SHIFT+RETURN makes a line
    break. *)
Definition key_text (k : KeyArg) : string :=
  match k with
  | Chars t => t
  | Key_SHIFT => ""
  | Key_RETURN => Str.nl
  end.

(** The text a list of key sequences leaves in the prompt area. *)
Definition typed_text (keys : list (list KeyArg)) : string :=
  fold_right (fun ks rest => fold_right (fun k r => key_text k +:+ r) rest ks)
    "" keys.

(** A key sequence of the typing loop: a piece of text without a line
    break, or SHIFT+RETURN. *)
Definition soft_line (ks : list KeyArg) : Prop :=
  ks = [Key_SHIFT; Key_RETURN] \/
  exists line, ks = [Chars line] /\ Str.split Str.newline line = [line].


(** A call that adds a cookie. *)
Definition adds_cookie (c : Call) : Prop :=
  match c with AddCookie _ => True | _ => False end.

(** The calls of [manual_login], in order. *)
Definition manual_login_steps : list Call :=
  [Input login_prompt; GetCookies; OpenWrite manual_cookies_file].


(** [__init__] in two halves, for the statements about their order. *)
Section Halves.

Variable json_loads : string -> Res json.
Variable json_dumps : json -> string.
Variable json_dump_pretty : list cookie -> string.

(** Lines 81 to 124: the profile directory, the browser, the page. *)
Definition start_browser (cfg : Config) : M unit :=
  modify (set_is_context_created false);;
  makedirs (cfg_user_data_dir cfg);;
  modify (set_driver_path (cfg_driver_path cfg));;
  modify (set_url (cfg_url cfg));;
  modify (set_wait_time (cfg_wait_time cfg));;
  launch_chrome (chrome_options cfg);;
  u <- gets url;;
  driver_get u.

(** Lines 126 to 161: cookies, login, model, controls. *)
Definition enter_session (cfg : Config) : M unit :=
  load_cookies json_loads json_dumps (default "" (cfg_cookies_path cfg));;
  (if cfg_manual_login cfg then manual_login json_dump_pretty else ret tt);;
  select_model (cfg_use_chatgpt4o cfg);;
  locate_controls.

End Halves.

(** The calls of [start_browser], in order. *)
Definition start_steps (cfg : Config) : list Call :=
  [ MakeDirs (cfg_user_data_dir cfg); LaunchChrome (chrome_options cfg);
    Get (cfg_url cfg) ].


(** The sample configuration without the advanced model. *)
Definition plain_config : Config :=
  mkConfig "profile" "Default" "chromedriver" "https://chatgpt.com" 10
    false false "" None (Some "cookies.json").

(** A page on which no element is ever found. *)
Definition blank_page : Oracle :=
  mkOracle (ans_unit quiet_page) (fun _ _ => Raise TimeoutException)
    (ans_elements quiet_page) (ans_bool quiet_page) (ans_text quiet_page)
    (ans_cookies quiet_page).

(** A disk holding the sample cookies file. *)
Definition sample_disk : gmap string string :=
  <["cookies.json" := sample_cookies_text]> ∅.


(** ** The answer extractor *)

(** Lines 477 to 511.  The pattern of line 496 is
    [{\s*"cn":.*?}] under [re.DOTALL], searched with [search]. *)
Module Pattern.

Definition open_brace : Ascii.ascii := Ascii.ascii_of_nat 123.
Definition close_brace : Ascii.ascii := Ascii.ascii_of_nat 125.

(** The literal part of the pattern: the key between double quotes and
    the colon. *)
Definition key : string := Str.q "cn" +:+ ":".

Definition between (lo hi : N) (c : Ascii.ascii) : bool :=
  ((lo <=? Ascii.N_of_ascii c) && (Ascii.N_of_ascii c <=? hi))%N.

Definition byte_is (n : N) (c : Ascii.ascii) : bool :=
  (Ascii.N_of_ascii c =? n)%N.

(** [\s] of a [str] pattern is the characters of [str.isspace]: U+0009 to
    U+000D, U+001C to U+0020, U+0085, U+00A0, U+1680, U+2000 to U+200A,
    U+2028, U+2029, U+202F, U+205F and U+3000.  Text is held as its UTF-8
    bytes, so a white-space character is one, two or three bytes. *)
Definition space1 (a : Ascii.ascii) : bool :=
  between 9 13 a || between 28 32 a.

Definition space2 (a b : Ascii.ascii) : bool :=
  byte_is 194 a && (byte_is 133 b || byte_is 160 b).

Definition space3 (a b c : Ascii.ascii) : bool :=
  (byte_is 225 a && byte_is 154 b && byte_is 128 c)
  || (byte_is 226 a && byte_is 128 b &&
      (between 128 138 c || byte_is 168 c || byte_is 169 c || byte_is 175 c))
  || (byte_is 226 a && byte_is 129 b && byte_is 159 c)
  || (byte_is 227 a && byte_is 128 b && byte_is 128 c).

(** [\s*]: the longest run of white space heading [s], and what follows
    it.  The run is never given back: the pattern goes on with a double
    quote, which is no white space. *)
Fixpoint span_spaces (s : string) : string * string :=
  match s with
  | EmptyString => (EmptyString, s)
  | String a r =>
      if space1 a then
        let (ws, t) := span_spaces r in (String a ws, t)
      else
        match r with
        | EmptyString => (EmptyString, s)
        | String b r1 =>
            if space2 a b then
              let (ws, t) := span_spaces r1 in (String a (String b ws), t)
            else
              match r1 with
              | EmptyString => (EmptyString, s)
              | String c r2 =>
                  if space3 a b c then
                    let (ws, t) := span_spaces r2 in
                    (String a (String b (String c ws)), t)
                  else (EmptyString, s)
              end
        end
  end.

(** A text that is white space from end to end. *)
Definition all_space (s : string) : bool :=
  match snd (span_spaces s) with EmptyString => true | _ => false end.

(** [s] without the prefix [p], when it has it. *)
Fixpoint after_prefix (p s : string) : option string :=
  match p, s with
  | EmptyString, _ => Some s
  | String a p', String b s' =>
      if Ascii.eqb a b then after_prefix p' s' else None
  | String _ _, EmptyString => None
  end.

(** [.*?}] under [re.DOTALL]: the shortest text, line breaks included, up
    to a closing brace, that brace included. *)
Fixpoint through_brace (s : string) : option string :=
  match s with
  | EmptyString => None
  | String c r =>
      if Ascii.eqb c close_brace then Some (String c EmptyString)
      else match through_brace r with
           | Some m => Some (String c m)
           | None => None
           end
  end.

(** No closing brace in [s]. *)
Fixpoint no_brace (s : string) : bool :=
  match s with
  | EmptyString => true
  | String c r => negb (Ascii.eqb c close_brace) && no_brace r
  end.

(** No opening brace in [s]. *)
Fixpoint no_open (s : string) : bool :=
  match s with
  | EmptyString => true
  | String c r => negb (Ascii.eqb c open_brace) && no_open r
  end.

(** An opening brace, the white space [ws], the key, [body] and a closing
    brace. *)
Definition candidate (ws body : string) : string :=
  String open_brace (ws +:+ key +:+ body +:+ String close_brace EmptyString).

(** The pattern matched at the very start of [s]. *)
Definition match_here (s : string) : option string :=
  match s with
  | EmptyString => None
  | String c r =>
      if Ascii.eqb c open_brace then
        let (ws, r1) := span_spaces r in
        match after_prefix key r1 with
        | Some r2 =>
            match through_brace r2 with
            | Some body => Some (String c (ws +:+ key +:+ body))
            | None => None
            end
        | None => None
        end
      else None
  end.

(** [search]: the match at the first position that has one. *)
Fixpoint search (s : string) : option string :=
  match match_here s with
  | Some m => Some m
  | None =>
      match s with
      | EmptyString => None
      | String _ r => search r
      end
  end.

End Pattern.

Section Extraction.

Variable json_loads : string -> Res json.

(** Lines 477 to 511; [None] is Python's [None]. *)
Definition extract_json (text : string) : Res (option json) :=
  match Pattern.search text with
  | Some json_str =>
      match json_loads json_str with
      | Ok data => Ok (Some data)
      | Raise e => Raise e
      end
  | None => Ok None
  end.

End Extraction.


(** A reply that carries an answer, and a [json.loads] that is right on
    that answer and rejects everything else. *)
Definition sample_answer : string := Pattern.candidate " " " 3".
Definition loads_answer (s : string) : Res json :=
  if String.eqb s sample_answer then Ok (JObj (<["cn" := JInt 3]> ∅))
  else Raise JSONDecodeError.


(** ** The batch script *)

(** Lines 554 to 645: the code run when the file is the program.  The two
    pickled files are taken to hold lists of strings, which the format
    string of line 618 inserts as they are; [pickle] itself is a parameter.
    The handlers of line 564 run only on a signal and are left out with the
    interrupts. *)

(** The variables of the script that the loop changes.  [i] is unbound until
    the loop binds it.  [random_sleep] draws its pause at random and touches
    neither the page nor the files; what is kept of it is how often it
    ran. *)
Record Vars := mkVars {
  var_i : option nat;
  response_data : list string;
  pauses : nat
}.

(** How the script ends: at its last line, or on an exception, which none
    of its lines catches.  [NameError] is raised by the script alone. *)
Inductive Ended (A : Type) :=
| Completed (a : A)
| Failed (e : exn)
| NameError.
Arguments Completed {A} a.
Arguments Failed {A} e.
Arguments NameError {A}.

(** The white space that a line continuation leaves in the literal: the
    blank before the backslash and the indentation of the next line. *)
Definition gap : string := "             ".

(** Lines 618 to 624: the literal part of the request. *)
Definition prompt_head : string :=
  "I am evaluating QA tasks using an AI model based on news articles. "
  +:+ "The dataset contains questions and answers, but the answers still "
  +:+ "have some unnecessary elements. For example, '1000 năm' should be "
  +:+ "modified to '1000', '17,5 tỷ USD' to '17,5 tỷ', and '53 tuổi' to "
  +:+ "'53'. Your task is to remove unnecessary words (such as 'giải', "
  +:+ "'tuổi', 'kilometers', etc.) and retain only the essential "
  +:+ "information. The data is formatted as a question-answer pair on "
  +:+ "each line:"
  +:+ gap
  +:+ "Pair 1: [Question] Daniel Day-Lewis đã giành được bao nhiêu giải "
  +:+ "Oscar cho Nam diễn viên chính xuất sắc?, [Answer] 3 giải"
  +:+ gap
  +:+ "Pair 2: [Question] Từ nhà Mai đến trường xa bao nhiêu kilometers?, "
  +:+ "[Answer] 5 kilometers"
  +:+ gap
  +:+ "Modify the answers and return the results in the following format:"
  +:+ gap
  +:+ "[Modified Answer 1] 3"
  +:+ gap
  +:+ "[Modified Answer 2] 5"
  +:+ gap
  +:+ "Here is the question-answer data: "
  +:+ Str.nl.

(** Lines 635 and 642: the names of the files written. *)
Definition checkpoint_name (n : nat) : string :=
  "modilied_answer_add_" +:+ pretty n +:+ ".pkl".

Section Script.

Variable pickle_loads : string -> Res (list string).
Variable pickle_dumps : list string -> string.
Variable json_loads : string -> Res json.
Variable json_dumps : json -> string.
Variable json_dump_pretty : list cookie -> string.

(** [with open(path, 'rb') as f: pickle.load(f)]. *)
Definition pickle_load (path : string) : M (list string) :=
  data <- read_text path;;
  lift (pickle_loads data).

(** [with open(path, 'wb') as file: pickle.dump(data, file)]. *)
Definition pickle_dump (path : string) (data : list string) : M unit :=
  open_write path;;
  file_write path (pickle_dumps data).

(** Lines 549 to 552. *)
Definition random_sleep (v : Vars) : Vars :=
  mkVars (var_i v) (response_data v) (S (pauses v)).

(** Lines 598 to 639: one turn of the loop, for the pair [(i, context)] of
    [enumerate]. *)
Definition loop_body (i : nat) (context : string) (v : Vars) : M Vars :=
  let v := mkVars (Some i) (response_data v) (pauses v) in
  if negb (i =? 15) then ret v
  else
    answer <- send_request (prompt_head +:+ context);;
    let v := mkVars (var_i v) (response_data v ++ [answer]) (pauses v) in
    (if i mod 10 =? 0
     then pickle_dump (checkpoint_name (i / 10 * 10)) (response_data v)
     else ret tt);;
    ret (random_sleep v).

Fixpoint main_loop (i : nat) (batch_pairs : list string) (v : Vars)
    : M Vars :=
  match batch_pairs with
  | [] => ret v
  | context :: rest =>
      v' <- loop_body i context v;;
      main_loop (S i) rest v'
  end.

(** Lines 596 to 643: the body of the [try].  The name of the last file is
    built before the file is opened. *)
Definition main_body (batch_pairs : list string)
    : State -> Ended Vars * State :=
  fun s =>
    match main_loop 0 batch_pairs (mkVars None [] 0) s with
    | (Raise e, s') => (Failed e, s')
    | (Ok v, s') =>
        match var_i v with
        | None => (NameError, s')
        | Some i =>
            match pickle_dump (checkpoint_name i) (response_data v) s' with
            | (Ok _, s'') => (Completed v, s'')
            | (Raise e, s'') => (Failed e, s'')
            end
        end
    end.

(** Lines 554 to 645. *)
Definition main (cfg : Config) : State -> Ended Vars * State :=
  fun s =>
    match (pickle_load "FakeChatGPTAPI/total_chunks.pkl";;
           batch_pairs <- pickle_load "batch_pairs.pkl";;
           __init__ json_loads json_dumps json_dump_pretty cfg;;
           ret batch_pairs) s with
    | (Raise e, s') => (Failed e, s')
    | (Ok batch_pairs, s') => main_body batch_pairs s'
    end.

End Script.


(** A stand-in for [pickle] on lists of strings: one item per line. *)
Definition dumps_lines (l : list string) : string := Str.join Str.nl l.
Definition loads_lines (s : string) : Res (list string) :=
  Ok (Str.split Str.newline s).


(** ** Observations on the typing and on pages with distinct controls *)

(** The calls by which [send_request] types [request] into [area]: the
    focus script, a click, then each line followed by SHIFT+RETURN. *)
Definition typing_steps (area : Element) (request : string) : list Call :=
  ExecuteScript focus_script area :: Click area ::
  (SendKeys area <$> keys_of_lines (Str.split Str.newline request)).

(** The page takes the focus script, the click and every key sequence sent
    to [area]. *)
Definition takes_typing (o : Oracle) (area : Element) : Prop :=
  forall n,
    ans_unit o n (ExecuteScript focus_script area) = Ok tt /\
    ans_unit o n (Click area) = Ok tt /\
    forall keys, ans_unit o n (SendKeys area keys) = Ok tt.

(** The log of [s] continues the log of [s0]. *)
Definition extends (s0 s : State) : Prop := exists d, log s = log s0 ++ d.

(** A page on which every control is a different element: the prompt area
    is 1, the send button 2 when found and 9 when waited for, the menu, the
    Delete item and the Delete button 11, 12 and 13, the model switcher and
    the GPT-4o option 21 and 22, the file input 31.  The indicator of the
    advanced model, Continue and Regenerate are not there. *)
Definition labelled_page : Oracle :=
  mkOracle
    (fun _ _ => Ok tt)
    (fun _ c => match c with
                | WaitPresence (ById _) _ => Ok 1
                | FindElement (ByCss x) =>
                    if String.eqb x login_button_css
                    then Raise NoSuchElementException else Ok 2
                | WaitClickable _ _ => Ok 9
                | WaitPresence (ByXPath x) _ =>
                    if String.eqb x menu_button_xpath then Ok 11
                    else if String.eqb x delete_item_xpath then Ok 12
                    else if String.eqb x delete_popup_xpath then Ok 13
                    else if String.eqb x version_35_xpath then Ok 21
                    else if String.eqb x gpt_4o_xpath then Ok 22
                    else if String.eqb x file_input_xpath then Ok 31
                    else Raise TimeoutException
                | _ => Ok 4
                end)
    (fun _ _ => Ok [3])
    (fun _ _ => Ok true)
    (ans_text quiet_page)
    (ans_cookies quiet_page).

(** The same page with a send button that reports disabled. *)
Definition disabled_page : Oracle :=
  mkOracle (ans_unit labelled_page) (ans_element labelled_page)
    (ans_elements labelled_page) (fun _ _ => Ok false)
    (ans_text labelled_page) (ans_cookies labelled_page).

(** * Properties *)

(** ** The monad *)

Lemma bind_ok {A B} (m : M A) (k : A -> M B) s a s' :
  m s = (Ok a, s') -> bind m k s = k a s'.
Proof. unfold bind. intros ->. reflexivity. Qed.

Lemma bind_raise {A B} (m : M A) (k : A -> M B) s e s' :
  m s = (Raise e, s') -> bind m k s = (Raise e, s').
Proof. unfold bind. intros ->. reflexivity. Qed.

Lemma bind_inv_ok {A B} (m : M A) (k : A -> M B) s b s2 :
  bind m k s = (Ok b, s2) ->
  exists a s1, m s = (Ok a, s1) /\ k a s1 = (Ok b, s2).
Proof.
  unfold bind. destruct (m s) as [[a|e] s1]; intros H.
  - exists a, s1. auto.
  - discriminate.
Qed.

Lemma bind_assoc {A B C} (m : M A) (k : A -> M B) (h : B -> M C) s :
  bind (bind m k) h s = bind m (fun a => bind (k a) h) s.
Proof. unfold bind. destruct (m s) as [[a|e] s1]; reflexivity. Qed.

Section Preservation.

Context (I : State -> Prop).

Lemma preserves_ret {A} (a : A) : preserves I (ret a).
Proof. intros s H. exact H. Qed.

Lemma preserves_raise {A} e : preserves I (@raise A e).
Proof. intros s H. exact H. Qed.

Lemma preserves_gets {A} (f : Self -> A) : preserves I (gets f).
Proof. intros s H. exact H. Qed.

Lemma preserves_lift {A} (r : Res A) : preserves I (lift r).
Proof. intros s H. exact H. Qed.

Lemma preserves_path_exists p : preserves I (path_exists p).
Proof. intros s H. exact H. Qed.

Lemma preserves_bind {A B} (m : M A) (k : A -> M B) :
  preserves I m -> (forall a, preserves I (k a)) -> preserves I (bind m k).
Proof.
  intros Hm Hk s H. unfold bind. specialize (Hm s H).
  destruct (m s) as [[a|e] s1]; simpl in *; [apply Hk|]; assumption.
Qed.

Lemma preserves_try_except_else {A B} (body : M A) cls
    (handler : exn -> M B) (orelse : A -> M B) :
  preserves I body -> (forall e, preserves I (handler e)) ->
  (forall a, preserves I (orelse a)) ->
  preserves I (try_except_else body cls handler orelse).
Proof.
  intros Hb Hh Ho s H. unfold try_except_else. specialize (Hb s H).
  destruct (body s) as [[a|e] s1]; simpl in *.
  - apply Ho; assumption.
  - destruct (cls e); [apply Hh|]; assumption.
Qed.

Lemma preserves_try_except {A} (body : M A) cls (handler : exn -> M A) :
  preserves I body -> (forall e, preserves I (handler e)) ->
  preserves I (try_except body cls handler).
Proof.
  intros Hb Hh. apply preserves_try_except_else; auto using @preserves_ret.
Qed.

Lemma preserves_reify {A} (m : M A) : preserves I m -> preserves I (reify m).
Proof.
  intros Hm s H. unfold reify. specialize (Hm s H).
  destruct (m s); assumption.
Qed.

Lemma preserves_modify f :
  (forall s, I s -> I (with_self f s)) -> preserves I (modify f).
Proof. intros Hf s H. apply Hf, H. Qed.

Lemma preserves_invoke {A} (ans : Oracle -> nat -> Call -> Res A) c :
  (forall s, I s -> I (with_call c s)) -> preserves I (invoke ans c).
Proof. intros Hc s H. apply Hc, H. Qed.

Lemma preserves_sleep z :
  (forall s, I s -> I (with_call (Sleep z) s)) -> preserves I (sleep z).
Proof. intros Hc s H. apply Hc, H. Qed.

Lemma preserves_read_text p :
  (forall s, I s -> I (with_call (OpenRead p) s)) -> preserves I (read_text p).
Proof.
  intros Hc s H. unfold read_text.
  destruct (files s !! p); [destruct (String.eqb p "")|]; apply Hc, H.
Qed.

Lemma preserves_open_write p :
  (forall s, I s -> I (with_call (OpenWrite p) s)) ->
  (forall s, I s -> I (with_file p "" s)) ->
  preserves I (open_write p).
Proof.
  intros Hc Hf s H. unfold open_write.
  destruct (String.eqb p ""); [apply Hc, H|].
  destruct (ans_unit _ _ _); simpl; [apply Hf|]; apply Hc, H.
Qed.

Lemma preserves_file_write p t :
  (forall s, I s -> I (with_file p t s)) -> preserves I (file_write p t).
Proof. intros Hf s H. apply Hf, H. Qed.

End Preservation.

Create HintDb py_prims.
#[local] Hint Unfold wait_presence wait_all_presence wait_clickable
  wait_invisible find_element click send_keys is_enabled text execute_script
  driver_refresh driver_get add_cookie get_cookies launch_chrome input
  makedirs : py_prims.

(** Decomposition of a goal [preserves I m] along the structure of [m]; what
    is left are the goals about the primitive state changes. *)
Ltac preserve_step :=
  lazymatch goal with
  | |- preserves _ (ret _) => apply preserves_ret
  | |- preserves _ (raise _) => apply preserves_raise
  | |- preserves _ (gets _) => apply preserves_gets
  | |- preserves _ (lift _) => apply preserves_lift
  | |- preserves _ (path_exists _) => apply preserves_path_exists
  | |- preserves _ (bind _ _) => apply preserves_bind; [| intros ?]
  | |- preserves _ (try_except _ _ _) => apply preserves_try_except; [| intros ?]
  | |- preserves _ (try_except_else _ _ _ _) =>
      apply preserves_try_except_else; [| intros ? | intros ?]
  | |- preserves _ (reify _) => apply preserves_reify
  | |- preserves _ (modify _) => apply preserves_modify
  | |- preserves _ (invoke _ _) => apply preserves_invoke
  | |- preserves _ (sleep _) => apply preserves_sleep
  | |- preserves _ (read_text _) => apply preserves_read_text
  | |- preserves _ (open_write _) => apply preserves_open_write
  | |- preserves _ (file_write _ _) => apply preserves_file_write
  | |- preserves _ (match ?x with _ => _ end) => destruct x
  end.

Ltac preserve := autounfold with py_prims; repeat preserve_step.

(** ** The model flag *)

Ltac flag_frame := preserve; try (intros ? ?; assumption).

Lemma flag_is_login b : preserves (flag_is b) is_login.
Proof. unfold is_login. flag_frame. Qed.

Lemma flag_delete_context b : preserves (flag_is b) delete_context.
Proof. unfold delete_context. flag_frame. Qed.

Lemma flag_del b : preserves (flag_is b) __del__.
Proof. unfold __del__. flag_frame. apply flag_delete_context. Qed.

Lemma flag_check_chatgpt4o b : preserves (flag_is b) check_chatgpt4o.
Proof. unfold check_chatgpt4o. flag_frame. Qed.

Lemma flag_refresh b : preserves (flag_is b) refresh.
Proof. unfold refresh. flag_frame. Qed.

Lemma flag_upload_file b p : preserves (flag_is b) (upload_file p).
Proof. unfold upload_file. flag_frame; apply flag_refresh. Qed.

Lemma flag_check_conditions_pass b css xpath :
  preserves (flag_is b) (check_conditions_pass css xpath).
Proof. unfold check_conditions_pass. flag_frame. Qed.

Lemma flag_check_conditions b css xpath n :
  preserves (flag_is b) (check_conditions css xpath n).
Proof.
  induction n as [|n IH]; simpl; flag_frame.
  - apply flag_check_conditions_pass.
  - exact IH.
Qed.

Lemma flag_click_regen b : preserves (flag_is b) click_regen.
Proof. unfold click_regen. flag_frame. Qed.

Lemma flag_type_lines b area lines :
  preserves (flag_is b) (type_lines area lines).
Proof. induction lines as [|l lines IH]; simpl; flag_frame. exact IH. Qed.

Lemma flag_text_of b la : preserves (flag_is b) (text_of la).
Proof. unfold text_of. flag_frame. Qed.

Lemma flag_poll_pass b la : preserves (flag_is b) (poll_pass la).
Proof. unfold poll_pass. flag_frame; apply flag_check_conditions. Qed.

Lemma flag_poll_loop b n la : preserves (flag_is b) (poll_loop n la).
Proof.
  revert la. induction n as [|n IH]; intros la; simpl.
  - apply flag_text_of.
  - flag_frame;
      auto using flag_poll_pass, flag_click_regen, flag_text_of.
Qed.

Lemma flag_submit b area request : preserves (flag_is b) (submit area request).
Proof.
  unfold submit, type_request, press_send. flag_frame. apply flag_type_lines.
Qed.

Lemma flag_send_request b request : preserves (flag_is b) (send_request request).
Proof.
  unfold send_request. flag_frame;
    auto using flag_submit, flag_poll_loop, flag_text_of.
Qed.

Lemma flag_manual_login b dump : preserves (flag_is b) (manual_login dump).
Proof. unfold manual_login. flag_frame. Qed.

Lemma flag_run_method b dump m s :
  flag_is b s -> flag_is b (run_method dump m s).
Proof.
  destruct m; simpl;
    [ apply flag_is_login | apply flag_manual_login | apply flag_delete_context
    | apply flag_check_chatgpt4o | apply flag_refresh | apply flag_upload_file
    | apply flag_check_conditions | apply flag_send_request
    | apply flag_click_regen | apply flag_del ].
Qed.

Lemma flag_run_methods b dump ms s :
  flag_is b s -> flag_is b (run_methods dump ms s).
Proof.
  revert s. induction ms as [|m ms IH]; intros s H; simpl; [exact H|].
  apply IH, flag_run_method, H.
Qed.

(** ** The log of calls *)

Lemma emitted_refl okc s : emitted okc s s.
Proof. split; [reflexivity|]. exists []. rewrite app_nil_r. auto. Qed.

Lemma emitted_call okc s0 c s :
  okc c -> emitted okc s0 s -> emitted okc s0 (with_call c s).
Proof.
  intros Hc [Ho (d & Hd & Hall)]. split; [exact Ho|].
  exists (d ++ [c]). simpl. rewrite Hd, app_assoc. split; [reflexivity|].
  apply Forall_app. auto.
Qed.

Lemma emitted_self okc s0 f s : emitted okc s0 s -> emitted okc s0 (with_self f s).
Proof. intros H. exact H. Qed.

Lemma emitted_file okc s0 p t s :
  emitted okc s0 s -> emitted okc s0 (with_file p t s).
Proof. intros H. exact H. Qed.

Lemma emitted_weaken (okc okc' : Call -> Prop) s0 s :
  (forall c, okc c -> okc' c) -> emitted okc s0 s -> emitted okc' s0 s.
Proof.
  intros Hw [Ho (d & Hd & Hall)]. split; [exact Ho|].
  exists d. split; [exact Hd|]. eapply Forall_impl; eauto.
Qed.

Lemma emitted_issued {A} okc (m : M A) s :
  emitted okc s (snd (m s)) ->
  log (snd (m s)) = log s ++ issued m s /\ Forall okc (issued m s).
Proof.
  intros [_ (d & Hd & Hall)]. unfold issued. rewrite Hd.
  rewrite drop_app_length. auto.
Qed.

Lemma emitted_run {A} okc (m : M A) s :
  (forall s0, preserves (emitted okc s0) m) ->
  oracle (snd (m s)) = oracle s /\
  log (snd (m s)) = log s ++ issued m s /\ Forall okc (issued m s).
Proof.
  intros H. pose proof (H s s (emitted_refl okc s)) as He.
  split; [apply He|]. apply emitted_issued, He.
Qed.

(** Side goals of a decomposition for [emitted okc s0]: [tac] proves that
    the call at hand satisfies [okc]. *)
Ltac log_frame tac :=
  preserve;
  try first
    [ intros ? ?; apply emitted_call; [tac | assumption]
    | intros ? ?; assumption ].

Section Footprints.

Context (okc : Call -> Prop) (s0 : State).

Lemma log_check_conditions_pass :
  (forall c, fp_poll c -> okc c) ->
  preserves (emitted okc s0)
    (check_conditions_pass send_button_css continue_xpath).
Proof.
  intros H. unfold check_conditions_pass.
  log_frame ltac:(apply H; simpl; auto).
Qed.

Lemma log_check_conditions n :
  (forall c, fp_poll c -> okc c) ->
  preserves (emitted okc s0) (check_conditions send_button_css continue_xpath n).
Proof.
  intros H. induction n as [|n IH]; simpl; log_frame idtac.
  - apply log_check_conditions_pass, H.
  - exact IH.
Qed.

Lemma log_poll_pass la :
  (forall c, fp_poll c -> okc c) -> preserves (emitted okc s0) (poll_pass la).
Proof.
  intros H. unfold poll_pass.
  log_frame ltac:(apply H; simpl; auto); apply log_check_conditions, H.
Qed.

Lemma log_click_regen :
  (forall c, fp_regen c -> okc c) -> preserves (emitted okc s0) click_regen.
Proof.
  intros H. unfold click_regen. log_frame ltac:(apply H; simpl; auto).
Qed.

Lemma log_text_of la :
  (forall c, fp_answer c -> okc c) -> preserves (emitted okc s0) (text_of la).
Proof.
  intros H. unfold text_of. log_frame ltac:(apply H; simpl; auto).
Qed.

Lemma log_poll_loop n la :
  (forall c, fp_answer c -> okc c) -> preserves (emitted okc s0) (poll_loop n la).
Proof.
  intros H.
  assert (Hp : forall c, fp_poll c -> okc c).
  { intros c Hc. apply H. destruct c; simpl in *; auto; contradiction. }
  assert (Hr : forall c, fp_regen c -> okc c).
  { intros c Hc. apply H. destruct c; simpl in *; auto; contradiction. }
  revert la. induction n as [|n IH]; intros la; simpl.
  - apply log_text_of, H.
  - log_frame idtac;
      auto using log_poll_pass, log_click_regen, log_text_of.
Qed.

Lemma log_type_lines area lines :
  (forall c, fp_submit c -> okc c) ->
  preserves (emitted okc s0) (type_lines area lines).
Proof.
  intros H. induction lines as [|l lines IH]; simpl;
    log_frame ltac:(apply H; simpl; auto).
  exact IH.
Qed.

Lemma log_submit area request :
  (forall c, fp_submit c -> okc c) ->
  preserves (emitted okc s0) (submit area request).
Proof.
  intros H. unfold submit, type_request, press_send.
  log_frame ltac:(apply H; simpl; auto).
  apply log_type_lines, H.
Qed.

Lemma log_send_request request :
  (forall c, fp_submit c -> okc c) -> (forall c, fp_answer c -> okc c) ->
  preserves (emitted okc s0) (send_request request).
Proof.
  intros Hs Ha. unfold send_request. log_frame idtac;
    auto using log_submit, log_poll_loop, log_text_of.
Qed.

End Footprints.

(** ** Handlers that catch everything *)

Lemma try_except_all {A} (body : M A) cls (v : A) s :
  (forall e, cls e = true) ->
  exists a s', try_except body cls (fun _ => ret v) s = (Ok a, s').
Proof.
  intros Hall. unfold try_except, try_except_else.
  destruct (body s) as [[a|e] s1]; [|rewrite Hall]; eauto.
Qed.

(** ** delete_context *)

(** C8. [delete_context] never raises: whatever the three UI steps do, the
    call returns normally, and the object's [is_context_created] flag is
    false afterwards. *)
Theorem delete_context_swallows_and_clears (s : State) :
  fst (delete_context s) = Ok tt /\
  is_context_created (self (snd (delete_context s))) = false.
Proof.
  unfold delete_context.
  match goal with
  | |- context [bind (try_except ?b ?c ?h)] =>
      destruct (try_except_all b c tt s) as ([] & s1 & Hrun);
        [reflexivity|]
  end.
  erewrite bind_ok by exact Hrun. simpl. auto.
Qed.

(** ** is_login *)

(** C7. [is_login] returns true exactly when the probe for the login button
    reports that there is no such element, and returns false when the probe
    locates the button.  (A probe that fails for another reason raises, so
    no answer is returned then.) *)
Theorem is_login_iff_no_login_button (s : State) :
  (fst (is_login s) = Ok true <-> login_probe s = Raise NoSuchElementException) /\
  (forall e, login_probe s = Ok e -> fst (is_login s) = Ok false) /\
  (forall x, login_probe s = Raise x -> x <> NoSuchElementException ->
             fst (is_login s) = Raise x).
Proof.
  unfold login_probe, is_login, try_except, try_except_else, bind, find_element,
    invoke, ret. simpl.
  destruct (ans_element (oracle s) (clock s) (FindElement (ByCss login_button_css)))
    as [e|x]; simpl.
  - split; [split; intros H; discriminate|].
    split; [intros e' _; reflexivity|]. intros x H; discriminate.
  - destruct x; simpl;
      (split; [split; intros H; first [reflexivity | discriminate]|]);
      (split; [intros e H; discriminate|]);
      intros x0 H Hne; inversion H; subst; first [reflexivity | congruence].
Qed.

Lemma is_login_iff_no_login_button_witness :
  login_probe (ready quiet_page) = Raise NoSuchElementException /\
  fst (is_login (ready quiet_page)) = Ok true.
Proof.
  split; [reflexivity|].
  apply (proj1 (is_login_iff_no_login_button (ready quiet_page))).
  reflexivity.
Defined.

(** ** check_conditions *)

Lemma count_calls_app f l1 l2 :
  count_calls f (l1 ++ l2) = count_calls f l1 + count_calls f l2.
Proof. induction l1 as [|c l1 IH]; simpl; [reflexivity|]. rewrite IH. lia. Qed.

Lemma issued_of_log {A} (m : M A) s d :
  log (snd (m s)) = log s ++ d -> issued m s = d.
Proof. intros H. unfold issued. rewrite H. apply drop_app_length. Qed.

Ltac shape_leaf :=
  simpl; rewrite <- ?app_assoc; simpl; repeat split;
  try reflexivity; try (unfold clicks, passes; simpl; lia).

(** One pass issues one wait for the element that must be present and at
    most one click; it leaves the oracle alone. *)
Lemma check_conditions_pass_shape css xpath s :
  exists d,
    log (snd (check_conditions_pass css xpath s)) = log s ++ d /\
    oracle (snd (check_conditions_pass css xpath s)) = oracle s /\
    clock (snd (check_conditions_pass css xpath s)) = clock s + length d /\
    passes d = 1 /\ clicks d <= 1.
Proof.
  unfold check_conditions_pass, try_except, try_except_else, bind, gets,
    wait_presence, click, sleep, invoke, ret. simpl.
  destruct (ans_element (oracle s) (clock s) _) as [sb|e1]; simpl.
  - destruct (ans_element (oracle s) (S (clock s)) _) as [cb|e2]; simpl.
    + destruct (ans_unit (oracle s) (S (S (clock s))) _) as [[]|e3]; simpl.
      * eexists [_; _; _; _]. shape_leaf.
      * eexists [_; _; _]. destruct (is_TimeoutException e3) eqn:E; simpl; rewrite ?E; shape_leaf.
    + eexists [_; _]. destruct (is_TimeoutException e2) eqn:E; simpl; rewrite ?E; shape_leaf.
  - eexists [_]. destruct (is_TimeoutException e1); shape_leaf.
Qed.

Lemma check_conditions_shape css xpath retries s :
  exists d,
    log (snd (check_conditions css xpath retries s)) = log s ++ d /\
    passes d <= retries /\ clicks d <= passes d.
Proof.
  revert s. induction retries as [|n IH]; intros s; simpl.
  - exists []. rewrite app_nil_r. unfold passes, clicks. simpl. repeat split; lia.
  - destruct (check_conditions_pass_shape css xpath s)
      as (d1 & Hlog & _ & _ & Hp & Hc).
    unfold bind.
    destruct (check_conditions_pass css xpath s) as [[[|v]|e] s1];
      simpl in *.
    + destruct (IH s1) as (d2 & Hlog2 & Hp2 & Hc2).
      exists (d1 ++ d2). rewrite Hlog2, Hlog, app_assoc.
      unfold passes, clicks in *. rewrite !count_calls_app.
      repeat split; lia.
    + exists d1. repeat split; auto; lia.
    + exists d1. repeat split; auto; lia.
Qed.

(** With the Continue control found on every pass and no failure of the
    driver, a pass ends in [continue]. *)
Lemma check_conditions_pass_continues css xpath s :
  always_found (oracle s) (ByXPath xpath) 5 ->
  clicks_succeed (oracle s) ->
  found_or_timeout (oracle s) (ByCss css) ->
  fst (check_conditions_pass css xpath s) = Ok Continue.
Proof.
  intros Hfound Hclick Hwait.
  unfold check_conditions_pass, try_except, try_except_else, bind, gets,
    wait_presence, click, sleep, invoke, ret. simpl.
  destruct (Hwait (clock s) (wait_time (self s))) as [[sb ->] | ->]; simpl;
    [|reflexivity].
  destruct (Hfound (S (clock s))) as [cb ->]. simpl.
  rewrite Hclick. reflexivity.
Qed.

Lemma check_conditions_exhausts css xpath retries s :
  always_found (oracle s) (ByXPath xpath) 5 ->
  clicks_succeed (oracle s) ->
  found_or_timeout (oracle s) (ByCss css) ->
  fst (check_conditions css xpath retries s) = Ok None /\
  exists d, log (snd (check_conditions css xpath retries s)) = log s ++ d /\
            passes d = retries.
Proof.
  revert s. induction retries as [|n IH]; intros s Hfound Hclick Hwait; simpl.
  - split; [reflexivity|]. exists []. rewrite app_nil_r. auto.
  - pose proof (check_conditions_pass_continues css xpath s Hfound Hclick Hwait)
      as Hpass.
    destruct (check_conditions_pass_shape css xpath s)
      as (d1 & Hlog & Horacle & _ & Hp & _).
    unfold bind.
    destruct (check_conditions_pass css xpath s) as [r s1]. simpl in *.
    subst r. rewrite <- Horacle in Hfound, Hclick, Hwait.
    destruct (IH s1 Hfound Hclick Hwait) as (Hres & d2 & Hlog2 & Hcount).
    split; [exact Hres|].
    exists (d1 ++ d2). rewrite Hlog2, Hlog, <- app_assoc.
    unfold passes in *. rewrite count_calls_app. split; [reflexivity|lia].
Qed.

(** C2, amended. [check_conditions] is defined by recursion on [retries],
    so it ends on every input; it makes at most [retries] passes (4 in
    [send_request]), each pass clicks at most once, and so the clicks never
    outnumber the passes, whatever the page does.  When the Continue control
    is found on every pass, every click on it is carried out, and the wait
    for the element that must be present either finds it or times out, all
    the passes are used up and the result is [None]. *)
Theorem check_conditions_bounded css xpath retries (s : State) :
  passes (issued (check_conditions css xpath retries) s) <= retries /\
  (forall s', clicks (issued (check_conditions_pass css xpath) s') <= 1) /\
  clicks (issued (check_conditions css xpath retries) s)
    <= passes (issued (check_conditions css xpath retries) s) /\
  (always_found (oracle s) (ByXPath xpath) 5 ->
   clicks_succeed (oracle s) ->
   found_or_timeout (oracle s) (ByCss css) ->
   fst (check_conditions css xpath retries s) = Ok None /\
   passes (issued (check_conditions css xpath retries) s) = retries).
Proof.
  destruct (check_conditions_shape css xpath retries s) as (d & Hlog & Hp & Hc).
  rewrite (issued_of_log _ _ _ Hlog).
  split; [exact Hp|]. split.
  { intros s'.
    destruct (check_conditions_pass_shape css xpath s')
      as (d1 & Hlog1 & _ & _ & _ & Hc1).
    rewrite (issued_of_log _ _ _ Hlog1). exact Hc1. }
  split; [exact Hc|].
  intros Hfound Hclick Hwait.
  destruct (check_conditions_exhausts css xpath retries s Hfound Hclick Hwait)
    as (Hres & d' & Hlog' & Hcount).
  split; [exact Hres|].
  rewrite Hlog in Hlog'. apply app_inv_head in Hlog'. subst d'. exact Hcount.
Qed.

Lemma check_conditions_bounded_witness :
  always_found insistent_page (ByXPath continue_xpath) 5 /\
  fst (check_conditions send_button_css continue_xpath 4 (ready insistent_page))
    = Ok None /\
  clicks (issued (check_conditions send_button_css continue_xpath 4)
            (ready insistent_page)) = 4.
Proof.
  assert (Hfound : always_found insistent_page (ByXPath continue_xpath) 5).
  { intros n. exists 1. reflexivity. }
  split; [exact Hfound|]. split; [|reflexivity].
  apply (proj2 (proj2 (proj2 (check_conditions_bounded send_button_css
                                continue_xpath 4 (ready insistent_page))))).
  - exact Hfound.
  - intros n e. reflexivity.
  - intros n t. left. exists 1. reflexivity.
Defined.

(** C2, as stated, fails: the Continue control is found on every pass, the
    click on it is intercepted, and [check_conditions] raises instead of
    returning [None]. *)
Lemma check_conditions_click_intercepted :
  always_found covered_page (ByXPath continue_xpath) 5 /\
  fst (check_conditions send_button_css continue_xpath 4 (ready covered_page))
    = Raise ElementClickInterceptedException.
Proof.
  split; [|reflexivity]. intros n. exists 1. reflexivity.
Qed.

(** ** send_request: the polling loop *)

Lemma fp_poll_not_regen c : fp_poll c -> is_regen_wait c = false.
Proof.
  destruct c as [| | | | | | | | | | |loc t| | | | | | | |];
    try (intros; reflexivity).
  destruct loc as [i|x|x]; try (intros; reflexivity).
  simpl. intros ->. unfold is_regen_wait.
  change (String.eqb continue_xpath regenerate_xpath) with false. reflexivity.
Qed.

Lemma fp_submit_not_regen c : fp_submit c -> is_regen_wait c = false.
Proof. destruct c; simpl; intros H; try reflexivity; contradiction. Qed.

Lemma no_regen_count d :
  Forall (fun c => is_regen_wait c = false) d -> regen_attempts d = 0.
Proof.
  unfold regen_attempts. induction 1 as [|c d Hc _ IH]; simpl; [reflexivity|].
  rewrite Hc, IH. reflexivity.
Qed.

(** A pass of the loop never waits for the Regenerate control. *)
Lemma poll_pass_log la s :
  exists d, log (snd (poll_pass la s)) = log s ++ d /\ regen_attempts d = 0.
Proof.
  destruct (emitted_run (fun c => is_regen_wait c = false) (poll_pass la) s)
    as (_ & Hlog & Hall).
  { intros s0. apply log_poll_pass, fp_poll_not_regen. }
  eauto using no_regen_count.
Qed.

Lemma submit_log area request s :
  exists d, log (snd (submit area request s)) = log s ++ d /\
            regen_attempts d = 0.
Proof.
  destruct (emitted_run (fun c => is_regen_wait c = false)
              (submit area request) s) as (_ & Hlog & Hall).
  { intros s0. apply log_submit, fp_submit_not_regen. }
  eauto using no_regen_count.
Qed.

(** [click_regen] waits once for the Regenerate control and cannot raise. *)
Lemma click_regen_once s :
  exists d s', click_regen s = (Ok tt, s') /\ log s' = log s ++ d /\
               regen_attempts d = 1.
Proof.
  unfold click_regen, try_except, try_except_else, bind, wait_presence, click,
    invoke, ret. simpl.
  destruct (ans_element (oracle s) (clock s) _) as [b|e]; simpl.
  - destruct (ans_unit (oracle s) (S (clock s)) _) as [[]|e]; simpl;
      eexists [_; _], _; (split; [reflexivity|]); simpl;
      rewrite <- app_assoc; split; reflexivity.
  - eexists [_], _. split; [reflexivity|]. split; reflexivity.
Qed.

(** A pass does not raise as a computation: it reports how its [try] block
    ended. *)
Lemma poll_pass_reports la s :
  exists la' r, fst (poll_pass la s) = Ok (la', r) /\
    (forall e, r = Raise e ->
       la' = la \/ exists l, la' = BoundList l).
Proof.
  unfold poll_pass.
  generalize (check_conditions send_button_css continue_xpath 4). intros cc.
  unfold bind, try_except, try_except_else, reify, gets,
    wait_presence, wait_all_presence, invoke, ret, modify. simpl.
  destruct (ans_element (oracle s) (clock s) _) as [b|e0]; simpl;
    (match goal with
     | |- context [cc ?st] => destruct (cc st) as [[sb|e1] s2]
     end; simpl;
     [ destruct (ans_elements (oracle s2) (clock s2) _) as [found|e2]; simpl;
       [ destruct (last found); simpl |] |]);
    eexists _, _; (split; [reflexivity|]); intros ex H;
    try discriminate; eauto.
Qed.

Lemma text_of_not_an_element la s :
  not_an_element la ->
  exists e, text_of la s = (Raise e, s) /\
            (e = UnboundLocalError \/ e = AttributeError).
Proof.
  destruct la; simpl; intros H; [eauto | eauto | contradiction].
Qed.

Lemma poll_loop_exhausted n : forall la s,
  not_an_element la -> all_passes_raise n la s ->
  exists e s' d,
    poll_loop n la s = (Raise e, s') /\
    (e = UnboundLocalError \/ e = AttributeError) /\
    log s' = log s ++ d /\ regen_attempts d = n.
Proof.
  induction n as [|n IH]; intros la s Hla Hall; simpl in *.
  - destruct (text_of_not_an_element la s Hla) as (e & Hrun & He).
    exists e, s, []. rewrite app_nil_r. auto.
  - destruct (poll_pass_reports la s) as (la' & r & Hfst & Hlocal).
    destruct (poll_pass_log la s) as (d1 & Hlog1 & Hcount1).
    unfold bind. destruct (poll_pass la s) as [p s1]. simpl in *. subst p.
    destruct r as [[]|ex]; [contradiction|].
    destruct (click_regen_once s1) as (d2 & s2 & Hregen & Hlog2 & Hcount2).
    rewrite Hregen in *. simpl in Hall.
    assert (Hla' : not_an_element la').
    { destruct (Hlocal ex eq_refl) as [->|[l ->]]; [exact Hla|exact I]. }
    destruct (IH la' s2 Hla' Hall) as (e & s' & d3 & Hrun & He & Hlog3 & Hcount3).
    exists e, s', (d1 ++ d2 ++ d3). split; [exact Hrun|]. split; [exact He|].
    rewrite Hlog3, Hlog2, Hlog1, <- !app_assoc. split; [reflexivity|].
    unfold regen_attempts in *. rewrite !count_calls_app. lia.
Qed.

(** C1, where the code departs from it.  When the request has been typed
    and submitted and each of the three passes of the polling loop ends in
    the [except Exception] clause, [click_regen] is attempted exactly three
    times, as claimed; but [last_answer] was never bound to an element, so the
    final [return last_answer.text] raises ([UnboundLocalError], or
    [AttributeError] when the name is bound to an empty list) instead of
    returning a text. *)
Theorem send_request_exhausted_budget_raises request (s : State) area :
  prompt_text_area (self s) = Some area ->
  fst (submit area request s) = Ok tt ->
  all_passes_raise 3 Unbound (snd (submit area request s)) ->
  (exists e, fst (send_request request s) = Raise e /\
             (e = UnboundLocalError \/ e = AttributeError)) /\
  regen_attempts (issued (send_request request) s) = 3.
Proof.
  intros Harea Hsubmit Hall.
  destruct (submit_log area request s) as (d1 & Hlog1 & Hcount1).
  destruct (poll_loop_exhausted 3 Unbound (snd (submit area request s)) I Hall)
    as (e & s' & d2 & Hrun & He & Hlog2 & Hcount2).
  assert (Hsend : send_request request s = (Raise e, s')).
  { unfold send_request, bind, gets. simpl. rewrite Harea.
    destruct (submit area request s) as [r s1]. simpl in *. subst r.
    exact Hrun. }
  split.
  - exists e. rewrite Hsend. auto.
  - unfold issued. rewrite Hsend. simpl. rewrite Hlog2, Hlog1, <- app_assoc.
    rewrite drop_app_length. unfold regen_attempts in *.
    rewrite count_calls_app. lia.
Qed.

Lemma send_request_exhausted_budget_raises_witness :
  fst (send_request "hi" (ready silent_page)) = Raise UnboundLocalError /\
  regen_attempts (issued (send_request "hi") (ready silent_page)) = 3.
Proof.
  destruct (send_request_exhausted_budget_raises "hi" (ready silent_page) 1)
    as [_ Hcount]; [reflexivity | reflexivity | vm_compute; exact I |].
  split; [reflexivity | exact Hcount].
Defined.

(** ** Initialization: cookies *)

Lemma preserves_bind_lift {A B} (I : State -> Prop) (r : Res A) (k : A -> M B) :
  (forall a, r = Ok a -> preserves I (k a)) -> preserves I (bind (lift r) k).
Proof.
  intros Hk s H. unfold bind, lift. destruct r as [a|e]; simpl; [|exact H].
  apply (Hk a eq_refl s H).
Qed.

Lemma pop_domain_strips v ck : pop_domain v = Ok ck -> ck !! "domain" = None.
Proof.
  destruct v; simpl; intros H; inversion H; subst. apply lookup_delete_eq.
Qed.

Lemma stripped_added d :
  Forall stripped d ->
  Forall (fun ck : cookie => ck !! "domain" = None) (added_cookies d).
Proof.
  induction 1 as [|c d Hc _ IH]; simpl; [constructor|].
  destruct c; simpl in *; auto.
Qed.

Lemma added_cookies_app d1 d2 :
  added_cookies (d1 ++ d2) = added_cookies d1 ++ added_cookies d2.
Proof.
  induction d1 as [|c d1 IH]; simpl; [reflexivity|].
  destruct c; simpl; rewrite ?IH; reflexivity.
Qed.

Lemma stripped_submit c : fp_submit c -> stripped c.
Proof. destruct c; simpl; auto; contradiction. Qed.

Lemma stripped_answer c : fp_answer c -> stripped c.
Proof. destruct c; simpl; auto; intros [[]|[]]. Qed.

Section InitializationProperties.

Context (json_loads : string -> Res json) (json_dumps : json -> string)
        (json_dump_pretty : list cookie -> string).

Lemma log_inject_cookies s0 l :
  preserves (emitted stripped s0) (inject_cookies l).
Proof.
  induction l as [|c l IH]; simpl; [apply preserves_ret|].
  apply preserves_bind_lift. intros ck Hck.
  log_frame ltac:(simpl; eauto using pop_domain_strips). exact IH.
Qed.

Lemma log_load_cookies s0 path :
  preserves (emitted stripped s0) (load_cookies json_loads json_dumps path).
Proof.
  unfold load_cookies. log_frame ltac:(exact I). apply log_inject_cookies.
Qed.

Lemma log_manual_login s0 :
  preserves (emitted stripped s0) (manual_login json_dump_pretty).
Proof. unfold manual_login. log_frame ltac:(exact I). Qed.

Lemma log_check_chatgpt4o s0 : preserves (emitted stripped s0) check_chatgpt4o.
Proof. unfold check_chatgpt4o. log_frame ltac:(exact I). Qed.

Lemma log_select_model s0 b : preserves (emitted stripped s0) (select_model b).
Proof.
  unfold select_model. log_frame ltac:(exact I). apply log_check_chatgpt4o.
Qed.

Lemma log_locate_controls s0 : preserves (emitted stripped s0) locate_controls.
Proof. unfold locate_controls. log_frame ltac:(exact I). Qed.

Lemma log_send_context s0 text :
  preserves (emitted stripped s0) (send_context text).
Proof.
  unfold send_context. log_frame ltac:(exact I).
  apply log_send_request; [apply stripped_submit | apply stripped_answer].
Qed.

Lemma log_prepare_session s0 cfg :
  preserves (emitted stripped s0)
    (prepare_session json_loads json_dumps json_dump_pretty cfg).
Proof.
  unfold prepare_session. log_frame ltac:(exact I);
    auto using log_load_cookies, log_manual_login, log_select_model,
      log_locate_controls.
Qed.

Lemma log_init s0 cfg :
  preserves (emitted stripped s0)
    (__init__ json_loads json_dumps json_dump_pretty cfg).
Proof.
  unfold __init__. log_frame ltac:(exact I);
    auto using log_prepare_session, log_send_context.
Qed.

(** C3. No cookie handed to [add_cookie] during initialization has a
    [domain] key, whatever the cookies file holds. *)
Theorem init_injects_no_domain cfg (s : State) :
  Forall (fun ck : cookie => ck !! "domain" = None)
    (added_cookies
       (issued (__init__ json_loads json_dumps json_dump_pretty cfg) s)).
Proof.
  apply stripped_added.
  apply (emitted_run stripped (__init__ json_loads json_dumps json_dump_pretty cfg) s).
  intros s0. apply log_init.
Qed.

(** The loop does inject: from an array of objects whose cookies the browser
    accepts, every object is handed over, in order, without its [domain]. *)
Lemma inject_cookies_all objs : forall s,
  cookies_accepted (oracle s) ->
  fst (inject_cookies (JObj <$> objs) s) = Ok tt /\
  log (snd (inject_cookies (JObj <$> objs) s))
    = log s ++ (AddCookie <$> (delete "domain" <$> objs)).
Proof.
  induction objs as [|o objs IH]; intros s Hacc; simpl.
  - rewrite app_nil_r. auto.
  - unfold bind, lift, add_cookie, invoke. simpl. rewrite Hacc.
    match goal with
    | |- context [inject_cookies _ ?st] => destruct (IH st Hacc) as [Hres Hlog]
    end.
    split; [exact Hres|]. etransitivity; [exact Hlog|]. simpl.
    rewrite <- app_assoc. reflexivity.
Qed.

(** ** Initialization: the cookies file *)

(** C5, amended.  When [cookies_path] names no existing file and the system
    lets that path be opened for writing (the empty path never is), the
    cookie block of [__init__] creates the file with exactly the text [[]],
    reads it back, and hands no cookie to the browser. *)
Theorem load_cookies_creates_default path (s : State) :
  json_dumps (JArr []) = "[]" ->
  json_loads "[]" = Ok (JArr []) ->
  path <> "" ->
  files s !! path = None ->
  ans_unit (oracle s) (clock s) (OpenWrite path) = Ok tt ->
  fst (load_cookies json_loads json_dumps path s) = Ok tt /\
  files (snd (load_cookies json_loads json_dumps path s))
    = <[path := "[]"]> (files s) /\
  issued (load_cookies json_loads json_dumps path) s
    = [OpenWrite path; OpenRead path] /\
  added_cookies (issued (load_cookies json_loads json_dumps path) s) = [].
Proof.
  intros Hdumps Hloads Hpath Hnone Hopen.
  assert (Heqb : String.eqb path "" = false) by (apply String.eqb_neq, Hpath).
  assert (Hrun : load_cookies json_loads json_dumps path s
                 = (Ok tt, with_call (OpenRead path)
                             (with_file path "[]"
                                (with_file path ""
                                   (with_call (OpenWrite path) s))))).
  { unfold load_cookies, bind, path_exists, open_write, file_write, read_text,
      lift. simpl. rewrite Hnone. simpl. rewrite Heqb, Hopen. simpl.
    rewrite Hdumps. rewrite lookup_insert_eq. rewrite ?Heqb.
    rewrite Hloads. reflexivity. }
  assert (Hissued : issued (load_cookies json_loads json_dumps path) s
                    = [OpenWrite path; OpenRead path]).
  { apply issued_of_log. rewrite Hrun. simpl. rewrite <- app_assoc.
    reflexivity. }
  rewrite Hissued. rewrite Hrun. simpl.
  repeat split. apply insert_insert_eq.
Qed.

(** C9, where the code departs from it.  Without a [cookies_path] option the
    path is the empty string; the cookie block then tries to create a file
    of that name, which raises [FileNotFoundError], and [__init__] never
    completes. *)
Theorem init_without_cookies_path_raises cfg (s : State) :
  cfg_cookies_path cfg = None ->
  load_cookies json_loads json_dumps "" s
    = (Raise FileNotFoundError, with_call (OpenWrite "") s) /\
  exists e,
    fst (__init__ json_loads json_dumps json_dump_pretty cfg s) = Raise e.
Proof.
  intros Hdefault.
  assert (Hload : forall s0, load_cookies json_loads json_dumps "" s0
                    = (Raise FileNotFoundError, with_call (OpenWrite "") s0)).
  { intros s0. unfold load_cookies, bind, path_exists, open_write. simpl.
    destruct (files s0 !! ""); reflexivity. }
  split; [apply Hload|].
  unfold __init__, prepare_session. rewrite Hdefault. simpl.
  unfold bind, modify, makedirs, launch_chrome, driver_get, gets, invoke.
  simpl.
  destruct (ans_unit (oracle s) (clock s) _) as [[]|e1]; simpl; [|eauto].
  destruct (ans_unit (oracle s) (S (clock s)) _) as [[]|e2]; simpl; [|eauto].
  destruct (ans_unit (oracle s) (S (S (clock s))) _) as [[]|e3]; simpl;
    [|eauto].
  rewrite Hload. simpl. eauto.
Qed.
(** ** manual_login *)

(** ** The advanced model *)

Lemma ensures_bind {A B} P R Q (m : M A) (k : A -> M B) :
  ensures P m R -> (forall a, ensures R (k a) Q) -> ensures P (bind m k) Q.
Proof.
  intros Hm Hk s b s' HP Hrun.
  apply bind_inv_ok in Hrun as (a & s1 & H1 & H2).
  eapply Hk; [|exact H2]. eapply Hm; eauto.
Qed.

Lemma ensures_preserves {A} P (m : M A) : preserves P m -> ensures P m P.
Proof.
  intros H s a s' HP Hrun. specialize (H s HP). rewrite Hrun in H. exact H.
Qed.



Lemma upload_file_refused paths s :
  flag_is false s -> upload_file paths s = (Ok false, s).
Proof.
  unfold flag_is, upload_file, bind, gets. simpl. intros ->. reflexivity.
Qed.




(** ** The opening message *)

Lemma split_nonempty sep s : Str.split sep s <> [].
Proof.
  destruct s as [|c rest]; simpl; [discriminate|].
  destruct (Ascii.eqb c sep); [discriminate|].
  destruct (Str.split sep rest); discriminate.
Qed.

Lemma join_cons sep p ps :
  ps <> [] -> Str.join sep (p :: ps) = p +:+ sep +:+ Str.join sep ps.
Proof. destruct ps; [congruence|reflexivity]. Qed.

(** Splitting at a character and joining with a newline replaces that
    character by a newline. *)
Lemma join_split_replace a s :
  Str.join Str.nl (Str.split a s) = Str.replace_char a Str.newline s.
Proof.
  induction s as [|c rest IH]; simpl; [reflexivity|].
  destruct (Ascii.eqb c a).
  - rewrite join_cons by apply split_nonempty. rewrite IH. reflexivity.
  - rewrite <- IH. destruct (Str.split a rest) as [|w ws] eqn:E.
    + exfalso. exact (split_nonempty a rest E).
    + destruct ws; reflexivity.
Qed.

Lemma typed_keys_app d1 d2 :
  typed_keys (d1 ++ d2) = typed_keys d1 ++ typed_keys d2.
Proof.
  induction d1 as [|c d1 IH]; simpl; [reflexivity|].
  destruct c; simpl; rewrite ?IH; reflexivity.
Qed.

Lemma keyless_typed d : Forall keyless d -> typed_keys d = [].
Proof.
  induction 1 as [|c d Hc _ IH]; simpl; [reflexivity|].
  destruct c; simpl in *; auto; contradiction.
Qed.

Lemma keyless_answer c : fp_answer c -> keyless c.
Proof. destruct c; simpl; auto; intros [[]|[]]. Qed.

(** The typing loop sends each line followed by SHIFT+RETURN; when a key
    sequence is refused the loop stops there. *)
Lemma type_lines_keys area lines : forall s,
  exists d,
    log (snd (type_lines area lines s)) = log s ++ d /\
    typed_keys d `prefix_of` keys_of_lines lines /\
    (fst (type_lines area lines s) = Ok tt ->
     typed_keys d = keys_of_lines lines).
Proof.
  induction lines as [|line rest IH]; intros s; simpl.
  - exists []. rewrite app_nil_r. split; [reflexivity|]. split; [|reflexivity].
    exists []. reflexivity.
  - unfold bind, send_keys, invoke. simpl.
    destruct (ans_unit (oracle s) (clock s) _) as [[]|e1]; simpl.
    + destruct (ans_unit (oracle s) (S (clock s)) _) as [[]|e2]; simpl.
      * match goal with
        | |- context [type_lines area rest ?st] =>
            destruct (IH st) as (d & Hlog & Hpre & Hall)
        end.
        exists (SendKeys area [Chars line]
                  :: SendKeys area [Key_SHIFT; Key_RETURN] :: d).
        rewrite Hlog. simpl. rewrite <- !app_assoc. simpl.
        split; [reflexivity|]. split.
        -- destruct Hpre as [k Hk]. exists k. rewrite Hk. reflexivity.
        -- intros Hok. rewrite (Hall Hok). reflexivity.
      * exists [SendKeys area [Chars line];
                SendKeys area [Key_SHIFT; Key_RETURN]].
        rewrite <- app_assoc. simpl. split; [reflexivity|].
        split; [|discriminate]. eexists. reflexivity.
    + exists [SendKeys area [Chars line]].
      split; [reflexivity|]. split; [|discriminate]. eexists. reflexivity.
Qed.

Lemma type_request_keys area request s :
  exists d,
    log (snd (type_request area request s)) = log s ++ d /\
    typed_keys d `prefix_of` keys_of_lines (Str.split Str.newline request) /\
    (fst (type_request area request s) = Ok tt ->
     typed_keys d = keys_of_lines (Str.split Str.newline request)).
Proof.
  unfold type_request, bind, execute_script, click, invoke. simpl.
  destruct (ans_unit (oracle s) (clock s) _) as [[]|e1]; simpl.
  - destruct (ans_unit (oracle s) (S (clock s)) _) as [[]|e2]; simpl.
    + match goal with
      | |- context [type_lines area ?ls ?st] =>
          destruct (type_lines_keys area ls st) as (d & Hlog & Hpre & Hall)
      end.
      exists (ExecuteScript focus_script area :: Click area :: d).
      rewrite Hlog. simpl. rewrite <- !app_assoc. simpl. auto.
    + exists [ExecuteScript focus_script area; Click area].
      rewrite <- app_assoc. simpl. split; [reflexivity|].
      split; [|discriminate]. eexists. reflexivity.
  - exists [ExecuteScript focus_script area].
    split; [reflexivity|]. split; [|discriminate]. eexists. reflexivity.
Qed.

Lemma log_press_send s0 : preserves (emitted keyless s0) press_send.
Proof. unfold press_send. log_frame ltac:(exact I). Qed.

(** Typing followed by anything that sends no keys. *)
Lemma type_request_then area request (k : M string) s :
  (forall s0, preserves (emitted keyless s0) k) ->
  typed_keys (issued (type_request area request;; k) s)
    `prefix_of` keys_of_lines (Str.split Str.newline request) /\
  (forall answer, fst ((type_request area request;; k) s) = Ok answer ->
     typed_keys (issued (type_request area request;; k) s)
     = keys_of_lines (Str.split Str.newline request)).
Proof.
  intros Hk.
  destruct (type_request_keys area request s) as (d1 & Hlog1 & Hpre & Hall).
  unfold issued, bind.
  destruct (type_request area request s) as [[[]|e] s1]; simpl in *.
  - destruct (emitted_run keyless k s1 Hk) as (_ & Hlog2 & Hkeyless).
    rewrite Hlog2, Hlog1, <- app_assoc, drop_app_length, typed_keys_app,
      (keyless_typed _ Hkeyless), app_nil_r.
    split; [exact Hpre|]. intros; apply Hall; reflexivity.
  - rewrite Hlog1, drop_app_length. split; [exact Hpre|]. discriminate.
Qed.

(** The keys sent by [send_request] are those of its typing loop. *)
Lemma send_request_keys request s area :
  prompt_text_area (self s) = Some area ->
  typed_keys (issued (send_request request) s)
    `prefix_of` keys_of_lines (Str.split Str.newline request) /\
  (forall answer, fst (send_request request s) = Ok answer ->
     typed_keys (issued (send_request request) s)
     = keys_of_lines (Str.split Str.newline request)).
Proof.
  intros Harea.
  assert (Hrun : send_request request s
                 = (type_request area request;;
                    (press_send;; poll_loop 3 Unbound)) s).
  { unfold send_request, submit. unfold bind at 1, gets. rewrite Harea.
    apply bind_assoc. }
  unfold issued at 1 2. rewrite Hrun.
  apply type_request_then. intros s0.
  apply preserves_bind; [apply log_press_send|].
  intros _. apply log_poll_loop, keyless_answer.
Qed.

End InitializationProperties.

(** ** The properties on the sample worlds *)

Lemma load_cookies_creates_default_witness :
  files (boot quiet_page ∅) !! "cookies.json" = None /\
  files (snd (load_cookies loads_sample dumps_sample "cookies.json"
                (boot quiet_page ∅)))
  = <["cookies.json" := "[]"]> ∅.
Proof.
  split; [reflexivity|].
  apply (load_cookies_creates_default loads_sample dumps_sample
           "cookies.json" (boot quiet_page ∅));
    [reflexivity | reflexivity | discriminate | reflexivity | reflexivity].
Defined.

(** C5, as stated, fails: no file exists at the configured path, the
    directory it names is missing, so the file cannot be created; the cookie
    block raises and no file appears. *)
Lemma load_cookies_cannot_create :
  files (boot locked_disk ∅) !! "missing/cookies.json" = None /\
  fst (load_cookies loads_sample dumps_sample "missing/cookies.json"
         (boot locked_disk ∅)) = Raise FileNotFoundError /\
  files (snd (load_cookies loads_sample dumps_sample
                "missing/cookies.json" (boot locked_disk ∅)))
    !! "missing/cookies.json" = None.
Proof. repeat split. Qed.


Lemma init_without_cookies_path_raises_witness :
  cfg_cookies_path default_config = None /\
  fst (__init__ loads_sample dumps_sample dump_pretty_sample
         default_config (boot quiet_page ∅)) = Raise FileNotFoundError /\
  exists e,
    fst (__init__ loads_sample dumps_sample dump_pretty_sample
           default_config (boot quiet_page ∅)) = Raise e.
Proof.
  split; [reflexivity|]. split; [vm_compute; reflexivity|].
  exact (proj2 (init_without_cookies_path_raises loads_sample
                  dumps_sample dump_pretty_sample default_config
                  (boot quiet_page ∅) eq_refl)).
Defined.


(** ** Runs on the sample worlds *)

Example split_at_signs :
  Str.split Str.at_sign "a@@b@" = ["a"; ""; "b"; ""] /\
  Str.split Str.at_sign "" = [""].
Proof. split; reflexivity. Qed.

(** A cookies file with one cookie: it reaches the browser without its
    [domain]. *)
Example init_strips_the_sample_cookie :
  added_cookies
    (issued (__init__ loads_sample dumps_sample dump_pretty_sample sample_config)
       (boot quiet_page (<["cookies.json" := sample_cookies_text]> ∅)))
  = [<["name" := JStr "session"]> ∅].
Proof. vm_compute. reflexivity. Qed.

(** On the quiet page the request is answered at the first pass. *)
Example send_request_answers :
  fst (send_request "hi" (ready quiet_page)) = Ok "answer" /\
  regen_attempts (issued (send_request "hi") (ready quiet_page)) = 0.
Proof. split; reflexivity. Qed.

(** With the Continue control always there, [send_request] still returns:
    each pass spends its four sub-retries and goes on to read the answer. *)
Example send_request_under_continue :
  fst (send_request "hi" (ready insistent_page)) = Ok "answer" /\
  clicks (issued (check_conditions send_button_css continue_xpath 4)
            (ready insistent_page)) = 4.
Proof. split; reflexivity. Qed.

(** * Further properties *)

(** ** Frames for every method *)

(** A predicate that no primitive state change can break is kept by every
    method. *)
Section AnyChange.

Context (I : State -> Prop).
Hypothesis Hcall : forall c s, I s -> I (with_call c s).
Hypothesis Hself : forall f s, I s -> I (with_self f s).
Hypothesis Hfile : forall p t s, I s -> I (with_file p t s).

Ltac any_frame :=
  preserve;
  try first
    [ intros ? ?; apply Hcall; assumption
    | intros ? ?; apply Hself; assumption
    | intros ? ?; apply Hfile; assumption ].

Lemma any_is_login : preserves I is_login.
Proof using Hcall. unfold is_login. any_frame. Qed.

Lemma any_delete_context : preserves I delete_context.
Proof using Hcall Hself. unfold delete_context. any_frame. Qed.

Lemma any_del : preserves I __del__.
Proof using Hcall Hself. unfold __del__. any_frame. apply any_delete_context. Qed.

Lemma any_check_chatgpt4o : preserves I check_chatgpt4o.
Proof using Hcall Hself. unfold check_chatgpt4o. any_frame. Qed.

Lemma any_refresh : preserves I refresh.
Proof using Hcall Hself. unfold refresh. any_frame. Qed.

Lemma any_upload_file p : preserves I (upload_file p).
Proof using Hcall Hself. unfold upload_file. any_frame; apply any_refresh. Qed.

Lemma any_check_conditions_pass css xpath :
  preserves I (check_conditions_pass css xpath).
Proof using Hcall Hself. unfold check_conditions_pass. any_frame. Qed.

Lemma any_check_conditions css xpath n :
  preserves I (check_conditions css xpath n).
Proof using Hcall Hself.
  induction n as [|n IH]; simpl; any_frame.
  - apply any_check_conditions_pass.
  - exact IH.
Qed.

Lemma any_click_regen : preserves I click_regen.
Proof using Hcall. unfold click_regen. any_frame. Qed.

Lemma any_type_lines area lines : preserves I (type_lines area lines).
Proof using Hcall. induction lines as [|l lines IH]; simpl; any_frame. exact IH. Qed.

Lemma any_text_of la : preserves I (text_of la).
Proof using Hcall. unfold text_of. any_frame. Qed.

Lemma any_poll_pass la : preserves I (poll_pass la).
Proof using Hcall Hself. unfold poll_pass. any_frame; apply any_check_conditions. Qed.

Lemma any_poll_loop n la : preserves I (poll_loop n la).
Proof using Hcall Hself.
  revert la. induction n as [|n IH]; intros la; simpl.
  - apply any_text_of.
  - any_frame; auto using any_poll_pass, any_click_regen, any_text_of.
Qed.

Lemma any_submit area request : preserves I (submit area request).
Proof using Hcall Hself.
  unfold submit, type_request, press_send. any_frame. apply any_type_lines.
Qed.

Lemma any_send_request request : preserves I (send_request request).
Proof using Hcall Hself.
  unfold send_request. any_frame;
    auto using any_submit, any_poll_loop, any_text_of.
Qed.

Lemma any_manual_login dump : preserves I (manual_login dump).
Proof using Hcall Hfile. unfold manual_login. any_frame. Qed.

Lemma any_inject_cookies l : preserves I (inject_cookies l).
Proof using Hcall. induction l as [|c l IH]; simpl; any_frame. exact IH. Qed.

Lemma any_load_cookies loads dumps path :
  preserves I (load_cookies loads dumps path).
Proof using Hcall Hfile. unfold load_cookies. any_frame. apply any_inject_cookies. Qed.

Lemma any_select_model b : preserves I (select_model b).
Proof using Hcall Hself. unfold select_model. any_frame. apply any_check_chatgpt4o. Qed.

Lemma any_locate_controls : preserves I locate_controls.
Proof using Hcall Hself. unfold locate_controls. any_frame. Qed.

Lemma any_send_context text : preserves I (send_context text).
Proof using Hcall Hself. unfold send_context. any_frame. apply any_send_request. Qed.

Lemma any_prepare_session loads dumps dump cfg :
  preserves I (prepare_session loads dumps dump cfg).
Proof using Hcall Hself Hfile.
  unfold prepare_session. any_frame;
    auto using any_load_cookies, any_manual_login, any_select_model,
      any_locate_controls.
Qed.

Lemma any_init loads dumps dump cfg : preserves I (__init__ loads dumps dump cfg).
Proof using Hcall Hself Hfile.
  unfold __init__. any_frame; auto using any_prepare_session, any_send_context.
Qed.

End AnyChange.

(** A predicate on the attributes that survives the assignments to
    [send_button], to [prompt_text_area] (an element) and the reset of
    [is_context_created] is kept by every method of a constructed
    controller. *)
Section Attributes.

Context (P : Self -> Prop).
Hypothesis Hbutton : forall e o, P o -> P (set_send_button e o).
Hypothesis Harea : forall e o, P o -> P (set_prompt_text_area (Some e) o).
Hypothesis Hreset : forall o, P o -> P (set_is_context_created false o).

Ltac attr_frame :=
  preserve;
  try first
    [ intros ? ?; assumption
    | intros ? ?; apply Hbutton; assumption
    | intros ? ?; apply Harea; assumption
    | intros ? ?; apply Hreset; assumption ].

Lemma attr_is_login : preserves (attr P) is_login.
Proof. unfold is_login. attr_frame. Qed.

Lemma attr_delete_context : preserves (attr P) delete_context.
Proof using Hreset. unfold delete_context. attr_frame. Qed.

Lemma attr_del : preserves (attr P) __del__.
Proof using Hreset. unfold __del__. attr_frame. apply attr_delete_context. Qed.

Lemma attr_check_chatgpt4o : preserves (attr P) check_chatgpt4o.
Proof. unfold check_chatgpt4o. attr_frame. Qed.

Lemma attr_refresh : preserves (attr P) refresh.
Proof using Hbutton Harea. unfold refresh. attr_frame. Qed.

Lemma attr_upload_file p : preserves (attr P) (upload_file p).
Proof using Hbutton Harea. unfold upload_file. attr_frame; apply attr_refresh. Qed.

Lemma attr_check_conditions_pass css xpath :
  preserves (attr P) (check_conditions_pass css xpath).
Proof. unfold check_conditions_pass. attr_frame. Qed.

Lemma attr_check_conditions css xpath n :
  preserves (attr P) (check_conditions css xpath n).
Proof.
  induction n as [|n IH]; simpl; attr_frame.
  - apply attr_check_conditions_pass.
  - exact IH.
Qed.

Lemma attr_click_regen : preserves (attr P) click_regen.
Proof. unfold click_regen. attr_frame. Qed.

Lemma attr_type_lines area lines : preserves (attr P) (type_lines area lines).
Proof. induction lines as [|l lines IH]; simpl; attr_frame. exact IH. Qed.

Lemma attr_text_of la : preserves (attr P) (text_of la).
Proof. unfold text_of. attr_frame. Qed.

Lemma attr_poll_pass la : preserves (attr P) (poll_pass la).
Proof using Hbutton. unfold poll_pass. attr_frame; apply attr_check_conditions. Qed.

Lemma attr_poll_loop n la : preserves (attr P) (poll_loop n la).
Proof using Hbutton.
  revert la. induction n as [|n IH]; intros la; simpl.
  - apply attr_text_of.
  - attr_frame; auto using attr_poll_pass, attr_click_regen, attr_text_of.
Qed.

Lemma attr_submit area request : preserves (attr P) (submit area request).
Proof using Hbutton.
  unfold submit, type_request, press_send. attr_frame. apply attr_type_lines.
Qed.

Lemma attr_send_request request : preserves (attr P) (send_request request).
Proof using Hbutton.
  unfold send_request. attr_frame;
    auto using attr_submit, attr_poll_loop, attr_text_of.
Qed.

Lemma attr_manual_login dump : preserves (attr P) (manual_login dump).
Proof. unfold manual_login. attr_frame. Qed.

Lemma attr_run_method dump m s :
  attr P s -> attr P (run_method dump m s).
Proof using Hbutton Harea Hreset.
  destruct m; simpl;
    [ apply attr_is_login | apply attr_manual_login | apply attr_delete_context
    | apply attr_check_chatgpt4o | apply attr_refresh | apply attr_upload_file
    | apply attr_check_conditions | apply attr_send_request
    | apply attr_click_regen | apply attr_del ].
Qed.

Lemma attr_run_methods dump ms s :
  attr P s -> attr P (run_methods dump ms s).
Proof using Hbutton Harea Hreset.
  revert s. induction ms as [|m ms IH]; intros s H; simpl; [exact H|].
  apply IH, attr_run_method, H.
Qed.

End Attributes.

(** ** click_regen, delete_context and __del__ *)

(** X1. [click_regen] never raises, whatever the page does: it waits once
    for the Regenerate control and, when the wait returns a button, clicks
    that button once; it changes neither the object nor the files. *)
Theorem click_regen_never_raises (s : State) :
  fst (click_regen s) = Ok tt /\
  self (snd (click_regen s)) = self s /\
  files (snd (click_regen s)) = files s /\
  match ans_element (oracle s) (clock s)
          (WaitPresence (ByXPath regenerate_xpath) 5) with
  | Ok b => issued click_regen s
            = [WaitPresence (ByXPath regenerate_xpath) 5; Click b]
  | Raise _ => issued click_regen s
               = [WaitPresence (ByXPath regenerate_xpath) 5]
  end.
Proof.
  unfold issued, click_regen, try_except, try_except_else, bind, wait_presence,
    click, invoke, ret. simpl.
  destruct (ans_element (oracle s) (clock s) _) as [b|e]; simpl.
  - destruct (ans_unit (oracle s) (S (clock s)) _) as [[]|e]; simpl;
      rewrite <- app_assoc, drop_app_length; auto.
  - rewrite drop_app_length. auto.
Qed.

(** X2. [delete_context] goes through its three steps in order, each a wait
    followed by a click on the very element that wait has returned, and
    stops at the first wait or click that fails: the calls it issues are
    exactly the wait for the menu button; if that wait returns an element, a
    click on that element; if the click succeeds, the wait for the Delete
    item; and so on to the click on the Delete button of the dialog.  It
    writes no file. *)
Theorem delete_context_stops_at_first_failure (s : State) :
  let o := oracle s in
  let n := clock s in
  let wt := wait_time (self s) in
  files (snd (delete_context s)) = files s /\
  issued delete_context s
  = WaitPresence (ByXPath menu_button_xpath) wt ::
    match ans_element o n (WaitPresence (ByXPath menu_button_xpath) wt) with
    | Raise _ => []
    | Ok button =>
        Click button ::
        match ans_unit o (1 + n) (Click button) with
        | Raise _ => []
        | Ok _ =>
            WaitPresence (ByXPath delete_item_xpath) wt ::
            match ans_element o (2 + n)
                    (WaitPresence (ByXPath delete_item_xpath) wt) with
            | Raise _ => []
            | Ok delete_menu_item =>
                Click delete_menu_item ::
                match ans_unit o (3 + n) (Click delete_menu_item) with
                | Raise _ => []
                | Ok _ =>
                    WaitPresence (ByXPath delete_popup_xpath) wt ::
                    match ans_element o (4 + n)
                            (WaitPresence (ByXPath delete_popup_xpath) wt) with
                    | Raise _ => []
                    | Ok delete_button_popup => [Click delete_button_popup]
                    end
                end
            end
        end
    end.
Proof.
  unfold issued, delete_context, try_except, try_except_else,
    bind, gets, wait_presence, click, invoke, ret, modify. simpl.
  destruct (ans_element (oracle s) (clock s) _) as [b1|e1]; simpl.
  2:{ rewrite drop_app_length. auto. }
  destruct (ans_unit (oracle s) (S (clock s)) _) as [[]|e2]; simpl.
  2:{ rewrite <- app_assoc, drop_app_length. auto. }
  destruct (ans_element (oracle s) (S (S (clock s))) _) as [b2|e3]; simpl.
  2:{ rewrite <- !app_assoc, drop_app_length. auto. }
  destruct (ans_unit (oracle s) (S (S (S (clock s)))) _) as [[]|e4]; simpl.
  2:{ rewrite <- !app_assoc, drop_app_length. auto. }
  destruct (ans_element (oracle s) (S (S (S (S (clock s))))) _) as [b3|e5];
    simpl.
  2:{ rewrite <- !app_assoc, drop_app_length. auto. }
  destruct (ans_unit (oracle s) (S (S (S (S (S (clock s)))))) _) as [[]|e6];
    simpl; rewrite <- !app_assoc, drop_app_length; auto.
Qed.

Lemma delete_context_stops_at_first_failure_witness :
  issued delete_context (ready labelled_page)
  = [ WaitPresence (ByXPath menu_button_xpath) 10; Click 11;
      WaitPresence (ByXPath delete_item_xpath) 10; Click 12;
      WaitPresence (ByXPath delete_popup_xpath) 10; Click 13 ].
Proof.
  exact (proj2 (delete_context_stops_at_first_failure (ready labelled_page))).
Defined.

Lemma delete_context_returns s :
  fst (delete_context s) = Ok tt /\
  is_context_created (self (snd (delete_context s))) = false.
Proof.
  unfold delete_context.
  match goal with
  | |- context [bind (try_except ?b ?c ?h)] =>
      destruct (try_except_all b c tt s) as ([] & s1 & Hrun);
        [reflexivity|]
  end.
  erewrite bind_ok by exact Hrun. simpl. auto.
Qed.

(** X3. [__del__] never raises and leaves [is_context_created] false; on an
    object whose flag is already false it does nothing, so a second
    [__del__] issues no call. *)
Theorem del_is_idempotent (s : State) :
  fst (__del__ s) = Ok tt /\
  is_context_created (self (snd (__del__ s))) = false /\
  (is_context_created (self s) = false -> snd (__del__ s) = s) /\
  issued __del__ (snd (__del__ s)) = [].
Proof.
  assert (Hoff : forall s0, is_context_created (self s0) = false ->
                            __del__ s0 = (Ok tt, s0)).
  { intros s0 H. unfold __del__, bind, gets. simpl. rewrite H. reflexivity. }
  assert (Hrun : fst (__del__ s) = Ok tt /\
                 is_context_created (self (snd (__del__ s))) = false).
  { destruct (is_context_created (self s)) eqn:E.
    - unfold __del__, bind, gets. simpl. rewrite E.
      apply delete_context_returns.
    - rewrite (Hoff s E). auto. }
  destruct Hrun as [Hok Hflag]. split; [exact Hok|]. split; [exact Hflag|].
  split.
  - intros H. rewrite (Hoff s H). reflexivity.
  - unfold issued. rewrite (Hoff _ Hflag). simpl. apply drop_all.
Qed.

(** ** Construction *)

Ltac conv_frame := preserve; try (intros ? ?; assumption).

Lemma ensures_modify (P Q : State -> Prop) f :
  (forall s, P s -> Q (with_self f s)) -> ensures P (modify f) Q.
Proof. intros H s a s' HP Hrun. inversion Hrun; subst. apply H, HP. Qed.

Section Construction.

Context (json_loads : string -> Res json) (json_dumps : json -> string)
        (json_dump_pretty : list cookie -> string).

Lemma not_created_load_cookies path :
  preserves (attr not_created) (load_cookies json_loads json_dumps path).
Proof. apply any_load_cookies; intros; assumption. Qed.

Lemma not_created_select_model b : preserves (attr not_created) (select_model b).
Proof. unfold select_model, check_chatgpt4o. conv_frame. Qed.

Lemma not_created_locate_controls : preserves (attr not_created) locate_controls.
Proof. unfold locate_controls. conv_frame. Qed.

Lemma not_created_send_context text :
  preserves (attr not_created) (send_context text).
Proof.
  unfold send_context. conv_frame.
  apply attr_send_request. intros e o H. exact H.
Qed.

(** Until its last assignment, [__init__] keeps the flag it has reset. *)
Lemma init_body_not_created cfg s :
  attr not_created
    (snd ((prepare_session json_loads json_dumps json_dump_pretty cfg;;
           send_context (cfg_context_content cfg)) s)).
Proof.
  assert (Hrest : forall k : M unit,
            preserves (attr not_created) k ->
            attr not_created
              (snd ((modify (set_is_context_created false);; k) s))).
  { intros k Hk. unfold bind, modify. apply Hk. reflexivity. }
  unfold prepare_session.
  match goal with
  | |- attr _ (snd (bind (bind ?m (fun _ => ?k)) ?h ?st)) =>
      assert (Hk : preserves (attr not_created) (bind k h))
  end.
  { conv_frame;
      auto using not_created_load_cookies, attr_manual_login,
        not_created_select_model, not_created_locate_controls,
        not_created_send_context. }
  rewrite bind_assoc. apply Hrest, Hk.
Qed.

(** X4. [is_context_created] is true after [__init__] exactly when
    [__init__] has completed: a construction that raises, at whatever step,
    leaves the flag false, and [__del__] on such an object issues no call. *)
Theorem init_marks_completion cfg (s : State) :
  (fst (__init__ json_loads json_dumps json_dump_pretty cfg s) = Ok tt <->
   is_context_created
     (self (snd (__init__ json_loads json_dumps json_dump_pretty cfg s)))
   = true) /\
  (forall e,
     fst (__init__ json_loads json_dumps json_dump_pretty cfg s) = Raise e ->
     issued __del__
       (snd (__init__ json_loads json_dumps json_dump_pretty cfg s)) = []).
Proof.
  pose proof (init_body_not_created cfg s) as Hbody.
  assert (Hrun : __init__ json_loads json_dumps json_dump_pretty cfg s
                 = match (prepare_session json_loads json_dumps json_dump_pretty
                            cfg;; send_context (cfg_context_content cfg)) s with
                   | (Ok _, s') => (Ok tt, with_self (set_is_context_created true) s')
                   | (Raise e, s') => (Raise e, s')
                   end).
  { unfold __init__. rewrite <- bind_assoc. reflexivity. }
  rewrite Hrun.
  destruct ((prepare_session json_loads json_dumps json_dump_pretty cfg;;
             send_context (cfg_context_content cfg)) s) as [[[]|e] s1];
    simpl in *.
  - split; [split; reflexivity|]. intros e H. discriminate.
  - unfold attr, not_created in Hbody. split.
    + split; [discriminate|]. rewrite Hbody. discriminate.
    + intros e' _. unfold issued, __del__, bind, gets. simpl.
      rewrite Hbody. simpl. apply drop_all.
Qed.

Lemma ensures_true {A} (P : State -> Prop) (m : M A) :
  ensures P m (fun _ => True).
Proof. intros s a s' _ _. exact I. Qed.

Lemma operational_button cfg e o :
  operational cfg o -> operational cfg (set_send_button e o).
Proof. intros H. exact H. Qed.

Lemma operational_area cfg e o :
  operational cfg o -> operational cfg (set_prompt_text_area (Some e) o).
Proof. intros [H _]. split; [exact H|]. simpl. eauto. Qed.

Lemma operational_reset cfg o :
  operational cfg o -> operational cfg (set_is_context_created false o).
Proof. intros H. exact H. Qed.

Lemma init_operational cfg :
  ensures (fun _ => True)
    (__init__ json_loads json_dumps json_dump_pretty cfg)
    (attr (operational cfg)).
Proof.
  unfold __init__, prepare_session.
  eapply ensures_bind with (R := attr (operational cfg)).
  - eapply ensures_bind; [apply ensures_true|intros _].
    eapply ensures_bind; [apply ensures_true|intros _].
    eapply ensures_bind with
      (R := fun s => driver_path (self s) = cfg_driver_path cfg).
    { apply ensures_modify. intros s _. reflexivity. }
    intros _.
    eapply ensures_bind with
      (R := fun s => driver_path (self s) = cfg_driver_path cfg /\
                     url (self s) = cfg_url cfg).
    { apply ensures_modify. intros s H. split; [exact H|reflexivity]. }
    intros _.
    eapply ensures_bind with (R := attr (configured cfg)).
    { apply ensures_modify. intros s [H1 H2]. repeat split; assumption. }
    intros _.
    do 5 (eapply ensures_bind;
          [ apply ensures_preserves; conv_frame;
            first [ apply any_load_cookies; intros; assumption
                  | apply attr_manual_login ]
          | intros ? ]).
    eapply ensures_bind.
    { apply ensures_preserves. unfold select_model, check_chatgpt4o. conv_frame. }
    intros _. unfold locate_controls.
    do 2 (eapply ensures_bind; [apply ensures_preserves; conv_frame|intros ?]).
    eapply ensures_bind with (R := attr (operational cfg)).
    { apply ensures_modify. intros s H. split; [exact H|]. simpl. eauto. }
    intros _. apply ensures_preserves. conv_frame.
  - intros _. apply ensures_preserves. unfold send_context. conv_frame.
    apply attr_send_request. apply operational_button.
Qed.

(** X5. Once [__init__] has completed, no method call changes what was
    configured: after any sequence of calls, [wait_time], [url] and
    [driver_path] are the values of the configuration, and
    [prompt_text_area] is still an element (so [send_request] always takes
    the branch that types the request). *)
Theorem constructed_attributes_fixed cfg (s : State) calls :
  fst (__init__ json_loads json_dumps json_dump_pretty cfg s) = Ok tt ->
  let later :=
    run_methods json_dump_pretty calls
      (snd (__init__ json_loads json_dumps json_dump_pretty cfg s)) in
  wait_time (self later) = cfg_wait_time cfg /\
  url (self later) = cfg_url cfg /\
  driver_path (self later) = cfg_driver_path cfg /\
  is_Some (prompt_text_area (self later)).
Proof.
  intros Hok later.
  assert (H : attr (operational cfg) later).
  { subst later.
    apply (attr_run_methods (operational cfg) (operational_button cfg)
             (operational_area cfg) (operational_reset cfg)).
    destruct (__init__ json_loads json_dumps json_dump_pretty cfg s)
      as [r s'] eqn:Hrun. simpl in *. subst r.
    eapply (init_operational cfg s); [exact I | exact Hrun]. }
  destruct H as [(Hd & Hu & Hw) Harea]. auto.
Qed.
Lemma init_flag_off cfg :
  cfg_use_chatgpt4o cfg = false ->
  ensures (fun _ => True)
    (__init__ json_loads json_dumps json_dump_pretty cfg) (flag_is false).
Proof.
  intros Hoff. unfold __init__, prepare_session. rewrite Hoff.
  eapply ensures_bind with (R := flag_is false).
  - do 10 (eapply ensures_bind; [apply ensures_true|intros ?]).
    eapply ensures_bind with (R := flag_is false).
    + intros s1 r s2 _ Hrun. unfold select_model, bind, modify in Hrun.
      inversion Hrun; subst. reflexivity.
    + intros _. apply ensures_preserves. unfold locate_controls. conv_frame.
  - intros _. apply ensures_preserves. unfold send_context. conv_frame.
    apply flag_send_request.
Qed.

(** X8. Without [use_chatgpt4o] in the configuration the page is not probed
    for the model, and on the constructed controller, after any sequence of
    method calls, [upload_file] returns false without a call to the
    browser. *)
Theorem upload_needs_configuration cfg (s : State) calls file_paths :
  cfg_use_chatgpt4o cfg = false ->
  issued (select_model false) s = [] /\
  (fst (__init__ json_loads json_dumps json_dump_pretty cfg s) = Ok tt ->
   let later :=
     run_methods json_dump_pretty calls
       (snd (__init__ json_loads json_dumps json_dump_pretty cfg s)) in
   upload_file file_paths later = (Ok false, later)).
Proof.
  intros Hoff. split.
  - unfold issued, select_model, bind, modify. simpl. apply drop_all.
  - intros Hok later. apply upload_file_refused. subst later.
    apply flag_run_methods.
    destruct (__init__ json_loads json_dumps json_dump_pretty cfg s)
      as [r s'] eqn:Hrun. simpl in *. subst r.
    eapply (init_flag_off cfg Hoff s); [exact I | exact Hrun].
Qed.
End Construction.

(** ** check_chatgpt4o and upload_file *)

(** Case analysis of a membership in an explicit list of calls. *)
Ltac elem_cases :=
  repeat match goal with
         | H : _ ∈ _ :: _ |- _ => inversion H; subst; clear H
         | H : _ ∈ [] |- _ => inversion H
         end.

(** X6. [check_chatgpt4o] raises only when a click raises: the click on the
    model switcher (line 286) and the click on the GPT-4o option (line 296)
    stand outside the [try] blocks.  When every click is carried out it
    returns a boolean. *)
Theorem check_chatgpt4o_raises_only_on_click (s : State) :
  (forall x, fst (check_chatgpt4o s) = Raise x ->
     exists n e, ans_unit (oracle s) n (Click e) = Raise x) /\
  (clicks_succeed (oracle s) -> exists b, fst (check_chatgpt4o s) = Ok b).
Proof.
  unfold check_chatgpt4o, try_except, try_except_else, bind, gets,
    wait_presence, click, invoke, ret. simpl.
  destruct (ans_element (oracle s) (clock s) _) as [e0|x0]; simpl.
  { split; [discriminate|eauto]. }
  destruct (ans_element (oracle s) (S (clock s)) _) as [v|x1]; simpl.
  2:{ split; [discriminate|eauto]. }
  destruct (ans_unit (oracle s) (S (S (clock s))) (Click v)) as [[]|x2] eqn:E2;
    simpl.
  2:{ split.
      - intros x H. inversion H; subst. eauto.
      - intros Hc. rewrite Hc in E2. discriminate. }
  destruct (ans_element (oracle s) (S (S (S (clock s)))) _) as [g|x3]; simpl.
  2:{ split; [discriminate|eauto]. }
  destruct (ans_unit (oracle s) (S (S (S (S (clock s))))) (Click g))
    as [[]|x4] eqn:E4; simpl.
  - split; [discriminate|eauto].
  - split.
    + intros x H. inversion H; subst. eauto.
    + intros Hc. rewrite Hc in E4. discriminate.
Qed.

Lemma check_chatgpt4o_raises_only_on_click_witness :
  exists b, fst (check_chatgpt4o (ready insistent_page)) = Ok b.
Proof.
  apply (proj2 (check_chatgpt4o_raises_only_on_click (ready insistent_page))).
  intros n e. reflexivity.
Defined.

(** X7. [check_chatgpt4o] answers true in two cases only.  Either the wait
    for the indicator of the advanced model returned an element, and then
    that wait is its only call and nothing was clicked.  Or its calls are
    the wait for the indicator, the wait for the model switcher, a click on
    the element that wait returned, the wait for the GPT-4o option and a
    click on the element that wait returned, in that order.  When it
    answers false the option was not clicked: at most one click was made,
    on the element returned by the wait for the switcher. *)
Theorem check_chatgpt4o_true_means_selected (s : State) :
  (fst (check_chatgpt4o s) = Ok true ->
   (issued check_chatgpt4o s = [WaitPresence (ByXPath version_4o_xpath) 5] /\
    exists e, ans_element (oracle s) (clock s)
                (WaitPresence (ByXPath version_4o_xpath) 5) = Ok e) \/
   exists v g,
     ans_element (oracle s) (1 + clock s)
       (WaitPresence (ByXPath version_35_xpath) 1) = Ok v /\
     ans_element (oracle s) (3 + clock s)
       (WaitPresence (ByXPath gpt_4o_xpath) (wait_time (self s))) = Ok g /\
     issued check_chatgpt4o s = switch_steps (wait_time (self s)) v g) /\
  (fst (check_chatgpt4o s) = Ok false ->
   clicks (issued check_chatgpt4o s) <= 1 /\
   forall g, Click g ∈ issued check_chatgpt4o s ->
     ans_element (oracle s) (S (clock s))
       (WaitPresence (ByXPath version_35_xpath) 1) = Ok g).
Proof.
  unfold issued, switch_steps, check_chatgpt4o, try_except, try_except_else,
    bind, gets, wait_presence, click, invoke, ret. simpl.
  destruct (ans_element (oracle s) (clock s) _) as [e0|x0]; simpl.
  { rewrite drop_app_length. split; [eauto|discriminate]. }
  destruct (ans_element (oracle s) (S (clock s)) _) as [v|x1]; simpl.
  2:{ rewrite <- app_assoc, drop_app_length. split; [discriminate|].
      intros _. split; [unfold clicks; simpl; lia|].
      intros g Hg. simpl in Hg. elem_cases. }
  destruct (ans_unit (oracle s) (S (S (clock s))) (Click v)) as [[]|x2]; simpl.
  2:{ split; discriminate. }
  destruct (ans_element (oracle s) (S (S (S (clock s)))) _) as [g|x3] eqn:Eg;
    simpl.
  2:{ rewrite <- !app_assoc, drop_app_length. split; [discriminate|].
      intros _. split; [unfold clicks; simpl; lia|].
      intros g' Hg. simpl in Hg. elem_cases. reflexivity. }
  destruct (ans_unit (oracle s) (S (S (S (S (clock s))))) (Click g))
    as [[]|x4]; simpl.
  - rewrite <- !app_assoc, drop_app_length. split; [|discriminate].
    intros _. right. exists v, g. auto.
  - split; discriminate.
Qed.

(** X9. With the advanced model selected, the first call of [upload_file]
    is the refresh of the page, and an exception of [refresh] is not turned
    into [False] but propagates.  Once [refresh] has succeeded, its three
    calls (the refresh, the wait for the prompt area, the search for the
    send button) are followed by the wait for the file input, and the call
    cannot raise: it returns true exactly when the file input is found,
    takes the text of the paths (one path as it is, a list joined by
    newlines) and the overlay disappears, and false otherwise. *)
Theorem upload_file_outcome file_paths (s : State) :
  flag_is true s ->
  (exists rest, issued (upload_file file_paths) s = Refresh :: rest) /\
  match refresh s with
  | (Raise x, s1) => upload_file file_paths s = (Raise x, s1)
  | (Ok _, s1) =>
      (exists rest,
         issued (upload_file file_paths) s
         = [ Refresh; WaitPresence prompt_textarea (wait_time (self s));
             FindElement (ByCss send_button_css);
             WaitPresence (ByXPath file_input_xpath) 10 ] ++ rest) /\
      exists b, fst (upload_file file_paths s) = Ok b /\
      (b = true <->
       exists input,
         ans_element (oracle s1) (clock s1)
           (WaitPresence (ByXPath file_input_xpath) 10) = Ok input /\
         ans_unit (oracle s1) (S (clock s1))
           (SendKeys input [Chars (paths_text file_paths)]) = Ok tt /\
         ans_unit (oracle s1) (S (S (clock s1)))
           (WaitInvisible (ByXPath overlay_xpath) 30) = Ok tt)
  end.
Proof.
  intros Hflag. unfold flag_is in Hflag.
  assert (Hrun : upload_file file_paths s
                 = (refresh;;
                    try_except_else
                      (file_upload <- wait_presence (ByXPath file_input_xpath) 10;;
                       send_keys file_upload [Chars (paths_text file_paths)];;
                       wait_invisible (ByXPath overlay_xpath) 30)
                      is_Exception (fun _ => ret false) (fun _ => ret true)) s).
  { unfold upload_file. unfold bind at 1, gets. rewrite Hflag. simpl.
    destruct file_paths; reflexivity. }
  unfold issued. rewrite Hrun. clear Hrun.
  unfold refresh, driver_refresh, find_element, try_except_else, bind,
    gets, modify, wait_presence, send_keys, wait_invisible, invoke, ret.
  simpl.
  destruct (ans_unit (oracle s) (clock s) Refresh) as [[]|x0]; simpl.
  2:{ rewrite drop_app_length. eauto. }
  destruct (ans_element (oracle s) (S (clock s)) _) as [area|x1]; simpl.
  2:{ rewrite <- app_assoc, drop_app_length. eauto. }
  destruct (ans_element (oracle s) (S (S (clock s))) _) as [button|x2]; simpl.
  2:{ rewrite <- !app_assoc, drop_app_length. eauto. }
  destruct (ans_element (oracle s) (S (S (S (clock s)))) _) as [input|x3]; simpl.
  2:{ rewrite <- !app_assoc, drop_app_length. simpl.
      split; [eauto|]. split; [eauto|].
      exists false. split; [reflexivity|]. split; [discriminate|].
      intros (i & H & _). discriminate. }
  destruct (ans_unit (oracle s) (S (S (S (S (clock s))))) _) as [[]|x4] eqn:E4;
    simpl.
  2:{ rewrite <- !app_assoc, drop_app_length. simpl.
      split; [eauto|]. split; [eauto|].
      exists false. split; [reflexivity|]. split; [discriminate|].
      intros (i & H & H2 & _). inversion H; subst. rewrite E4 in H2.
      discriminate. }
  destruct (ans_unit (oracle s) (S (S (S (S (S (clock s)))))) _) as [[]|x5]
    eqn:E5; simpl; rewrite <- !app_assoc, drop_app_length; simpl;
    (split; [eauto|]); (split; [eauto|]).
  - exists true. split; [reflexivity|]. split; [|reflexivity].
    intros _. exists input. auto.
  - exists false. split; [reflexivity|]. split; [discriminate|].
    intros (i & _ & _ & H3). discriminate.
Qed.

Lemma upload_file_outcome_witness :
  flag_is true (upgraded labelled_page) /\
  fst (upload_file (ManyPaths ["a.pdf"; "b.pdf"]) (upgraded labelled_page))
    = Ok true /\
  exists rest,
    issued (upload_file (ManyPaths ["a.pdf"; "b.pdf"]))
      (upgraded labelled_page)
    = [ Refresh; WaitPresence prompt_textarea 10;
        FindElement (ByCss send_button_css);
        WaitPresence (ByXPath file_input_xpath) 10 ] ++ rest.
Proof.
  split; [reflexivity|].
  pose proof (proj2 (upload_file_outcome (ManyPaths ["a.pdf"; "b.pdf"])
                       (upgraded labelled_page) eq_refl)) as H.
  simpl in H. destruct H as (Hcalls & b & Hres & Hiff).
  assert (Hb : b = true) by (apply Hiff; exists 31; repeat split).
  subst b. split; [exact Hres|exact Hcalls].
Defined.

(** ** send_request: the retry budget *)

Lemma inside_pass_counts d :
  Forall inside_pass d -> regen_attempts d = 0 /\ poll_passes d = 0.
Proof.
  unfold regen_attempts, poll_passes.
  induction 1 as [|c d [Hr Hs] _ [IH1 IH2]]; simpl; [auto|].
  rewrite Hr, Hs, IH1, IH2. auto.
Qed.

Lemma inside_check_conditions s0 n :
  preserves (emitted inside_pass s0)
    (check_conditions send_button_css continue_xpath n).
Proof.
  induction n as [|n IH]; simpl; log_frame idtac; [|exact IH].
  unfold check_conditions_pass. log_frame ltac:(split; reflexivity).
Qed.

(** A pass starts with the wait for the stop button; nothing else in it
    starts a pass or a regeneration. *)
Lemma poll_pass_budget la s :
  exists d, log (snd (poll_pass la s)) = log s ++ d /\
            regen_attempts d = 0 /\ poll_passes d = 1.
Proof.
  assert (Hrun : poll_pass la s
                 = bind (reify (check_conditions send_button_css continue_xpath 4))
                     (fun r =>
                        match r with
                        | Raise ex => ret (la, Raise ex)
                        | Ok send_button =>
                            wt <- gets wait_time;;
                            r <- reify (wait_all_presence (ByCss assistant_css) wt);;
                            match r with
                            | Raise ex => ret (la, Raise ex)
                            | Ok found =>
                                match last found with
                                | None => ret (BoundList found, Raise IndexError)
                                | Some e =>
                                    modify (set_send_button send_button);;
                                    ret (BoundElement e, Ok tt)
                                end
                            end
                        end)
                     (with_call (WaitPresence (ByCss stop_button_css) 3) s)).
  { unfold poll_pass. unfold bind at 1.
    unfold try_except, try_except_else, bind at 1, wait_presence, invoke, ret.
    destruct (ans_element (oracle s) (clock s) _); reflexivity. }
  rewrite Hrun.
  match goal with
  | |- context [bind ?m ?k ?st] =>
      destruct (emitted_run inside_pass (bind m k) st) as (_ & Hlog & Hall)
  end.
  { intros s0. log_frame ltac:(split; reflexivity).
    apply inside_check_conditions. }
  destruct (inside_pass_counts _ Hall) as [Hr Hp].
  match type of Hall with Forall _ ?d' => set (d := d') in * end.
  clearbody d.
  exists (WaitPresence (ByCss stop_button_css) 3 :: d).
  rewrite Hlog. simpl. rewrite <- app_assoc. simpl.
  split; [reflexivity|].
  unfold regen_attempts, poll_passes in *. simpl. rewrite Hr, Hp. auto.
Qed.

Lemma click_regen_budget s :
  exists d s', click_regen s = (Ok tt, s') /\ log s' = log s ++ d /\
               regen_attempts d = 1 /\ poll_passes d = 0.
Proof.
  unfold click_regen, try_except, try_except_else, bind, wait_presence, click,
    invoke, ret. simpl.
  destruct (ans_element (oracle s) (clock s) _) as [b|e]; simpl.
  - destruct (ans_unit (oracle s) (S (clock s)) _) as [[]|e]; simpl;
      eexists [_; _], _; (split; [reflexivity|]); simpl;
      rewrite <- app_assoc; repeat split.
  - eexists [_], _. split; [reflexivity|]. repeat split.
Qed.

Lemma submit_budget area request s :
  exists d, log (snd (submit area request s)) = log s ++ d /\
            regen_attempts d = 0 /\ poll_passes d = 0.
Proof.
  destruct (emitted_run inside_pass (submit area request) s)
    as (_ & Hlog & Hall).
  { intros s0. apply log_submit. intros c Hc.
    destruct c; simpl in Hc; try contradiction; split; reflexivity. }
  destruct (inside_pass_counts _ Hall). eauto.
Qed.

Lemma text_of_log la s : log (snd (text_of la s)) = log s ++
  match la with BoundElement e => [GetText e] | _ => [] end.
Proof. destruct la; simpl; rewrite ?app_nil_r; reflexivity. Qed.

Lemma poll_loop_budget n : forall la s,
  exists d,
    log (snd (poll_loop n la s)) = log s ++ d /\
    poll_passes d <= n /\ regen_attempts d <= poll_passes d /\
    (not_an_element la ->
     forall answer, fst (poll_loop n la s) = Ok answer ->
       S (regen_attempts d) = poll_passes d).
Proof.
  induction n as [|n IH]; intros la s; simpl.
  - exists (match la with BoundElement e => [GetText e] | _ => [] end).
    split; [apply text_of_log|].
    destruct la; unfold poll_passes, regen_attempts; simpl;
      repeat split; try lia; try discriminate; contradiction.
  - destruct (poll_pass_reports la s) as (la' & r & Hfst & Hlocal).
    destruct (poll_pass_budget la s) as (d1 & Hlog1 & Hr1 & Hp1).
    unfold bind at 1 2 3. destruct (poll_pass la s) as [p s1]. simpl in *.
    subst p. destruct r as [[]|ex].
    + exists (d1 ++ match la' with BoundElement e => [GetText e] | _ => [] end).
      rewrite text_of_log, Hlog1, <- app_assoc. split; [reflexivity|].
      unfold poll_passes, regen_attempts in *. rewrite !count_calls_app.
      rewrite Hr1, Hp1. destruct la'; simpl; repeat split; lia.
    + destruct (click_regen_budget s1)
        as (d2 & s2 & Hregen & Hlog2 & Hr2 & Hp2).
      unfold bind. rewrite Hregen.
      destruct (IH la' s2) as (d3 & Hlog3 & Hp3 & Hr3 & Hok3).
      exists (d1 ++ d2 ++ d3). rewrite Hlog3, Hlog2, Hlog1, <- !app_assoc.
      split; [reflexivity|].
      unfold poll_passes, regen_attempts in *. rewrite !count_calls_app.
      split; [lia|]. split; [lia|].
      intros Hla answer Hans.
      assert (Hla' : not_an_element la').
      { destruct (Hlocal ex eq_refl) as [->|[l ->]]; [exact Hla|exact I]. }
      specialize (Hok3 Hla' answer Hans). lia.
Qed.

Lemma issued_ext {A} (m m' : M A) s : m s = m' s -> issued m s = issued m' s.
Proof. unfold issued. intros ->. reflexivity. Qed.

(** The two branches of [send_request]. *)
Lemma send_request_cases request s :
  (exists area, prompt_text_area (self s) = Some area /\
     send_request request s = (submit area request;; poll_loop 3 Unbound) s) \/
  (prompt_text_area (self s) = None /\
   send_request request s = raise UnboundLocalError s).
Proof.
  unfold send_request.
  rewrite (bind_ok _ _ s (prompt_text_area (self s)) s) by reflexivity.
  destruct (prompt_text_area (self s)) as [area|].
  - left. exists area. split; reflexivity.
  - right. split; reflexivity.
Qed.

(** X10. [send_request] makes at most three passes of its polling loop,
    whatever the page does; a regeneration is attempted only after a pass
    that failed, so there are never more regenerations than passes; and an
    answer is returned only from a pass that succeeded, which no
    regeneration follows (at most two precede it). *)
Theorem send_request_retry_budget request (s : State) :
  poll_passes (issued (send_request request) s) <= 3 /\
  regen_attempts (issued (send_request request) s)
    <= poll_passes (issued (send_request request) s) /\
  (forall answer, fst (send_request request s) = Ok answer ->
     S (regen_attempts (issued (send_request request) s))
     = poll_passes (issued (send_request request) s)).
Proof.
  destruct (send_request_cases request s)
    as [(area & Harea & Hrun) | [Harea Hrun]];
    rewrite !(issued_ext _ _ _ Hrun), Hrun.
  2:{ unfold issued. simpl. rewrite drop_all.
      unfold poll_passes, regen_attempts. simpl.
      repeat split; try lia. discriminate. }
  destruct (submit_budget area request s) as (d1 & Hlog1 & Hr1 & Hp1).
  unfold issued, bind. destruct (submit area request s) as [[[]|e] s1];
    simpl in Hlog1; cbv beta iota.
  - destruct (poll_loop_budget 3 Unbound s1) as (d2 & Hlog2 & Hp2 & Hr2 & Hok2).
    rewrite Hlog2, Hlog1, <- app_assoc, drop_app_length.
    unfold poll_passes, regen_attempts in *. rewrite !count_calls_app.
    rewrite Hr1, Hp1. simpl. split; [exact Hp2|]. split; [exact Hr2|].
    intros answer Hans. exact (Hok2 I answer Hans).
  - simpl. rewrite Hlog1, drop_app_length. rewrite Hr1, Hp1.
    repeat split; try lia. discriminate.
Qed.

Lemma send_request_retry_budget_witness :
  fst (send_request "hi" (ready quiet_page)) = Ok "answer" /\
  poll_passes (issued (send_request "hi") (ready quiet_page)) = 1.
Proof.
  split; [reflexivity|].
  rewrite <- (proj2 (proj2 (send_request_retry_budget "hi" (ready quiet_page)))
                "answer" eq_refl).
  reflexivity.
Defined.

(** ** send_request: the answer *)

Lemma in_step_refl s : in_step s s.
Proof. split; [reflexivity|]. exists []. rewrite app_nil_r. simpl. auto. Qed.

Lemma in_step_call s0 c s : in_step s0 s -> in_step s0 (with_call c s).
Proof.
  intros [Ho (d & Hd & Hc)]. split; [exact Ho|].
  exists (d ++ [c]). simpl. rewrite Hd, Hc, app_assoc, length_app. simpl.
  split; [reflexivity|lia].
Qed.

Lemma in_step_trans s0 s1 s2 : in_step s0 s1 -> in_step s1 s2 -> in_step s0 s2.
Proof.
  intros [Ho1 (d1 & Hd1 & Hc1)] [Ho2 (d2 & Hd2 & Hc2)].
  split; [congruence|]. exists (d1 ++ d2).
  rewrite Hd2, Hd1, Hc2, Hc1, app_assoc, length_app. split; [reflexivity|lia].
Qed.

(** Every method keeps the clock in step with the log and leaves the oracle
    alone. *)
Lemma in_step_run {A} (m : M A) s :
  (forall I : State -> Prop,
     (forall c s, I s -> I (with_call c s)) ->
     (forall f s, I s -> I (with_self f s)) ->
     (forall p t s, I s -> I (with_file p t s)) -> preserves I m) ->
  in_step s (snd (m s)).
Proof.
  intros H. apply (H (in_step s)).
  - intros c s1. apply in_step_call.
  - intros f s1 Hs. exact Hs.
  - intros p t s1 Hs. exact Hs.
  - apply in_step_refl.
Qed.

(** One pass, spelled out on the answers of the page. *)
Lemma poll_pass_unfolded la s :
  poll_pass la s
  = match check_conditions send_button_css continue_xpath 4
            (with_call (WaitPresence (ByCss stop_button_css) 3) s) with
    | (Raise ex, s1) => (Ok (la, Raise ex), s1)
    | (Ok send_button, s1) =>
        let wait := WaitAllPresence (ByCss assistant_css) (wait_time (self s1)) in
        match ans_elements (oracle s1) (clock s1) wait with
        | Raise ex => (Ok (la, Raise ex), with_call wait s1)
        | Ok found =>
            match last found with
            | None => (Ok (BoundList found, Raise IndexError), with_call wait s1)
            | Some e =>
                (Ok (BoundElement e, Ok tt),
                 with_self (set_send_button send_button) (with_call wait s1))
            end
        end
    end.
Proof.
  unfold poll_pass.
  generalize (check_conditions send_button_css continue_xpath 4). intros cc.
  unfold bind, try_except, try_except_else, reify, gets,
    wait_presence, wait_all_presence, invoke, ret, modify. simpl.
  destruct (ans_element (oracle s) (clock s) _) as [b|e0]; simpl;
    (match goal with
     | |- context [cc ?st] => destruct (cc st) as [[sb|e1] s1]
     end; simpl; [|reflexivity];
     destruct (ans_elements (oracle s1) (clock s1) _) as [found|e2]; simpl;
     [destruct (last found); reflexivity | reflexivity]).
Qed.

(** A pass that ends normally has located assistant messages; it leaves
    [last_answer] bound to the last of them. *)
Lemma poll_pass_success la s la' s2 :
  poll_pass la s = (Ok (la', Ok tt), s2) ->
  exists s1 found e,
    in_step s s1 /\
    ans_elements (oracle s1) (clock s1)
      (WaitAllPresence (ByCss assistant_css) (wait_time (self s1))) = Ok found /\
    last found = Some e /\ la' = BoundElement e /\
    log s2 = log s1
             ++ [WaitAllPresence (ByCss assistant_css) (wait_time (self s1))] /\
    clock s2 = S (clock s1) /\ oracle s2 = oracle s1.
Proof.
  rewrite poll_pass_unfolded. intros Hrun.
  assert (Hstep : in_step s
            (snd (check_conditions send_button_css continue_xpath 4
                    (with_call (WaitPresence (ByCss stop_button_css) 3) s)))).
  { eapply in_step_trans; [apply in_step_call, in_step_refl|].
    apply in_step_run. intros I Hc Hs Hf.
    apply any_check_conditions; assumption. }
  destruct (check_conditions _ _ _ _) as [[sb|ex] s1]; [|inversion Hrun].
  simpl in *.
  destruct (ans_elements (oracle s1) (clock s1) _) as [found|ex] eqn:Efound;
    [|inversion Hrun].
  destruct (last found) as [e|] eqn:Elast; inversion Hrun; subst.
  exists s1, found, e. split; [exact Hstep|]. repeat split; auto.
Qed.

Lemma poll_loop_success n : forall la s answer s',
  not_an_element la ->
  poll_loop n la s = (Ok answer, s') ->
  exists s1 found e,
    in_step s s1 /\
    ans_elements (oracle s1) (clock s1)
      (WaitAllPresence (ByCss assistant_css) (wait_time (self s1))) = Ok found /\
    last found = Some e /\
    ans_text (oracle s1) (S (clock s1)) (GetText e) = Ok answer /\
    log s' = log s1
             ++ [WaitAllPresence (ByCss assistant_css) (wait_time (self s1));
                 GetText e].
Proof.
  induction n as [|n IH]; intros la s answer s' Hla Hrun; simpl in Hrun.
  - destruct la; simpl in *; try discriminate. contradiction.
  - destruct (poll_pass_reports la s) as (la' & r & Hfst & Hlocal).
    unfold bind at 1 in Hrun.
    destruct (poll_pass la s) as [p s2] eqn:Hpass. simpl in Hfst. subst p.
    destruct r as [[]|ex].
    + destruct (poll_pass_success la s la' s2 Hpass)
        as (s1 & found & e & Hstep & Hfound & Hlast & -> & Hlog & Hclock & Horacle).
      simpl in Hrun. unfold text, invoke in Hrun.
      rewrite Horacle, Hclock in Hrun.
      destruct (ans_text (oracle s1) (S (clock s1)) (GetText e)) as [t|x] eqn:Et;
        inversion Hrun; subst.
      exists s1, found, e. split; [exact Hstep|]. repeat split; auto.
      simpl. rewrite Hlog, <- app_assoc. reflexivity.
    + assert (Hla' : not_an_element la').
      { destruct (Hlocal ex eq_refl) as [->|[l ->]]; [exact Hla|exact I]. }
      assert (Hstep2 : in_step s s2).
      { pose proof (in_step_run (poll_pass la) s) as H. rewrite Hpass in H.
        apply H. intros I Hc Hs Hf. apply any_poll_pass; assumption. }
      destruct (click_regen_once s2) as (d & s3 & Hregen & _ & _).
      assert (Hstep3 : in_step s2 s3).
      { pose proof (in_step_run click_regen s2) as H. rewrite Hregen in H.
        apply H. intros I Hc Hs Hf. apply any_click_regen; assumption. }
      unfold bind in Hrun. rewrite Hregen in Hrun.
      destruct (IH la' s3 answer s' Hla' Hrun)
        as (s1 & found & e & Hstep & Hrest).
      exists s1, found, e. split; [|exact Hrest].
      eauto using in_step_trans.
Qed.

(** X11. An answer returned by [send_request] is never a stale one: it is
    the text the page gives, in the pass that succeeded, for the last of
    the assistant messages that pass has just located; these are the last
    two calls of the request. *)
Theorem send_request_answer_is_fresh request (s : State) answer :
  fst (send_request request s) = Ok answer ->
  exists before wt found e,
    issued (send_request request) s
      = before ++ [WaitAllPresence (ByCss assistant_css) wt; GetText e] /\
    ans_elements (oracle s) (clock s + length before)
      (WaitAllPresence (ByCss assistant_css) wt) = Ok found /\
    last found = Some e /\
    ans_text (oracle s) (S (clock s + length before)) (GetText e) = Ok answer.
Proof.
  intros Hok.
  destruct (send_request_cases request s)
    as [(area & Harea & Hrun) | [Harea Hrun]];
    rewrite (issued_ext _ _ _ Hrun); rewrite Hrun in Hok; [|discriminate].
  assert (Hstep0 : in_step s (snd (submit area request s))).
  { apply in_step_run. intros I Hc Hs Hf. apply any_submit; assumption. }
  unfold issued, bind in *.
  destruct (submit area request s) as [[[]|x] s0]; [|discriminate].
  cbv beta iota in *. simpl in Hstep0.
  destruct (poll_loop 3 Unbound s0) as [r s'] eqn:Hloop. simpl in Hok. subst r.
  destruct (poll_loop_success 3 Unbound s0 answer s' I Hloop)
    as (s1 & found & e & Hstep & Hfound & Hlast & Htext & Hlog).
  destruct (in_step_trans _ _ _ Hstep0 Hstep) as [Horacle (d & Hd & Hclock)].
  exists d, (wait_time (self s1)), found, e.
  rewrite <- Horacle, <- Hclock. split; [|auto].
  simpl. rewrite Hlog, Hd, <- app_assoc. apply drop_app_length.
Qed.

Lemma send_request_answer_is_fresh_witness :
  fst (send_request "hi" (ready quiet_page)) = Ok "answer" /\
  exists before wt found e,
    issued (send_request "hi") (ready quiet_page)
      = before ++ [WaitAllPresence (ByCss assistant_css) wt; GetText e] /\
    last found = Some e.
Proof.
  split; [reflexivity|].
  destruct (send_request_answer_is_fresh "hi" (ready quiet_page) "answer"
              eq_refl) as (before & wt & found & e & H1 & _ & H3 & _).
  exists before, wt, found, e. auto.
Defined.

(** ** send_request: what is typed *)

Lemma typed_text_lines line rest :
  typed_text (keys_of_lines (line :: rest))
  = line +:+ Str.nl +:+ typed_text (keys_of_lines rest).
Proof.
  reflexivity.
Qed.

(** The lines of a text, each followed by a line break, make up the text
    and one more line break. *)
Lemma typed_text_split s :
  typed_text (keys_of_lines (Str.split Str.newline s)) = s +:+ Str.nl.
Proof.
  induction s as [|c rest IH]; [reflexivity|].
  simpl Str.split. destruct (Ascii.eqb c Str.newline) eqn:E.
  - apply Ascii.eqb_eq in E. subst c. rewrite typed_text_lines, IH. reflexivity.
  - destruct (Str.split Str.newline rest) as [|w ws] eqn:Es.
    + exfalso. exact (split_nonempty _ _ Es).
    + rewrite typed_text_lines in *.
      change (String c w +:+ Str.nl +:+ typed_text (keys_of_lines ws))
        with (String c (w +:+ Str.nl +:+ typed_text (keys_of_lines ws))).
      rewrite IH. reflexivity.
Qed.

(** No line of a text holds a line break. *)
Lemma split_lines_whole s :
  Forall (fun line => Str.split Str.newline line = [line])
    (Str.split Str.newline s).
Proof.
  induction s as [|c rest IH]; simpl; [repeat constructor|].
  destruct (Ascii.eqb c Str.newline) eqn:E.
  - constructor; [reflexivity|exact IH].
  - destruct (Str.split Str.newline rest) as [|w ws]; simpl.
    + repeat constructor. simpl. rewrite E. reflexivity.
    + inversion IH as [|? ? Hw Hws]; subst. constructor; [|exact Hws].
      simpl. rewrite E, Hw. reflexivity.
Qed.

Lemma soft_lines lines :
  Forall (fun line => Str.split Str.newline line = [line]) lines ->
  Forall soft_line (keys_of_lines lines).
Proof.
  unfold keys_of_lines. induction 1 as [|l ls Hl _ IH]; simpl; [constructor|].
  constructor; [right; eauto|]. constructor; [left; reflexivity|exact IH].
Qed.

Lemma Forall_prefix {A} (P : A -> Prop) (l1 l2 : list A) :
  l1 `prefix_of` l2 -> Forall P l2 -> Forall P l1.
Proof. intros [k ->] H. apply Forall_app in H. apply H. Qed.

(** X12. Every key sequence [send_request] sends is a piece of text without
    a line break or SHIFT+RETURN: RETURN never goes out on its own, so the
    typing cannot submit the request.  When the call returns an answer, what
    was typed is the request itself followed by one soft line break. *)
Theorem send_request_types_the_request request (s : State) :
  Forall soft_line (typed_keys (issued (send_request request) s)) /\
  (forall answer, fst (send_request request s) = Ok answer ->
     typed_text (typed_keys (issued (send_request request) s))
     = request +:+ Str.nl).
Proof.
  destruct (send_request_cases request s)
    as [(area & Harea & Hrun) | [Harea Hrun]].
  - destruct (send_request_keys request s area Harea) as [Hpre Hall]. split.
    + eapply Forall_prefix; [exact Hpre|].
      apply soft_lines, split_lines_whole.
    + intros answer Hok. rewrite (Hall answer Hok). apply typed_text_split.
  - rewrite (issued_ext _ _ _ Hrun), Hrun. unfold issued. simpl.
    rewrite drop_all. split; [constructor|discriminate].
Qed.

Lemma send_request_types_the_request_witness :
  typed_text (typed_keys (issued (send_request ("a" +:+ Str.nl +:+ "b"))
                            (ready quiet_page)))
  = "a" +:+ Str.nl +:+ "b" +:+ Str.nl.
Proof.
  exact (proj2 (send_request_types_the_request ("a" +:+ Str.nl +:+ "b")
                  (ready quiet_page)) "answer" eq_refl).
Defined.

(** ** check_conditions: what its result means *)

(** A pass that returns does so with the element just found, after the wait
    for the other element, or the click on it, has timed out. *)
Lemma check_conditions_pass_returns css xpath s v s' :
  check_conditions_pass css xpath s = (Ok (Returned v), s') ->
  exists b,
    v = Some b /\
    ans_element (oracle s) (clock s)
      (WaitPresence (ByCss css) (wait_time (self s))) = Ok b /\
    (ans_element (oracle s) (S (clock s)) (WaitPresence (ByXPath xpath) 5)
       = Raise TimeoutException \/
     exists cb,
       ans_element (oracle s) (S (clock s)) (WaitPresence (ByXPath xpath) 5)
         = Ok cb /\
       ans_unit (oracle s) (S (S (clock s))) (Click cb) = Raise TimeoutException).
Proof.
  unfold check_conditions_pass, try_except, try_except_else, bind, gets,
    wait_presence, click, sleep, invoke, ret. simpl.
  destruct (ans_element (oracle s) (clock s) _) as [sb|e1]; simpl.
  2:{ destruct (is_TimeoutException e1); discriminate. }
  destruct (ans_element (oracle s) (S (clock s)) _) as [cb|e2]; simpl.
  - destruct (ans_unit (oracle s) (S (S (clock s))) _) as [[]|e3] eqn:E3;
      simpl; [discriminate|].
    destruct e3; simpl; try discriminate.
    intros H. inversion H; subst. exists sb.
    split; [reflexivity|]. split; [reflexivity|]. right. exists cb. auto.
  - destruct e2; simpl; try discriminate.
    intros H. inversion H; subst. exists sb. auto.
Qed.

(** X13. When [check_conditions] returns an element, it is the one its
    wait for the element that must be present has just returned, in a pass
    where the next call, the wait for the element that must be absent, timed
    out; or where that element was found and the click on it timed out,
    which the code takes for absence as well.  With [retries = 0] the result
    is [None]. *)
Theorem check_conditions_returns_after_timeout css xpath retries (s : State) b :
  fst (check_conditions css xpath retries s) = Ok (Some b) ->
  0 < retries /\
  exists n wt,
    ans_element (oracle s) n (WaitPresence (ByCss css) wt) = Ok b /\
    (ans_element (oracle s) (S n) (WaitPresence (ByXPath xpath) 5)
       = Raise TimeoutException \/
     exists cb,
       ans_element (oracle s) (S n) (WaitPresence (ByXPath xpath) 5) = Ok cb /\
       ans_unit (oracle s) (S (S n)) (Click cb) = Raise TimeoutException).
Proof.
  revert s. induction retries as [|n IH]; intros s; simpl; [discriminate|].
  intros Hres. split; [lia|].
  destruct (check_conditions_pass_shape css xpath s)
    as (d & _ & Horacle & _).
  unfold bind in Hres.
  destruct (check_conditions_pass css xpath s) as [[[|v]|e] s1] eqn:Hpass;
    simpl in *.
  - destruct (IH s1 Hres) as (_ & k & wt & H). rewrite Horacle in H. eauto.
  - inversion Hres; subst.
    destruct (check_conditions_pass_returns css xpath s _ s1 Hpass)
      as (b' & Hb & H). inversion Hb; subst. eauto.
  - discriminate.
Qed.

Lemma check_conditions_returns_after_timeout_witness :
  fst (check_conditions send_button_css continue_xpath 4 (ready quiet_page))
    = Ok (Some 1) /\
  exists n,
    ans_element quiet_page (S n) (WaitPresence (ByXPath continue_xpath) 5)
    = Raise TimeoutException.
Proof.
  split; [reflexivity|].
  destruct (check_conditions_returns_after_timeout send_button_css
              continue_xpath 4 (ready quiet_page) 1 eq_refl)
    as (_ & n & wt & _ & [H | (cb & H & _)]).
  - exists n. exact H.
  - discriminate.
Defined.

(** X14. When the element that must be present never shows up,
    [check_conditions] waits for it [retries] times, each time for
    [wait_time], does nothing else, and returns [None]. *)
Theorem check_conditions_waits_in_vain css xpath retries (s : State) :
  (forall n t, ans_element (oracle s) n (WaitPresence (ByCss css) t)
               = Raise TimeoutException) ->
  fst (check_conditions css xpath retries s) = Ok None /\
  issued (check_conditions css xpath retries) s
  = replicate retries (WaitPresence (ByCss css) (wait_time (self s))).
Proof.
  intros Hnever.
  assert (Hpass : forall s0, oracle s0 = oracle s ->
            check_conditions_pass css xpath s0
            = (Ok Continue,
               with_call (WaitPresence (ByCss css) (wait_time (self s0))) s0)).
  { intros s0 Ho.
    unfold check_conditions_pass, try_except, try_except_else, bind, gets,
      wait_presence, invoke, ret. simpl. rewrite Ho, Hnever. reflexivity. }
  assert (Hloop : forall n s0, oracle s0 = oracle s ->
            fst (check_conditions css xpath n s0) = Ok None /\
            log (snd (check_conditions css xpath n s0))
            = log s0 ++ replicate n
                          (WaitPresence (ByCss css) (wait_time (self s0)))).
  { induction n as [|n IH]; intros s0 Ho; simpl.
    - rewrite app_nil_r. auto.
    - unfold bind. rewrite (Hpass s0 Ho).
      destruct (IH (with_call (WaitPresence (ByCss css) (wait_time (self s0))) s0)
                  Ho) as [Hres Hlog].
      split; [exact Hres|]. rewrite Hlog. simpl. rewrite <- app_assoc.
      reflexivity. }
  destruct (Hloop retries s eq_refl) as [Hres Hlog].
  split; [exact Hres|]. apply issued_of_log, Hlog.
Qed.

Lemma check_conditions_waits_in_vain_witness :
  issued (check_conditions "#nothing" continue_xpath 4)
    (ready (mkOracle (ans_unit quiet_page)
              (fun _ _ => Raise TimeoutException) (ans_elements quiet_page)
              (ans_bool quiet_page) (ans_text quiet_page)
              (ans_cookies quiet_page)))
  = replicate 4 (WaitPresence (ByCss "#nothing") 10).
Proof.
  apply (check_conditions_waits_in_vain "#nothing" continue_xpath 4).
  intros n t. reflexivity.
Defined.

(** ** The cookies file, when it is there *)

Lemma opened_for_writing_app d1 d2 :
  opened_for_writing (d1 ++ d2) = opened_for_writing d1 ++ opened_for_writing d2.
Proof.
  induction d1 as [|c d1 IH]; simpl; [reflexivity|].
  destruct c; simpl; rewrite ?IH; reflexivity.
Qed.

Lemma adds_cookie_no_writing d :
  Forall adds_cookie d -> opened_for_writing d = [].
Proof.
  induction 1 as [|c d Hc _ IH]; simpl; [reflexivity|].
  destruct c; simpl in *; try contradiction. exact IH.
Qed.

(** The injection loop only adds cookies. *)
Lemma inject_cookies_footprint l s :
  files (snd (inject_cookies l s)) = files s /\
  exists d, log (snd (inject_cookies l s)) = log s ++ d /\ Forall adds_cookie d.
Proof.
  split.
  - apply (any_inject_cookies (fun s' => files s' = files s)); auto.
  - destruct (emitted_run adds_cookie (inject_cookies l) s) as (_ & Hlog & Hall).
    { intros s0. induction l as [|c l IH]; simpl;
        log_frame ltac:(exact I). exact IH. }
    eauto.
Qed.

Section ExistingCookies.

Context (json_loads : string -> Res json) (json_dumps : json -> string).

(** X15. A cookies file that exists is read and never written: whatever it
    holds, the cookie block of [__init__] leaves every file as it was and
    opens none for writing. *)
Theorem load_cookies_keeps_existing_file path (s : State) :
  path <> "" ->
  is_Some (files s !! path) ->
  files (snd (load_cookies json_loads json_dumps path s)) = files s /\
  opened_for_writing (issued (load_cookies json_loads json_dumps path) s) = [].
Proof.
  intros Hpath [content Hfile].
  assert (Heqb : String.eqb path "" = false) by (apply String.eqb_neq, Hpath).
  assert (Hrun : load_cookies json_loads json_dumps path s
                 = (cookies_list <- lift (json_loads content);;
                    items <- lift (py_iter cookies_list);;
                    inject_cookies items) (with_call (OpenRead path) s)).
  { unfold load_cookies, path_exists, read_text, bind, lift. simpl.
    rewrite Hfile, Heqb. simpl. rewrite Hfile. reflexivity. }
  unfold issued. rewrite Hrun. unfold bind, lift.
  destruct (json_loads content) as [v|e]; simpl.
  2:{ rewrite drop_app_length. auto. }
  destruct (py_iter v) as [items|e]; simpl.
  2:{ rewrite drop_app_length. auto. }
  destruct (inject_cookies_footprint items (with_call (OpenRead path) s))
    as (Hfiles & d & Hlog & Hall).
  split; [exact Hfiles|].
  rewrite Hlog. simpl. rewrite <- app_assoc, drop_app_length. simpl.
  apply adds_cookie_no_writing, Hall.
Qed.

Lemma inject_cookies_prefix objs : forall s,
  exists d,
    log (snd (inject_cookies (JObj <$> objs) s)) = log s ++ d /\
    added_cookies d `prefix_of` (delete "domain" <$> objs).
Proof.
  induction objs as [|o objs IH]; intros s.
  - exists []. simpl. rewrite app_nil_r. split; [reflexivity|].
    exists []. reflexivity.
  - simpl. unfold bind, lift, add_cookie, invoke. simpl.
    destruct (ans_unit (oracle s) (clock s) _) as [[]|e]; simpl.
    + destruct (IH (with_call (AddCookie (delete "domain" o)) s))
        as (d & Hlog & [k Hk]).
      exists (AddCookie (delete "domain" o) :: d). split.
      * etransitivity; [exact Hlog|]. simpl. rewrite <- app_assoc. reflexivity.
      * exists k. simpl. f_equal. exact Hk.
    + exists [AddCookie (delete "domain" o)]. split; [reflexivity|].
      simpl. eexists. reflexivity.
Qed.

(** X16. From a cookies file that holds an array of objects, the objects
    are handed to the browser in the order of the file, each without its
    [domain]; the first cookie the browser refuses ends the injection (and
    the construction), and when none is refused all of them are added. *)
Theorem load_cookies_injects_in_order path (s : State) content objs :
  path <> "" ->
  files s !! path = Some content ->
  json_loads content = Ok (JArr (JObj <$> objs)) ->
  added_cookies (issued (load_cookies json_loads json_dumps path) s)
    `prefix_of` (delete "domain" <$> objs) /\
  (cookies_accepted (oracle s) ->
   fst (load_cookies json_loads json_dumps path s) = Ok tt /\
   added_cookies (issued (load_cookies json_loads json_dumps path) s)
   = delete "domain" <$> objs).
Proof.
  intros Hpath Hfile Hloads.
  assert (Heqb : String.eqb path "" = false) by (apply String.eqb_neq, Hpath).
  assert (Hrun : load_cookies json_loads json_dumps path s
                 = inject_cookies (JObj <$> objs) (with_call (OpenRead path) s)).
  { unfold load_cookies, path_exists, read_text, bind, lift. simpl.
    rewrite Hfile, Heqb. simpl. rewrite Hfile, Hloads. reflexivity. }
  destruct (inject_cookies_prefix objs (with_call (OpenRead path) s))
    as (d & Hlog & Hpre).
  assert (Hissued : issued (load_cookies json_loads json_dumps path) s
                    = OpenRead path :: d).
  { unfold issued. rewrite Hrun, Hlog. simpl.
    rewrite <- app_assoc, drop_app_length. reflexivity. }
  rewrite Hissued. simpl. split; [exact Hpre|].
  intros Hacc. rewrite Hrun.
  destruct (inject_cookies_all objs (with_call (OpenRead path) s) Hacc)
    as [Hres Hlog'].
  split; [exact Hres|]. rewrite Hlog in Hlog'. apply app_inv_head in Hlog'.
  subst d. clear. induction objs as [|o objs IH]; simpl; [reflexivity|].
  f_equal. exact IH.
Qed.

End ExistingCookies.

Lemma load_cookies_keeps_existing_file_witness :
  files (snd (load_cookies loads_sample dumps_sample "cookies.json"
                (boot quiet_page (<["cookies.json" := sample_cookies_text]> ∅))))
  = <["cookies.json" := sample_cookies_text]> ∅.
Proof.
  apply (proj1 (load_cookies_keeps_existing_file loads_sample dumps_sample
                  "cookies.json"
                  (boot quiet_page (<["cookies.json" := sample_cookies_text]> ∅))
                  ltac:(discriminate) ltac:(eexists; reflexivity))).
Defined.

Lemma load_cookies_injects_in_order_witness :
  added_cookies
    (issued (load_cookies loads_sample dumps_sample "cookies.json")
       (boot quiet_page (<["cookies.json" := sample_cookies_text]> ∅)))
  = [delete "domain" sample_cookie].
Proof.
  apply (proj2 (load_cookies_injects_in_order loads_sample dumps_sample
                  "cookies.json"
                  (boot quiet_page (<["cookies.json" := sample_cookies_text]> ∅))
                  sample_cookies_text [sample_cookie]
                  ltac:(discriminate) eq_refl eq_refl)).
  intros n ck. reflexivity.
Defined.

(** ** manual_login and the order of construction *)

(** X17. [manual_login] asks the operator first, reads the cookies next and
    opens [cookies.pkl] last; a step that raises ends it, and then no file
    has been touched.  In particular nothing is read from the browser when
    the prompt fails (end of input). *)
Theorem manual_login_in_order dump (s : State) :
  issued (manual_login dump) s `prefix_of` manual_login_steps /\
  (forall x, fst (manual_login dump s) = Raise x ->
     files (snd (manual_login dump s)) = files s) /\
  (forall x, ans_text (oracle s) (clock s) (Input login_prompt) = Raise x ->
     issued (manual_login dump) s = [Input login_prompt]).
Proof.
  unfold issued, manual_login, manual_login_steps, bind, input, get_cookies,
    open_write, file_write, invoke. simpl.
  destruct (ans_text (oracle s) (clock s) _) as [line|e1]; simpl.
  2:{ rewrite drop_app_length. split; [eexists; reflexivity|]. auto. }
  destruct (ans_cookies (oracle s) (S (clock s)) GetCookies) as [cs|e2]; simpl.
  2:{ rewrite <- app_assoc, drop_app_length.
      split; [eexists; reflexivity|]. split; [auto|discriminate]. }
  destruct (ans_unit (oracle s) (S (S (clock s))) _) as [[]|e3]; simpl;
    rewrite <- !app_assoc, drop_app_length;
    (split; [exists []; reflexivity|]); split; try discriminate; auto.
Qed.

Lemma manual_login_in_order_witness :
  issued (manual_login dump_pretty_sample)
    (ready (mkOracle (ans_unit quiet_page) (ans_element quiet_page)
              (ans_elements quiet_page) (ans_bool quiet_page)
              (fun _ _ => Raise EOFError) (ans_cookies quiet_page)))
  = [Input login_prompt].
Proof.
  eapply (proj2 (proj2 (manual_login_in_order dump_pretty_sample _))).
  reflexivity.
Defined.

Lemma bind_ext {A B} (m : M A) (k k' : A -> M B) s :
  (forall a s', k a s' = k' a s') -> bind m k s = bind m k' s.
Proof. intros H. unfold bind. destruct (m s) as [[a|e] s1]; auto. Qed.

Section Order.

Context (json_loads : string -> Res json) (json_dumps : json -> string)
        (json_dump_pretty : list cookie -> string).

Lemma init_halves cfg s :
  __init__ json_loads json_dumps json_dump_pretty cfg s
  = (start_browser cfg;;
     (enter_session json_loads json_dumps json_dump_pretty cfg;;
      send_context (cfg_context_content cfg);;
      modify (set_is_context_created true))) s.
Proof.
  unfold __init__, prepare_session, start_browser, enter_session.
  revert s. repeat (intros ?; rewrite ?bind_assoc;
                    first [reflexivity | apply bind_ext; intros ?]).
Qed.

(** The first half issues its three calls in order and stops at the first
    that fails. *)
Lemma start_browser_run cfg s :
  exists d,
    log (snd (start_browser cfg s)) = log s ++ d /\
    oracle (snd (start_browser cfg s)) = oracle s /\
    d `prefix_of` start_steps cfg /\
    (fst (start_browser cfg s) = Ok tt ->
     d = start_steps cfg /\
     ans_unit (oracle s) (S (S (clock s))) (Get (cfg_url cfg)) = Ok tt).
Proof.
  unfold start_browser, start_steps, bind, modify, makedirs, launch_chrome,
    driver_get, gets, invoke. simpl.
  destruct (ans_unit (oracle s) (clock s) _) as [[]|e1]; simpl.
  2:{ eexists [_]. repeat split; [eexists; reflexivity|discriminate|discriminate]. }
  destruct (ans_unit (oracle s) (S (clock s)) _) as [[]|e2]; simpl.
  2:{ eexists [_; _]. rewrite <- app_assoc.
      repeat split; [eexists; reflexivity|discriminate|discriminate]. }
  destruct (ans_unit (oracle s) (S (S (clock s))) _) as [[]|e3] eqn:E3; simpl;
    eexists [_; _; _]; rewrite <- !app_assoc;
    (split; [reflexivity|]); (split; [reflexivity|]);
    (split; [exists []; reflexivity|]); [auto|discriminate].
Qed.

Lemma after_start_any cfg (I : State -> Prop) :
  (forall c s, I s -> I (with_call c s)) ->
  (forall f s, I s -> I (with_self f s)) ->
  (forall p t s, I s -> I (with_file p t s)) ->
  preserves I
    (enter_session json_loads json_dumps json_dump_pretty cfg;;
     send_context (cfg_context_content cfg);;
     modify (set_is_context_created true)).
Proof.
  intros Hc Hs Hf. unfold enter_session. preserve;
    first [ apply any_load_cookies | apply any_manual_login
          | apply any_select_model | apply any_locate_controls
          | apply any_send_context | idtac ]; auto.
Qed.

(** X18. No cookie is handed to the browser before the page has been
    loaded: when [__init__] adds a cookie, its calls started with the
    creation of the profile directory, the launch of Chrome and the
    navigation to the configured URL, and that navigation had succeeded. *)
Theorem init_adds_cookies_after_navigation cfg (s : State) ck :
  AddCookie ck ∈ issued (__init__ json_loads json_dumps json_dump_pretty cfg) s ->
  (exists rest,
     issued (__init__ json_loads json_dumps json_dump_pretty cfg) s
     = start_steps cfg ++ rest) /\
  ans_unit (oracle s) (S (S (clock s))) (Get (cfg_url cfg)) = Ok tt.
Proof.
  assert (Hissued :
            issued (__init__ json_loads json_dumps json_dump_pretty cfg) s
            = drop (length (log s))
                (log match start_browser cfg s with
                     | (Ok _, s1) =>
                         snd ((enter_session json_loads json_dumps
                                 json_dump_pretty cfg;;
                               send_context (cfg_context_content cfg);;
                               modify (set_is_context_created true)) s1)
                     | (Raise _, s1) => s1
                     end)).
  { rewrite (issued_ext _ _ _ (init_halves cfg s)). unfold issued, bind at 1.
    destruct (start_browser cfg s) as [[[]|e] s1]; reflexivity. }
  rewrite Hissued. clear Hissued.
  destruct (start_browser_run cfg s) as (d & Hlog & _ & Hpre & Hok).
  destruct (start_browser cfg s) as [[[]|e] s1]; simpl in Hlog, Hok.
  - destruct (Hok eq_refl) as [-> Hget].
    destruct (in_step_run
                (enter_session json_loads json_dumps json_dump_pretty cfg;;
                 send_context (cfg_context_content cfg);;
                 modify (set_is_context_created true)) s1)
      as [_ (d2 & Hlog2 & _)].
    { intros I. apply after_start_any. }
    rewrite Hlog2, Hlog, <- app_assoc, drop_app_length. eauto.
  - rewrite Hlog, drop_app_length. intros Hin. exfalso.
    destruct Hpre as [k Hk]. unfold start_steps in Hk.
    assert (Hin' : AddCookie ck ∈ d ++ k) by (apply elem_of_app; auto).
    rewrite <- Hk in Hin'. elem_cases.
Qed.
Lemma keyless_prepare_session s0 cfg :
  preserves (emitted keyless s0)
    (prepare_session json_loads json_dumps json_dump_pretty cfg).
Proof.
  unfold prepare_session, load_cookies, manual_login, select_model,
    check_chatgpt4o, locate_controls.
  log_frame ltac:(exact I).
  match goal with |- preserves _ (inject_cookies ?l) => induction l as [|c l IH] end;
    simpl; log_frame ltac:(exact I). exact IH.
Qed.

(** X19. When the prompt area never appears, [__init__] raises (the wait
    of line 158 is not guarded) and the opening message is not typed:
    no key is sent to the page. *)
Theorem init_fails_without_prompt_area cfg (s : State) :
  (forall n t, exists e,
     ans_element (oracle s) n (WaitPresence prompt_textarea t) = Raise e) ->
  (exists e,
     fst (__init__ json_loads json_dumps json_dump_pretty cfg s) = Raise e) /\
  typed_keys (issued (__init__ json_loads json_dumps json_dump_pretty cfg) s)
  = [].
Proof.
  intros Hnever.
  assert (Hlocate : forall s1, oracle s1 = oracle s ->
            exists e, fst (locate_controls s1) = Raise e).
  { intros s1 Ho. unfold locate_controls, bind, gets, wait_presence, invoke.
    simpl. rewrite Ho.
    destruct (Hnever (clock s1) (wait_time (self s1))) as [e ->]. eauto. }
  assert (Hprep : exists e,
            fst (prepare_session json_loads json_dumps json_dump_pretty cfg s)
            = Raise e).
  { assert (Hchain : forall (m : M unit) (k : M unit) s1,
              oracle s1 = oracle s ->
              preserves (fun s' => oracle s' = oracle s) m ->
              (forall s2, oracle s2 = oracle s -> exists e, fst (k s2) = Raise e) ->
              exists e, fst ((m;; k) s1) = Raise e).
    { intros m k s1 Ho Hm Hk. unfold bind. specialize (Hm s1 Ho).
      destruct (m s1) as [[[]|e] s2]; simpl in *; eauto. }
    unfold prepare_session.
    assert (Hstr : forall (m : M string) (k : string -> M unit) s1,
              oracle s1 = oracle s ->
              preserves (fun s' => oracle s' = oracle s) m ->
              (forall u s2, oracle s2 = oracle s ->
                            exists e, fst (k u s2) = Raise e) ->
              exists e, fst ((u <- m;; k u) s1) = Raise e).
    { intros m k s1 Ho Hm Hk. unfold bind. specialize (Hm s1 Ho).
      destruct (m s1) as [[u|e] s2]; simpl in *; eauto. }
    apply Hchain; [reflexivity | conv_frame |]. intros s1 H1.
    apply Hchain; [exact H1 | conv_frame |]. intros s2 H2.
    apply Hchain; [exact H2 | conv_frame |]. intros s3 H3.
    apply Hchain; [exact H3 | conv_frame |]. intros s4 H4.
    apply Hchain; [exact H4 | conv_frame |]. intros s5 H5.
    apply Hchain; [exact H5 | conv_frame |]. intros s6 H6.
    apply Hstr; [exact H6 | conv_frame |]. intros u s7 H7.
    apply Hchain; [exact H7 | conv_frame |]. intros s8 H8.
    apply Hchain; [exact H8 | apply any_load_cookies; auto |]. intros s9 H9.
    apply Hchain; [exact H9 | |].
    { destruct (cfg_manual_login cfg);
        [apply any_manual_login; auto | apply preserves_ret]. }
    intros s10 H10.
    apply Hchain; [exact H10 | apply any_select_model; auto |].
    exact Hlocate. }
  destruct Hprep as [e He].
  assert (Hrun : __init__ json_loads json_dumps json_dump_pretty cfg s
                 = (Raise e,
                    snd (prepare_session json_loads json_dumps json_dump_pretty
                           cfg s))).
  { unfold __init__. unfold bind at 1.
    destruct (prepare_session json_loads json_dumps json_dump_pretty cfg s)
      as [r s1]. simpl in He. subst r. reflexivity. }
  split; [exists e; rewrite Hrun; reflexivity|].
  destruct (emitted_run keyless
              (prepare_session json_loads json_dumps json_dump_pretty cfg) s
              (fun s0 => keyless_prepare_session s0 cfg)) as (_ & Hlog & Hall).
  unfold issued in *. rewrite Hrun. simpl. apply keyless_typed, Hall.
Qed.
End Order.

(** ** Construction on the sample worlds *)

Lemma init_marks_completion_witness :
  fst (__init__ loads_sample dumps_sample dump_pretty_sample default_config
         (boot quiet_page ∅)) = Raise FileNotFoundError /\
  issued __del__
    (snd (__init__ loads_sample dumps_sample dump_pretty_sample default_config
            (boot quiet_page ∅))) = [].
Proof.
  split; [vm_compute; reflexivity|].
  apply (proj2 (init_marks_completion loads_sample dumps_sample
                  dump_pretty_sample default_config (boot quiet_page ∅))
           FileNotFoundError).
  vm_compute. reflexivity.
Defined.

Lemma constructed_attributes_fixed_witness :
  wait_time
    (self (run_methods dump_pretty_sample
             [Call_send_request "hi"; Call_refresh; Call_delete_context]
             (snd (__init__ loads_sample dumps_sample dump_pretty_sample
                     sample_config (boot quiet_page ∅))))) = 10%Z.
Proof.
  apply (constructed_attributes_fixed loads_sample dumps_sample
           dump_pretty_sample sample_config (boot quiet_page ∅)
           [Call_send_request "hi"; Call_refresh; Call_delete_context]).
  vm_compute. reflexivity.
Defined.

Lemma upload_needs_configuration_witness :
  upload_file (OnePath "report.pdf")
    (snd (__init__ loads_sample dumps_sample dump_pretty_sample plain_config
            (boot insistent_page ∅)))
  = (Ok false,
     snd (__init__ loads_sample dumps_sample dump_pretty_sample plain_config
            (boot insistent_page ∅))).
Proof.
  apply (proj2 (upload_needs_configuration loads_sample dumps_sample
                  dump_pretty_sample plain_config (boot insistent_page ∅) []
                  (OnePath "report.pdf") eq_refl)).
  vm_compute. reflexivity.
Defined.

Lemma init_adds_cookies_after_navigation_witness :
  exists rest,
    issued (__init__ loads_sample dumps_sample dump_pretty_sample sample_config)
      (boot quiet_page sample_disk)
    = start_steps sample_config ++ rest.
Proof.
  apply (init_adds_cookies_after_navigation loads_sample dumps_sample
           dump_pretty_sample sample_config (boot quiet_page sample_disk)
           (delete "domain" sample_cookie)).
  apply (list_elem_of_lookup_2 _ 4). vm_compute. reflexivity.
Defined.

Lemma init_fails_without_prompt_area_witness :
  exists e,
    fst (__init__ loads_sample dumps_sample dump_pretty_sample sample_config
           (boot blank_page ∅)) = Raise e.
Proof.
  apply (init_fails_without_prompt_area loads_sample dumps_sample
           dump_pretty_sample sample_config (boot blank_page ∅)).
  intros n t. exists TimeoutException. reflexivity.
Defined.

(** ** extract_json: what reaches the parser *)

Lemma str_app_cons c (s t : string) : String c s +:+ t = String c (s +:+ t).
Proof. reflexivity. Qed.

Lemma str_app_nil (t : string) : "" +:+ t = t.
Proof. reflexivity. Qed.

Lemma str_app_assoc (a b c : string) : (a +:+ b) +:+ c = a +:+ b +:+ c.
Proof.
  induction a as [|x a IH]; [reflexivity|].
  rewrite !str_app_cons, IH. reflexivity.
Qed.

(** The run found by [span_spaces] is white space from end to end, heads the
    text, and is followed by no white space. *)
Lemma span_spaces_spec n : forall s ws t,
  String.length s <= n ->
  Pattern.span_spaces s = (ws, t) ->
  s = ws +:+ t /\ Pattern.span_spaces ws = (ws, "") /\
  Pattern.span_spaces t = ("", t).
Proof.
  induction n as [|n IH]; intros s ws t Hlen H.
  - destruct s; [|simpl in Hlen; lia]. inversion H. auto.
  - destruct s as [|a r]; [inversion H; auto|].
    simpl in H, Hlen. destruct (Pattern.span_spaces r) as [w1 t1] eqn:E1.
    destruct (Pattern.space1 a) eqn:Ea.
    { inversion H; subst.
      destruct (IH r w1 t ltac:(lia) E1) as (-> & Hw & Ht).
      repeat split; auto. simpl. rewrite Ea, Hw. reflexivity. }
    destruct r as [|b r1]; [inversion H; subst; simpl; rewrite Ea; auto|].
    simpl in Hlen. destruct (Pattern.span_spaces r1) as [w2 t2] eqn:E2.
    destruct (Pattern.space2 a b) eqn:Eb.
    { inversion H; subst.
      destruct (IH r1 w2 t ltac:(lia) E2) as (-> & Hw & Ht).
      repeat split; auto. simpl. rewrite Ea, Eb, Hw. reflexivity. }
    destruct r1 as [|c r2];
      [inversion H; subst; simpl; rewrite Ea, Eb; auto|].
    simpl in Hlen. destruct (Pattern.span_spaces r2) as [w3 t3] eqn:E3.
    destruct (Pattern.space3 a b c) eqn:Ec.
    { inversion H; subst.
      destruct (IH r2 w3 t ltac:(lia) E3) as (-> & Hw & Ht).
      repeat split; auto. simpl. rewrite Ea, Eb, Ec, Hw. reflexivity. }
    inversion H; subst. repeat split; auto.
    simpl. rewrite Ea, Eb, Ec. reflexivity.
Qed.

(** White space ahead of a text that starts with none is the run found. *)
Lemma span_spaces_run n : forall ws t,
  String.length ws <= n ->
  Pattern.all_space ws = true ->
  Pattern.span_spaces t = ("", t) ->
  Pattern.span_spaces (ws +:+ t) = (ws, t).
Proof.
  unfold Pattern.all_space.
  induction n as [|n IH]; intros ws t Hlen Hws Ht.
  - destruct ws; [exact Ht|simpl in Hlen; lia].
  - destruct ws as [|a r]; [exact Ht|].
    simpl in Hws, Hlen. rewrite str_app_cons. simpl.
    destruct (Pattern.space1 a) eqn:Ea.
    { destruct (Pattern.span_spaces r) as [w1 t1] eqn:E1. simpl in Hws.
      rewrite (IH r t ltac:(lia) ltac:(rewrite E1; exact Hws) Ht).
      reflexivity. }
    destruct r as [|b r1]; [discriminate|].
    simpl in Hlen. rewrite str_app_cons.
    destruct (Pattern.space2 a b) eqn:Eb.
    { destruct (Pattern.span_spaces r1) as [w1 t1] eqn:E1. simpl in Hws.
      rewrite (IH r1 t ltac:(lia) ltac:(rewrite E1; exact Hws) Ht).
      reflexivity. }
    destruct r1 as [|c r2]; [discriminate|].
    simpl in Hlen. rewrite str_app_cons.
    destruct (Pattern.space3 a b c) eqn:Ec; [|discriminate].
    destruct (Pattern.span_spaces r2) as [w1 t1] eqn:E1. simpl in Hws.
    rewrite (IH r2 t ltac:(lia) ltac:(rewrite E1; exact Hws) Ht).
    reflexivity.
Qed.

Lemma after_prefix_app p r : Pattern.after_prefix p (p +:+ r) = Some r.
Proof.
  induction p as [|a p IH]; [reflexivity|].
  rewrite str_app_cons. simpl. rewrite Ascii.eqb_refl. exact IH.
Qed.

Lemma after_prefix_inv p : forall s r,
  Pattern.after_prefix p s = Some r -> s = p +:+ r.
Proof.
  induction p as [|a p IH]; intros s r H; simpl in H.
  - inversion H. reflexivity.
  - destruct s as [|b s]; [discriminate|].
    destruct (Ascii.eqb a b) eqn:E; [|discriminate].
    apply Ascii.eqb_eq in E. subst b. rewrite (IH _ _ H). reflexivity.
Qed.

Lemma through_brace_found body post :
  Pattern.through_brace (body +:+ String Pattern.close_brace post) <> None.
Proof.
  induction body as [|c body IH]; [discriminate|].
  rewrite str_app_cons. simpl.
  destruct (Ascii.eqb c Pattern.close_brace); [discriminate|].
  destruct (Pattern.through_brace _); [discriminate|contradiction].
Qed.

Lemma through_brace_first body post :
  Pattern.no_brace body = true ->
  Pattern.through_brace (body +:+ String Pattern.close_brace post)
  = Some (body +:+ String Pattern.close_brace "").
Proof.
  induction body as [|c body IH]; intros H; [reflexivity|].
  simpl in H. apply andb_true_iff in H as [Hc Hb].
  rewrite !str_app_cons. simpl.
  destruct (Ascii.eqb c Pattern.close_brace); [discriminate|].
  rewrite (IH Hb). reflexivity.
Qed.

Lemma through_brace_inv s : forall m,
  Pattern.through_brace s = Some m ->
  exists body post,
    Pattern.no_brace body = true /\
    m = body +:+ String Pattern.close_brace "" /\ s = m +:+ post.
Proof.
  induction s as [|c s IH]; intros m H; [discriminate|]. simpl in H.
  destruct (Ascii.eqb c Pattern.close_brace) eqn:E.
  - apply Ascii.eqb_eq in E. subst c. inversion H; subst.
    exists "", s. auto.
  - destruct (Pattern.through_brace s) as [m'|]; [|discriminate].
    inversion H; subst.
    destruct (IH m' eq_refl) as (body & post & Hb & -> & ->).
    exists (String c body), post. simpl. rewrite E, Hb. auto.
Qed.

(** What the pattern matches at the start of a text is a candidate. *)
Lemma match_here_inv s m :
  Pattern.match_here s = Some m ->
  exists ws body post,
    Pattern.all_space ws = true /\ Pattern.no_brace body = true /\
    m = Pattern.candidate ws body /\ s = m +:+ post.
Proof.
  destruct s as [|c r]; [discriminate|].
  unfold Pattern.match_here.
  destruct (Ascii.eqb c Pattern.open_brace) eqn:E; [|discriminate].
  apply Ascii.eqb_eq in E. subst c.
  destruct (Pattern.span_spaces r) as [ws r1] eqn:Es.
  destruct (span_spaces_spec _ r ws r1 (le_n _) Es) as (-> & Hws & _).
  destruct (Pattern.after_prefix Pattern.key r1) as [r2|] eqn:Ek;
    [|discriminate].
  apply after_prefix_inv in Ek. subst r1.
  destruct (Pattern.through_brace r2) as [b|] eqn:Eb; [|discriminate].
  destruct (through_brace_inv _ _ Eb) as (body & post & Hb & -> & ->).
  intros H. inversion H; subst. exists ws, body, post.
  unfold Pattern.all_space. rewrite Hws. repeat split; auto.
  unfold Pattern.candidate. rewrite str_app_cons, !str_app_assoc. reflexivity.
Qed.

Lemma span_spaces_key r :
  Pattern.span_spaces (Pattern.key +:+ r) = ("", Pattern.key +:+ r).
Proof. reflexivity. Qed.

(** A candidate at the start of a text is matched, up to its first closing
    brace. *)
Lemma match_here_candidate ws body post :
  Pattern.all_space ws = true ->
  Pattern.match_here (Pattern.candidate ws body +:+ post) <> None.
Proof.
  intros Hws. unfold Pattern.candidate, Pattern.match_here.
  rewrite str_app_cons, Ascii.eqb_refl, !str_app_assoc.
  rewrite (span_spaces_run _ ws _ (le_n _) Hws (span_spaces_key _)).
  rewrite after_prefix_app.
  pose proof (through_brace_found body ("" +:+ post)) as H.
  destruct (Pattern.through_brace _); [discriminate|contradiction].
Qed.

Lemma match_here_exact ws body post :
  Pattern.all_space ws = true -> Pattern.no_brace body = true ->
  Pattern.match_here (Pattern.candidate ws body +:+ post)
  = Some (Pattern.candidate ws body).
Proof.
  intros Hws Hb. unfold Pattern.candidate, Pattern.match_here.
  rewrite str_app_cons, Ascii.eqb_refl, !str_app_assoc.
  rewrite (span_spaces_run _ ws _ (le_n _) Hws (span_spaces_key _)).
  rewrite after_prefix_app.
  change (String Pattern.close_brace "" +:+ post)
    with (String Pattern.close_brace post).
  rewrite (through_brace_first body post Hb). reflexivity.
Qed.

(** [search] returns a match at some position of the text. *)
Lemma search_inv s : forall m,
  Pattern.search s = Some m ->
  exists pre t, s = pre +:+ t /\ Pattern.match_here t = Some m.
Proof.
  induction s as [|c s IH]; intros m H.
  - simpl in H. discriminate.
  - cbn [Pattern.search] in H.
    destruct (Pattern.match_here (String c s)) as [m'|] eqn:E.
    + inversion H; subst. exists "", (String c s). auto.
    + destruct (IH m H) as (pre & t & -> & Ht).
      exists (String c pre), t. auto.
Qed.

Lemma search_found pre : forall t,
  Pattern.match_here t <> None -> Pattern.search (pre +:+ t) <> None.
Proof.
  induction pre as [|c pre IH]; intros t Ht.
  - rewrite str_app_nil. destruct t as [|c t]; [contradiction|].
    cbn [Pattern.search]. destruct (Pattern.match_here (String c t));
      [discriminate|contradiction].
  - rewrite str_app_cons. cbn [Pattern.search].
    destruct (Pattern.match_here (String c (pre +:+ t))); [discriminate|].
    apply IH, Ht.
Qed.

Lemma search_skips pre : forall t,
  Pattern.no_open pre = true ->
  Pattern.search (pre +:+ t) = Pattern.search t.
Proof.
  induction pre as [|c pre IH]; intros t H; [reflexivity|].
  simpl in H. apply andb_true_iff in H as [Hc Hp].
  rewrite str_app_cons. cbn [Pattern.search].
  unfold Pattern.match_here at 1.
  destruct (Ascii.eqb c Pattern.open_brace); [discriminate|].
  apply IH, Hp.
Qed.

Section ExtractionProperties.

Context (json_loads : string -> Res json).

(** X20. What [extract_json] returns was parsed from a piece of the text
    of one shape: an opening brace, white space, the quoted key [cn] and a
    colon, then a body that holds no closing brace, then a closing brace.
    The parser never sees a second closing brace. *)
Theorem extract_json_parses_a_candidate text data :
  extract_json json_loads text = Ok (Some data) ->
  exists pre ws body post,
    text = pre +:+ Pattern.candidate ws body +:+ post /\
    Pattern.all_space ws = true /\ Pattern.no_brace body = true /\
    json_loads (Pattern.candidate ws body) = Ok data.
Proof.
  unfold extract_json. intros H.
  destruct (Pattern.search text) as [m|] eqn:Es; [|discriminate].
  destruct (search_inv _ _ Es) as (pre & t & -> & Ht).
  destruct (match_here_inv _ _ Ht) as (ws & body & post & Hws & Hb & -> & ->).
  exists pre, ws, body, post. repeat split; auto.
  destruct (json_loads (Pattern.candidate ws body)); congruence.
Qed.

(** X21. [extract_json] returns [None] exactly when the text holds, at no
    position, an opening brace, white space, the quoted key [cn] with its
    colon and, somewhere after, a closing brace. *)
Theorem extract_json_none_iff_no_candidate text :
  extract_json json_loads text = Ok None <->
  (forall pre ws body post,
     Pattern.all_space ws = true ->
     text <> pre +:+ Pattern.candidate ws body +:+ post).
Proof.
  unfold extract_json. split.
  - intros H pre ws body post Hws ->.
    pose proof (search_found pre _ (match_here_candidate ws body post Hws)).
    destruct (Pattern.search _); [|contradiction].
    destruct (json_loads s); discriminate.
  - intros H. destruct (Pattern.search text) as [m|] eqn:Es; [|reflexivity].
    destruct (search_inv _ _ Es) as (pre & t & -> & Ht).
    destruct (match_here_inv _ _ Ht) as (ws & body & post & Hws & _ & -> & ->).
    destruct (H pre ws body post Hws eq_refl).
Qed.

(** X22. After text without an opening brace, a candidate whose body holds
    no closing brace is what [json.loads] gets, and its outcome is the
    outcome of [extract_json], a [JSONDecodeError] included: nothing that
    follows the first closing brace is looked at. *)
Theorem extract_json_stops_at_first_brace pre ws body post :
  Pattern.no_open pre = true ->
  Pattern.all_space ws = true ->
  Pattern.no_brace body = true ->
  extract_json json_loads (pre +:+ Pattern.candidate ws body +:+ post)
  = match json_loads (Pattern.candidate ws body) with
    | Ok data => Ok (Some data)
    | Raise e => Raise e
    end.
Proof.
  intros Hpre Hws Hb. unfold extract_json.
  rewrite (search_skips pre _ Hpre).
  assert (Hs : Pattern.search (Pattern.candidate ws body +:+ post)
               = Some (Pattern.candidate ws body)).
  { pose proof (match_here_exact ws body post Hws Hb) as Hm.
    unfold Pattern.candidate in *. rewrite str_app_cons in *.
    cbn [Pattern.search]. rewrite Hm. reflexivity. }
  rewrite Hs. reflexivity.
Qed.

End ExtractionProperties.

Lemma extract_json_parses_a_candidate_witness :
  exists pre ws body post,
    "Sure: " +:+ sample_answer +:+ " Anything else?"
    = pre +:+ Pattern.candidate ws body +:+ post /\
    Pattern.all_space ws = true /\ Pattern.no_brace body = true /\
    loads_answer (Pattern.candidate ws body) = Ok (JObj (<["cn" := JInt 3]> ∅)).
Proof.
  apply (extract_json_parses_a_candidate loads_answer
           ("Sure: " +:+ sample_answer +:+ " Anything else?")).
  vm_compute. reflexivity.
Defined.

Lemma extract_json_stops_at_first_brace_witness :
  extract_json loads_answer ("Sure: " +:+ sample_answer +:+ "}")
  = Ok (Some (JObj (<["cn" := JInt 3]> ∅))).
Proof.
  exact (extract_json_stops_at_first_brace loads_answer "Sure: " " " " 3" "}"
           eq_refl eq_refl eq_refl).
Defined.

(** ** The batch script: what is sent and what is saved *)

Section ScriptProperties.

Context (pickle_loads : string -> Res (list string))
        (pickle_dumps : list string -> string).

Ltac same_index := first [reflexivity | do 4 f_equal; lia].

(** Turns for indices other than 15 bind [i] and do nothing else. *)
Lemma main_loop_skips batch_pairs : forall i v s,
  i + length batch_pairs <= 15 \/ 15 < i ->
  main_loop pickle_dumps i batch_pairs v s
  = (Ok match batch_pairs with
        | [] => v
        | _ => mkVars (Some (i + length batch_pairs - 1)) (response_data v)
                 (pauses v)
        end, s).
Proof.
  induction batch_pairs as [|c rest IH]; intros i v s Hi; [reflexivity|].
  cbn [main_loop length] in *. unfold bind, loop_body.
  assert (Hne : (i =? 15) = false) by (apply Nat.eqb_neq; lia).
  rewrite Hne. cbn [negb]. unfold ret at 1.
  rewrite IH by lia.
  destruct rest as [|c' rest]; cbn [length response_data pauses]; same_index.
Qed.

Lemma main_loop_app l1 : forall l2 i v s,
  main_loop pickle_dumps i (l1 ++ l2) v s
  = match main_loop pickle_dumps i l1 v s with
    | (Ok v', s') => main_loop pickle_dumps (i + length l1) l2 v' s'
    | (Raise e, s') => (Raise e, s')
    end.
Proof.
  induction l1 as [|c l1 IH]; intros l2 i v s.
  - cbn [app main_loop length]. unfold ret. rewrite Nat.add_0_r. reflexivity.
  - cbn [app main_loop length]. unfold bind.
    destruct (loop_body pickle_dumps i c v s) as [[v'|e] s']; [|reflexivity].
    rewrite IH. replace (S i + length l1) with (i + S (length l1)) by lia.
    reflexivity.
Qed.

(** The turn for index 15: one request, no file, one pause. *)
Lemma loop_body_15 context v s :
  loop_body pickle_dumps 15 context v s
  = match send_request (prompt_head +:+ context) s with
    | (Ok answer, s') =>
        (Ok (mkVars (Some 15) (response_data v ++ [answer]) (S (pauses v))),
         s')
    | (Raise e, s') => (Raise e, s')
    end.
Proof.
  unfold loop_body. change (negb (15 =? 15)) with false.
  change (15 mod 10 =? 0) with false. cbv iota. unfold bind, ret.
  destruct (send_request (prompt_head +:+ context) s) as [[a|e] s'];
    reflexivity.
Qed.

(** The loop over a batch that has an item 15. *)
Lemma main_loop_item_15 batch_pairs context s :
  batch_pairs !! 15 = Some context ->
  main_loop pickle_dumps 0 batch_pairs (mkVars None [] 0) s
  = match send_request (prompt_head +:+ context) s with
    | (Ok answer, s') =>
        (Ok (mkVars (Some (length batch_pairs - 1)) [answer] 1), s')
    | (Raise e, s') => (Raise e, s')
    end.
Proof.
  intros H15.
  pose proof (take_drop_middle _ _ _ H15) as Hsplit.
  pose proof (lookup_lt_Some _ _ _ H15) as Hlen.
  assert (Htake : length (take 15 batch_pairs) = 15)
    by (rewrite length_take; lia).
  rewrite <- Hsplit at 1. rewrite main_loop_app, main_loop_skips by lia.
  rewrite Htake. cbn [main_loop]. unfold bind. rewrite loop_body_15.
  destruct (send_request (prompt_head +:+ context) s) as [[a|e] s'];
    [|reflexivity].
  rewrite main_loop_skips by lia.
  assert (Hd : length (drop 16 batch_pairs) = length batch_pairs - 16)
    by apply length_drop.
  destruct (take 15 batch_pairs) as [|x xs]; [discriminate|].
  cbn [response_data pauses app].
  destruct (drop 16 batch_pairs) as [|y ys]; cbn [length] in *; same_index.
Qed.

(** X23. A batch of fifteen items or fewer sends no request: the script
    goes straight to the last save, of an empty list, in the file named
    after the last index.  With an empty batch [i] was never bound and the
    script ends in [NameError] before any file is opened. *)
Theorem main_body_short_batch batch_pairs s :
  length batch_pairs <= 15 ->
  main_body pickle_dumps batch_pairs s
  = match batch_pairs with
    | [] => (NameError, s)
    | _ =>
        match pickle_dump pickle_dumps
                (checkpoint_name (length batch_pairs - 1)) [] s with
        | (Ok _, s') =>
            (Completed (mkVars (Some (length batch_pairs - 1)) [] 0), s')
        | (Raise e, s') => (Failed e, s')
        end
    end.
Proof.
  intros Hlen. unfold main_body.
  rewrite main_loop_skips by (left; simpl; exact Hlen).
  destruct batch_pairs as [|c rest]; reflexivity.
Qed.

(** X24. Of a batch of sixteen items or more the script sends one request,
    the literal of line 618 followed by item 15, whatever the other items
    are.  If the request raises, the script ends with that exception.
    Otherwise it writes one file, named after the last index of the batch
    and holding that one answer, after one pause; no file is written in
    between. *)
Theorem main_body_sends_item_15_only batch_pairs context s :
  batch_pairs !! 15 = Some context ->
  main_body pickle_dumps batch_pairs s
  = match send_request (prompt_head +:+ context) s with
    | (Raise e, s1) => (Failed e, s1)
    | (Ok answer, s1) =>
        match pickle_dump pickle_dumps
                (checkpoint_name (length batch_pairs - 1)) [answer] s1 with
        | (Ok _, s2) =>
            (Completed (mkVars (Some (length batch_pairs - 1)) [answer] 1),
             s2)
        | (Raise e, s2) => (Failed e, s2)
        end
    end.
Proof.
  intros H15. unfold main_body. rewrite (main_loop_item_15 _ _ _ H15).
  destruct (send_request (prompt_head +:+ context) s) as [[a|e] s1];
    reflexivity.
Qed.

(** X25. When the one request raises, nothing is saved: the script ends
    with the exception and every file is as it was. *)
Theorem main_body_failed_request_saves_nothing batch_pairs context s e :
  batch_pairs !! 15 = Some context ->
  fst (send_request (prompt_head +:+ context) s) = Raise e ->
  fst (main_body pickle_dumps batch_pairs s) = Failed e /\
  files (snd (main_body pickle_dumps batch_pairs s)) = files s.
Proof.
  intros H15 Hraise. unfold main_body. rewrite (main_loop_item_15 _ _ _ H15).
  pose proof (any_send_request (fun s' => files s' = files s)
                ltac:(intros ? ? H; exact H) ltac:(intros ? ? H; exact H)
                (prompt_head +:+ context) s eq_refl) as Hfiles.
  destruct (send_request (prompt_head +:+ context) s) as [[a|e'] s1];
    simpl in *; [discriminate|].
  inversion Hraise; subst. auto.
Qed.

Context (json_loads : string -> Res json) (json_dumps : json -> string)
        (json_dump_pretty : list cookie -> string).

(** X26. When either pickled file is missing, the script ends with an
    exception after trying to open files for reading and nothing else: the
    browser is not launched. *)
Theorem main_needs_both_pickles cfg s :
  files s !! "FakeChatGPTAPI/total_chunks.pkl" = None \/
  files s !! "batch_pairs.pkl" = None ->
  let run := main pickle_loads pickle_dumps json_loads json_dumps
               json_dump_pretty cfg s in
  (exists e, fst run = Failed e) /\
  Forall (fun c => exists path, c = OpenRead path)
    (drop (length (log s)) (log (snd run))).
Proof.
  intros Hmiss run. subst run. unfold main, pickle_load, read_text, bind, lift.
  destruct (files s !! "FakeChatGPTAPI/total_chunks.pkl") as [t|] eqn:E1.
  - destruct Hmiss as [Hmiss|Hmiss]; [discriminate|].
    cbn [String.eqb Ascii.eqb].
    destruct (pickle_loads t) as [chunks|e].
    + cbn [files with_call]. rewrite Hmiss. cbn [fst snd log with_call].
      split; [eexists; reflexivity|].
      rewrite <- app_assoc, drop_app_length. repeat constructor; eexists;
        reflexivity.
    + cbn [fst snd log with_call]. split; [eexists; reflexivity|].
      rewrite drop_app_length. repeat constructor; eexists; reflexivity.
  - cbn [fst snd log with_call]. split; [eexists; reflexivity|].
    rewrite drop_app_length. repeat constructor; eexists; reflexivity.
Qed.

End ScriptProperties.

Lemma main_body_short_batch_witness :
  main_body dumps_lines ["a"; "b"] (ready quiet_page)
  = (Completed (mkVars (Some 1) [] 0),
     with_file "modilied_answer_add_1.pkl" ""
       (with_call (OpenWrite "modilied_answer_add_1.pkl") (ready quiet_page))).
Proof.
  rewrite (main_body_short_batch dumps_lines ["a"; "b"] (ready quiet_page))
    by (simpl; lia).
  reflexivity.
Defined.

Lemma main_body_sends_item_15_only_witness :
  fst (main_body dumps_lines (replicate 16 "Q" ++ ["R"]) (ready quiet_page))
  = Completed (mkVars (Some 16) ["answer"] 1).
Proof.
  rewrite (main_body_sends_item_15_only dumps_lines
             (replicate 16 "Q" ++ ["R"]) "Q" (ready quiet_page) eq_refl).
  vm_compute. reflexivity.
Defined.

Lemma main_body_failed_request_saves_nothing_witness :
  fst (main_body dumps_lines (replicate 16 "Q") (ready silent_page))
  = Failed UnboundLocalError /\
  files (snd (main_body dumps_lines (replicate 16 "Q") (ready silent_page)))
  = ∅.
Proof.
  apply (main_body_failed_request_saves_nothing dumps_lines
           (replicate 16 "Q") "Q" (ready silent_page) UnboundLocalError
           eq_refl).
  vm_compute. reflexivity.
Defined.

Lemma main_needs_both_pickles_witness :
  exists e,
    fst (main loads_lines dumps_lines loads_sample dumps_sample
           dump_pretty_sample sample_config (boot quiet_page sample_disk))
    = Failed e.
Proof.
  apply (main_needs_both_pickles loads_lines dumps_lines loads_sample
           dumps_sample dump_pretty_sample sample_config
           (boot quiet_page sample_disk)).
  left. reflexivity.
Defined.

Lemma del_is_idempotent_witness :
  snd (__del__ (with_self (set_is_context_created false) (ready quiet_page)))
  = with_self (set_is_context_created false) (ready quiet_page).
Proof.
  apply (proj1 (proj2 (proj2 (del_is_idempotent
           (with_self (set_is_context_created false) (ready quiet_page)))))).
  reflexivity.
Defined.

Lemma check_chatgpt4o_true_means_selected_witness :
  fst (check_chatgpt4o (ready labelled_page)) = Ok true /\
  issued check_chatgpt4o (ready labelled_page) = switch_steps 10 21 22.
Proof.
  split; [reflexivity|].
  destruct (proj1 (check_chatgpt4o_true_means_selected (ready labelled_page))
              eq_refl) as [[_ [e He]]|(v & g & Hv & Hg & Hrun)].
  - discriminate He.
  - inversion Hv. inversion Hg. subst v g. exact Hrun.
Defined.

Lemma extract_json_none_iff_no_candidate_witness :
  extract_json loads_answer "No answer, sorry." = Ok None /\
  "No answer, sorry." <> "No " +:+ Pattern.candidate " " "" +:+ " sorry.".
Proof.
  split; [reflexivity|].
  apply (proj1 (extract_json_none_iff_no_candidate loads_answer
                  "No answer, sorry.") eq_refl "No " " " "" " sorry.").
  reflexivity.
Defined.

(** ** The opening message *)

Lemma extends_refl s : extends s s.
Proof. exists []. rewrite app_nil_r. reflexivity. Qed.

Lemma extends_call s0 c s : extends s0 s -> extends s0 (with_call c s).
Proof. intros [d H]. exists (d ++ [c]). simpl. rewrite H, app_assoc. reflexivity. Qed.

Lemma extends_self s0 f s : extends s0 s -> extends s0 (with_self f s).
Proof. intros H. exact H. Qed.

(** The first call of the polling loop is the wait for the stop button. *)
Lemma poll_loop_first_call n la s :
  extends (with_call (WaitPresence (ByCss stop_button_css) 3) s)
    (snd (poll_loop (S n) la s)).
Proof.
  set (s' := with_call (WaitPresence (ByCss stop_button_css) 3) s).
  assert (Hc : forall c st, extends s' st -> extends s' (with_call c st))
    by (intros; apply extends_call; assumption).
  assert (Hs : forall f st, extends s' st -> extends s' (with_self f st))
    by (intros; assumption).
  cbn [poll_loop]. unfold bind at 1. rewrite poll_pass_unfolded. fold s'.
  pose proof (any_check_conditions (extends s') Hc Hs send_button_css
                continue_xpath 4 s' (extends_refl s')) as Hcc.
  destruct (check_conditions send_button_css continue_xpath 4 s')
    as [[sb|ex] s1]; cbn [snd] in Hcc.
  - cbv zeta.
    destruct (ans_elements (oracle s1) (clock s1) _) as [found|ex].
    + destruct (last found) as [e|].
      * apply (any_text_of (extends s') Hc). apply Hs, Hc, Hcc.
      * apply (preserves_bind (extends s')).
        -- apply (any_click_regen (extends s') Hc).
        -- intros _. apply (any_poll_loop (extends s') Hc Hs).
        -- apply Hc, Hcc.
    + apply (preserves_bind (extends s')).
      * apply (any_click_regen (extends s') Hc).
      * intros _. apply (any_poll_loop (extends s') Hc Hs).
      * apply Hc, Hcc.
  - apply (preserves_bind (extends s')).
    + apply (any_click_regen (extends s') Hc).
    + intros _. apply (any_poll_loop (extends s') Hc Hs).
    + exact Hcc.
Qed.

(** When the page takes every key sequence, the typing loop sends them all,
    in order, and does nothing else. *)
Lemma type_lines_run area lines : forall s,
  (forall n keys, ans_unit (oracle s) n (SendKeys area keys) = Ok tt) ->
  type_lines area lines s
  = (Ok tt,
     mkState (self s) (clock s + length (keys_of_lines lines))
       (log s ++ (SendKeys area <$> keys_of_lines lines)) (files s)
       (oracle s)).
Proof.
  induction lines as [|line rest IH]; intros s Hkeys.
  - destruct s. simpl. unfold ret. simpl.
    rewrite Nat.add_0_r, app_nil_r. reflexivity.
  - cbn [type_lines]. unfold bind at 1, send_keys at 1, invoke.
    rewrite Hkeys. unfold bind at 1, send_keys at 1, invoke.
    cbn [oracle with_call clock]. rewrite Hkeys.
    rewrite IH by exact Hkeys. cbn [self clock log files oracle with_call].
    f_equal. f_equal; [simpl; lia|].
    rewrite <- !app_assoc. reflexivity.
Qed.

Lemma type_request_run area request s :
  takes_typing (oracle s) area ->
  type_request area request s
  = (Ok tt,
     mkState (self s) (clock s + length (typing_steps area request))
       (log s ++ typing_steps area request) (files s) (oracle s)).
Proof.
  intros Htakes. unfold type_request.
  unfold bind at 1, execute_script, invoke.
  rewrite (proj1 (Htakes _)).
  unfold bind at 1, click, invoke. cbn [oracle with_call clock].
  rewrite (proj1 (proj2 (Htakes _))).
  rewrite type_lines_run by (intros n keys; apply (Htakes n)).
  cbn [self clock log files oracle with_call]. unfold typing_steps.
  f_equal. f_equal; [cbn [length]; rewrite length_fmap; lia|].
  rewrite <- !app_assoc. reflexivity.
Qed.

(** After the typing: the wait for the send button, the question whether
    the element it returned is enabled, a click on that element when it is,
    and the polling loop, which starts with the wait for the stop button. *)
Lemma press_send_then_poll s :
  let w := WaitClickable (ByCss send_button_css) (wait_time (self s)) in
  exists rest,
    log (snd ((press_send;; poll_loop 3 Unbound) s)) = log s ++ w :: rest /\
    forall b, ans_element (oracle s) (clock s) w = Ok b ->
    forall enabled,
      ans_bool (oracle s) (S (clock s)) (IsEnabled b) = Ok enabled ->
      exists rest',
        rest = IsEnabled b ::
               (if enabled then Click b
                else WaitPresence (ByCss stop_button_css) 3) :: rest'.
Proof.
  cbv zeta.
  assert (Hk : forall st,
             extends (with_call (WaitPresence (ByCss stop_button_css) 3) st)
               (snd (poll_loop 3 Unbound st)))
    by (intros; apply poll_loop_first_call).
  revert Hk. generalize (poll_loop 3 Unbound). intros k Hk.
  unfold press_send, bind, gets, wait_clickable, is_enabled, click, invoke,
    modify, ret. simpl.
  destruct (ans_element (oracle s) (clock s) _) as [b|e1]; simpl.
  2:{ exists []. split; [reflexivity|]. intros b Hb. discriminate. }
  destruct (ans_bool (oracle s) (S (clock s)) (IsEnabled b)) as [[|]|e2] eqn:E2;
    simpl.
  - destruct (ans_unit (oracle s) (S (S (clock s))) (Click b)) as [[]|e3]; simpl.
    + match goal with
      | |- context [k ?st] => destruct (Hk st) as [d Hd]; rewrite Hd
      end.
      simpl. rewrite <- !app_assoc. simpl. eexists. split; [reflexivity|].
      intros b' Hb en Hen. injection Hb as <-. rewrite E2 in Hen.
      injection Hen as <-. eexists. reflexivity.
    + rewrite <- !app_assoc. simpl. eexists. split; [reflexivity|].
      intros b' Hb en Hen. injection Hb as <-. rewrite E2 in Hen.
      injection Hen as <-. eexists. reflexivity.
  - match goal with
    | |- context [k ?st] => destruct (Hk st) as [d Hd]; rewrite Hd
    end.
    simpl. rewrite <- !app_assoc. simpl. eexists. split; [reflexivity|].
    intros b' Hb en Hen. injection Hb as <-. rewrite E2 in Hen.
    injection Hen as <-. eexists. reflexivity.
  - rewrite <- !app_assoc. simpl. eexists. split; [reflexivity|].
    intros b' Hb en Hen. injection Hb as <-. rewrite E2 in Hen. discriminate.
Qed.

Section OpeningMessage.

Context (json_loads : string -> Res json) (json_dumps : json -> string)
        (json_dump_pretty : list cookie -> string).

(** What precedes the opening message leaves the configured attributes and
    a prompt area. *)
Lemma prepare_operational cfg :
  ensures (fun _ => True)
    (prepare_session json_loads json_dumps json_dump_pretty cfg)
    (attr (operational cfg)).
Proof.
  unfold prepare_session.
  eapply ensures_bind; [apply ensures_true|intros _].
  eapply ensures_bind; [apply ensures_true|intros _].
  eapply ensures_bind with
    (R := fun s => driver_path (self s) = cfg_driver_path cfg).
  { apply ensures_modify. intros s _. reflexivity. }
  intros _.
  eapply ensures_bind with
    (R := fun s => driver_path (self s) = cfg_driver_path cfg /\
                   url (self s) = cfg_url cfg).
  { apply ensures_modify. intros s H. split; [exact H|reflexivity]. }
  intros _.
  eapply ensures_bind with (R := attr (configured cfg)).
  { apply ensures_modify. intros s [H1 H2]. repeat split; assumption. }
  intros _.
  do 5 (eapply ensures_bind;
        [ apply ensures_preserves; conv_frame;
          first [ apply any_load_cookies; intros; assumption
                | apply attr_manual_login ]
        | intros ? ]).
  eapply ensures_bind.
  { apply ensures_preserves. unfold select_model, check_chatgpt4o. conv_frame. }
  intros _. unfold locate_controls.
  do 2 (eapply ensures_bind; [apply ensures_preserves; conv_frame|intros ?]).
  eapply ensures_bind with (R := attr (operational cfg)).
  { apply ensures_modify. intros s H. split; [exact H|]. simpl. eauto. }
  intros _. apply ensures_preserves. conv_frame.
Qed.

(** With a context, the calls of [__init__] after the preparation are those
    of the request for the opening message. *)
Lemma init_opening cfg s s1 :
  Str.truthy (cfg_context_content cfg) = true ->
  prepare_session json_loads json_dumps json_dump_pretty cfg s = (Ok tt, s1) ->
  log (snd (__init__ json_loads json_dumps json_dump_pretty cfg s))
  = log (snd (send_request
                (Str.replace_char Str.at_sign Str.newline
                   (cfg_context_content cfg)) s1)).
Proof.
  intros Htruthy Hprep. unfold __init__.
  rewrite (bind_ok _ _ _ _ _ Hprep). unfold send_context. rewrite Htruthy.
  rewrite join_split_replace. unfold bind, ret, modify.
  destruct (send_request _ s1) as [[a|e] s2]; reflexivity.
Qed.

(** C4. With a non-empty [context_content], once the preparation has
    succeeded, the calls of [__init__] are those of the opening message: the
    configured text with every [@] replaced by a newline.  The keys sent
    are each line of that text followed by SHIFT+RETURN, cut short only
    when the page refuses a call.  When the page takes the typing, the
    calls are the focus script, a click on the prompt area, the key
    sequences, then the wait for the send button; the element that wait
    returns is asked whether it is enabled; it is clicked next when it
    reports enabled, and when it reports disabled no click follows: the
    next call is the first wait of the polling loop.  For
    [Hello@How are you?] the text is [Hello], a newline, [How are you?]. *)
Theorem context_content_is_opening_message :
  (forall cfg s,
     let request :=
       Str.replace_char Str.at_sign Str.newline (cfg_context_content cfg) in
     let s1 :=
       snd (prepare_session json_loads json_dumps json_dump_pretty cfg s) in
     let opening :=
       drop (length (log s1))
         (log (snd (__init__ json_loads json_dumps json_dump_pretty cfg s))) in
     let wait := WaitClickable (ByCss send_button_css) (cfg_wait_time cfg) in
     let typed := 2 + length (keys_of_lines (Str.split Str.newline request)) in
     Str.truthy (cfg_context_content cfg) = true ->
     fst (prepare_session json_loads json_dumps json_dump_pretty cfg s)
       = Ok tt ->
     exists area,
       prompt_text_area (self s1) = Some area /\
       typed_keys opening
         `prefix_of` keys_of_lines (Str.split Str.newline request) /\
       (takes_typing (oracle s1) area ->
        exists rest,
          opening = typing_steps area request ++ wait :: rest /\
          forall b,
            ans_element (oracle s1) (clock s1 + typed) wait = Ok b ->
            forall enabled,
              ans_bool (oracle s1) (S (clock s1 + typed)) (IsEnabled b)
                = Ok enabled ->
              exists rest',
                rest = IsEnabled b ::
                       (if enabled then Click b
                        else WaitPresence (ByCss stop_button_css) 3)
                       :: rest')) /\
  Str.join Str.nl (Str.split Str.at_sign "Hello@How are you?")
    = "Hello" +:+ Str.nl +:+ "How are you?".
Proof.
  split; [|reflexivity].
  intros cfg s. cbv zeta. intros Htruthy Hok.
  destruct (prepare_session json_loads json_dumps json_dump_pretty cfg s)
    as [r s1] eqn:Hprep. cbn [fst snd] in *. subst r.
  destruct (prepare_operational cfg s tt s1 I Hprep)
    as [(_ & _ & Hw) [area Harea]].
  rewrite (init_opening cfg s s1 Htruthy Hprep).
  set (request := Str.replace_char Str.at_sign Str.newline
                    (cfg_context_content cfg)).
  change (drop (length (log s1)) (log (snd (send_request request s1))))
    with (issued (send_request request) s1).
  exists area. split; [exact Harea|]. split.
  { apply (send_request_keys request s1 area Harea). }
  intros Htakes.
  assert (Hrun : send_request request s1
                 = (type_request area request;;
                    (press_send;; poll_loop 3 Unbound)) s1).
  { unfold send_request, submit. unfold bind at 1, gets. rewrite Harea.
    apply bind_assoc. }
  unfold issued. rewrite Hrun. unfold bind at 1.
  rewrite (type_request_run area request s1 Htakes).
  match goal with
  | |- context [(press_send;; poll_loop 3 Unbound) ?st] => set (s2 := st)
  end.
  destruct (press_send_then_poll s2) as (rest & Hlog & Hb). cbv zeta in *.
  subst s2. cbn [log self oracle clock] in Hlog, Hb. rewrite Hw in Hlog, Hb.
  assert (Htyped : length (typing_steps area request)
                   = 2 + length (keys_of_lines (Str.split Str.newline request)))
    by (unfold typing_steps; cbn [length]; rewrite length_fmap; reflexivity).
  rewrite Htyped in Hb.
  exists rest. split.
  - rewrite Hlog, <- app_assoc, drop_app_length. reflexivity.
  - exact Hb.
Qed.

End OpeningMessage.

Lemma context_content_is_opening_message_witness :
  exists rest,
    drop
      (length (log (snd (prepare_session loads_sample dumps_sample
                           dump_pretty_sample sample_config
                           (boot labelled_page ∅)))))
      (log (snd (__init__ loads_sample dumps_sample dump_pretty_sample
                   sample_config (boot labelled_page ∅))))
    = typing_steps 1 ("Hello" +:+ Str.nl +:+ "How are you?")
      ++ WaitClickable (ByCss send_button_css) 10
      :: IsEnabled 9 :: Click 9 :: rest.
Proof.
  assert (Hprep : fst (prepare_session loads_sample dumps_sample
                         dump_pretty_sample sample_config
                         (boot labelled_page ∅)) = Ok tt)
    by (vm_compute; reflexivity).
  destruct (proj1 (context_content_is_opening_message loads_sample
                     dumps_sample dump_pretty_sample)
              sample_config (boot labelled_page ∅) eq_refl Hprep)
    as (area & Harea & _ & H).
  assert (Hone : area = 1) by (vm_compute in Harea; congruence). subst area.
  destruct H as (rest & Hopening & Hbutton).
  { intros n. repeat split. }
  assert (Hclick : exists rest', rest = IsEnabled 9 :: Click 9 :: rest').
  { apply (Hbutton 9) with (enabled := true); vm_compute; reflexivity. }
  destruct Hclick as [rest' ->].
  exists rest'. exact Hopening.
Defined.

(** C4, as stated, fails: the send button reports disabled, [__init__]
    completes with the opening message typed and never clicks the button.
    The only click is the one on the prompt area. *)
Lemma init_types_without_submitting :
  fst (__init__ loads_sample dumps_sample dump_pretty_sample sample_config
         (boot disabled_page ∅)) = Ok tt /\
  drop
    (length (log (snd (prepare_session loads_sample dumps_sample
                         dump_pretty_sample sample_config
                         (boot disabled_page ∅)))))
    (log (snd (__init__ loads_sample dumps_sample dump_pretty_sample
                 sample_config (boot disabled_page ∅))))
  = [ ExecuteScript focus_script 1; Click 1;
      SendKeys 1 [Chars "Hello"]; SendKeys 1 [Key_SHIFT; Key_RETURN];
      SendKeys 1 [Chars "How are you?"]; SendKeys 1 [Key_SHIFT; Key_RETURN];
      WaitClickable (ByCss send_button_css) 10; IsEnabled 9;
      WaitPresence (ByCss stop_button_css) 3;
      WaitPresence (ByCss send_button_css) 10;
      WaitPresence (ByXPath continue_xpath) 5;
      WaitAllPresence (ByCss assistant_css) 10; GetText 3 ].
Proof. split; vm_compute; reflexivity. Qed.
